(** * bp_lib: a shallow embedding of the BitPay client library

    The development follows [bp_lib.py] function by function.  The Python 2
    standard-library calls the module relies on ([hmac], [hashlib.sha256],
    [binascii], [json], [str], [str.strip], [urllib.urlencode]) are given as
    executable models first; the functions of [bp_lib.py] come after them, in
    a state-and-exception monad over a small object heap, followed by the
    properties proved about them. *)

From Stdlib Require Import ZArith Lia Ascii String List DecimalString.
From stdpp Require Import gmap strings list fin_maps.

Local Open Scope string_scope.
Local Open Scope Z_scope.

(** ** Byte strings

    A Python 2 [str] is a sequence of bytes: it is a Rocq [string]. *)

Definition byte_of (c : ascii) : Z := Z.of_N (N_of_ascii c).
Definition chr (z : Z) : ascii := ascii_of_N (Z.to_N (z mod 256)).

Definition bytes_of (s : string) : list Z := map byte_of (list_ascii_of_string s).
Definition str_of_bytes (l : list Z) : string := string_of_list_ascii (map chr l).

(** [s[:-1]]: every character but the last one; the empty string stays empty. *)
Fixpoint slice_to_minus1 (s : string) : string :=
  match s with
  | EmptyString => EmptyString
  | String c EmptyString => EmptyString
  | String c rest => String c (slice_to_minus1 rest)
  end.

(** [c * n] for a one-character string [c]. *)
Fixpoint str_repeat (c : ascii) (n : nat) : string :=
  match n with
  | O => EmptyString
  | S n' => String c (str_repeat c n')
  end.

(** ** hashlib.sha256 (FIPS 180-4), on 32-bit words held in [Z] *)

Module SHA256.

Definition wrap (x : Z) : Z := x mod 2 ^ 32.
Definition add32 (x y : Z) : Z := wrap (x + y).
Definition not32 (x : Z) : Z := Z.lxor x (2 ^ 32 - 1).
Definition rotr (n x : Z) : Z := Z.lor (Z.shiftr x n) (wrap (Z.shiftl x (32 - n))).

Definition ch (x y z : Z) : Z := Z.lxor (Z.land x y) (Z.land (not32 x) z).
Definition maj (x y z : Z) : Z :=
  Z.lxor (Z.lxor (Z.land x y) (Z.land x z)) (Z.land y z).
Definition big_sigma0 (x : Z) : Z := Z.lxor (Z.lxor (rotr 2 x) (rotr 13 x)) (rotr 22 x).
Definition big_sigma1 (x : Z) : Z := Z.lxor (Z.lxor (rotr 6 x) (rotr 11 x)) (rotr 25 x).
Definition small_sigma0 (x : Z) : Z := Z.lxor (Z.lxor (rotr 7 x) (rotr 18 x)) (Z.shiftr x 3).
Definition small_sigma1 (x : Z) : Z := Z.lxor (Z.lxor (rotr 17 x) (rotr 19 x)) (Z.shiftr x 10).

Definition round_constants : list Z :=
  [ 0x428A2F98; 0x71374491; 0xB5C0FBCF; 0xE9B5DBA5;
    0x3956C25B; 0x59F111F1; 0x923F82A4; 0xAB1C5ED5;
    0xD807AA98; 0x12835B01; 0x243185BE; 0x550C7DC3;
    0x72BE5D74; 0x80DEB1FE; 0x9BDC06A7; 0xC19BF174;
    0xE49B69C1; 0xEFBE4786; 0x0FC19DC6; 0x240CA1CC;
    0x2DE92C6F; 0x4A7484AA; 0x5CB0A9DC; 0x76F988DA;
    0x983E5152; 0xA831C66D; 0xB00327C8; 0xBF597FC7;
    0xC6E00BF3; 0xD5A79147; 0x06CA6351; 0x14292967;
    0x27B70A85; 0x2E1B2138; 0x4D2C6DFC; 0x53380D13;
    0x650A7354; 0x766A0ABB; 0x81C2C92E; 0x92722C85;
    0xA2BFE8A1; 0xA81A664B; 0xC24B8B70; 0xC76C51A3;
    0xD192E819; 0xD6990624; 0xF40E3585; 0x106AA070;
    0x19A4C116; 0x1E376C08; 0x2748774C; 0x34B0BCB5;
    0x391C0CB3; 0x4ED8AA4A; 0x5B9CCA4F; 0x682E6FF3;
    0x748F82EE; 0x78A5636F; 0x84C87814; 0x8CC70208;
    0x90BEFFFA; 0xA4506CEB; 0xBEF9A3F7; 0xC67178F2 ].

Definition initial_state : list Z :=
  [ 0x6A09E667; 0xBB67AE85; 0x3C6EF372; 0xA54FF53A;
    0x510E527F; 0x9B05688C; 0x1F83D9AB; 0x5BE0CD19 ].

(** Big-endian packing of bytes into words and back. *)
Fixpoint words_of_bytes (l : list Z) : list Z :=
  match l with
  | a :: b :: c :: d :: rest =>
      (((a * 256 + b) * 256 + c) * 256 + d) :: words_of_bytes rest
  | _ => []
  end.

Definition bytes_of_word (w : Z) : list Z :=
  [ Z.shiftr w 24 mod 256; Z.shiftr w 16 mod 256; Z.shiftr w 8 mod 256; w mod 256 ].

(** The message followed by the bit 1, zero bits up to 56 modulo 64 bytes,
    and the bit length as a 64-bit big-endian number. *)
Definition pad (msg : list Z) : list Z :=
  let n := Z.of_nat (length msg) in
  let zeros := Z.to_nat ((55 - n) mod 64) in
  let bits := n * 8 in
  msg ++ [128] ++ repeat 0 zeros
      ++ bytes_of_word (Z.shiftr bits 32) ++ bytes_of_word bits.

Fixpoint blocks (fuel : nat) (l : list Z) : list (list Z) :=
  match fuel, l with
  | O, _ => []
  | _, [] => []
  | S fuel', _ => firstn 64 l :: blocks fuel' (skipn 64 l)
  end.

(** The message schedule, most recent word first: [extend] adds
    [W_t = ssig1(W_(t-2)) + W_(t-7) + ssig0(W_(t-15)) + W_(t-16)]. *)
Definition extend (rev_w : list Z) : list Z :=
  let at_ i := nth i rev_w 0 in
  add32 (add32 (small_sigma1 (at_ 1%nat)) (at_ 6%nat))
        (add32 (small_sigma0 (at_ 14%nat)) (at_ 15%nat)) :: rev_w.

Definition schedule (block : list Z) : list Z :=
  rev (Nat.iter 48 extend (rev (words_of_bytes block))).

Definition round (st : list Z) (kw : Z * Z) : list Z :=
  match st with
  | [a; b; c; d; e; f; g; h] =>
      let t1 := add32 (add32 (add32 h (big_sigma1 e)) (add32 (ch e f g) (fst kw))) (snd kw) in
      let t2 := add32 (big_sigma0 a) (maj a b c) in
      [add32 t1 t2; a; b; c; add32 d t1; e; f; g]
  | _ => st
  end.

Definition compress (st : list Z) (block : list Z) : list Z :=
  let st' := fold_left round (combine round_constants (schedule block)) st in
  map (fun p => add32 (fst p) (snd p)) (combine st st').

Definition digest_bytes (msg : list Z) : list Z :=
  let padded := pad msg in
  concat (map bytes_of_word
              (fold_left compress (blocks (length padded) padded) initial_state)).

(** [sha256(s).digest()] *)
Definition digest (s : string) : string := str_of_bytes (digest_bytes (bytes_of s)).

Definition block_size : nat := 64.

End SHA256.

(** ** hmac.new(key, msg, sha256).digest(), as in Python 2's [hmac.py] *)

Module HMAC.

(** [key.translate(trans_5C)] and [key.translate(trans_36)]: every byte
    xor-ed with a constant. *)
Definition translate (x : Z) (key : string) : string :=
  str_of_bytes (map (fun b => Z.lxor b x) (bytes_of key)).

Definition digest (key msg : string) : string :=
  let key1 :=
    if Nat.ltb SHA256.block_size (String.length key) then SHA256.digest key else key in
  let key2 := key1 +:+ str_repeat (chr 0) (SHA256.block_size - String.length key1) in
  let inner := SHA256.digest (translate 0x36 key2 +:+ msg) in
  SHA256.digest (translate 0x5C key2 +:+ inner).

End HMAC.

(** ** binascii.b2a_base64 *)

Module Base64.

Definition table : list ascii :=
  list_ascii_of_string
    "ABCDEFGHIJKLMNOPQRSTUVWXYZabcdefghijklmnopqrstuvwxyz0123456789+/".

Definition digit (n : Z) : ascii := nth (Z.to_nat (n mod 64)) table "="%char.

(** Three bytes give four digits; a final group of one or two bytes is
    completed with [=]. *)
Fixpoint encode_bytes (l : list Z) : list ascii :=
  match l with
  | [] => []
  | [a] =>
      [digit (Z.shiftr a 2); digit (Z.shiftl (Z.land a 3) 4); "="%char; "="%char]
  | [a; b] =>
      [digit (Z.shiftr a 2);
       digit (Z.lor (Z.shiftl (Z.land a 3) 4) (Z.shiftr b 4));
       digit (Z.shiftl (Z.land b 15) 2); "="%char]
  | a :: b :: c :: rest =>
      digit (Z.shiftr a 2)
        :: digit (Z.lor (Z.shiftl (Z.land a 3) 4) (Z.shiftr b 4))
        :: digit (Z.lor (Z.shiftl (Z.land b 15) 2) (Z.shiftr c 6))
        :: digit (Z.land c 63)
        :: encode_bytes rest
  end.

(** The base64 encoding of a byte string (RFC 4648, with padding). *)
Definition encode (s : string) : string :=
  string_of_list_ascii (encode_bytes (bytes_of s)).

Definition newline : ascii := ascii_of_nat 10.

(** [binascii.b2a_base64(s)]: the encoding as one line, newline included. *)
Definition b2a_base64 (s : string) : string :=
  encode s +:+ String newline EmptyString.

End Base64.

(** ** bpHash (bp_lib.py, lines 236-246) *)

Definition bpHash (data key : string) : string :=
  let hashed := HMAC.digest key data in
  slice_to_minus1 (Base64.b2a_base64 hashed).

Definition hex_digit (n : Z) : ascii :=
  nth (Z.to_nat (n mod 16)) (list_ascii_of_string "0123456789abcdef") "0"%char.

Definition hexdigest (s : string) : string :=
  string_of_list_ascii
    (concat (map (fun b => [hex_digit (Z.shiftr b 4); hex_digit b]) (bytes_of s))).

(** ** Python values

    The values the library handles are the JSON-like ones: [None], booleans,
    integers, byte strings ([str]), [unicode] strings (a list of code
    points), lists and dictionaries with string keys.  A dictionary key is
    a byte string; a [unicode] key made of ASCII characters only is the same
    key as the [str] with these characters, as it is for Python's [dict].
    Floating-point numbers are not represented. *)

Local Unset Elimination Schemes.
#[warnings="-register-all"]
Inductive value :=
| VNone
| VBool (b : bool)
| VInt (z : Z)
| VStr (s : string)
| VUni (u : list N)
| VList (l : list value)
| VDict (d : gmap string value).
Local Set Elimination Schemes.

(** ** Outcomes

    A call returns, raises, or leaves what the model covers
    ([Unmodelled]: the behaviour of the interpreter there depends on
    floating point, on the UTF-8 codec, on the build's integer width or on
    the iteration order of a dictionary). *)

Inductive exn :=
| KeyError (key : string)
| TypeError
| ValueError
| AttributeError
| UnicodeEncodeError
| IOError
| URLError.

Inductive result (A : Type) :=
| Ok (a : A)
| Raise (e : exn)
| Unmodelled.
Arguments Ok {A} a.
Arguments Raise {A} e.
Arguments Unmodelled {A}.

Definition rbind {A B} (r : result A) (f : A -> result B) : result B :=
  match r with
  | Ok a => f a
  | Raise e => Raise e
  | Unmodelled => Unmodelled
  end.

Definition rmap {A B} (f : A -> B) (r : result A) : result B :=
  rbind r (fun a => Ok (f a)).

Declare Scope result_scope.
Delimit Scope result_scope with result.
Notation "x <~ r ; k" := (rbind r (fun x => k))
  (at level 100, r at next level, right associativity) : result_scope.
Local Open Scope result_scope.

Section ResultTraversal.
Context {A B : Type} (f : A -> result B).

Fixpoint result_mapM (l : list A) : result (list B) :=
  match l with
  | [] => Ok []
  | x :: rest =>
      y <~ f x;
      ys <~ result_mapM rest;
      Ok (y :: ys)
  end.
End ResultTraversal.

(** [dict(map(f, d.iteritems()))] for an [f] that keeps the keys. *)
Definition result_map_values (f : value -> result value) (d : gmap string value)
  : result (gmap string value) :=
  map_fold (fun k x acc => m <~ acc; y <~ f x; Ok (<[k:=y]> m)) (Ok ∅) d.

(** ** Characters and unicode strings *)

Definition code (c : ascii) : N := N_of_ascii c.
Definition uni_of_str (s : string) : list N := map code (list_ascii_of_string s).
Definition str_of_codes (u : list N) : string := string_of_list_ascii (map ascii_of_N u).

Definition ascii_only (s : string) : bool :=
  forallb (fun c => N.ltb (code c) 128) (list_ascii_of_string s).
Definition ascii_codes (u : list N) : bool := forallb (fun n => N.ltb n 128) u.

(** [str(u)] and [u.encode('ascii')] for a unicode string. *)
Definition encode_ascii (u : list N) : result string :=
  if ascii_codes u then Ok (str_of_codes u) else Raise UnicodeEncodeError.

Definition double_quote : ascii := ascii_of_nat 34.
Definition apostrophe : ascii := ascii_of_nat 39.
Definition backslash : ascii := ascii_of_nat 92.

(** Writes a text that is full of double quotes with apostrophes instead. *)
Fixpoint dq (s : string) : string :=
  match s with
  | EmptyString => EmptyString
  | String c rest =>
      String (if Ascii.eqb c apostrophe then double_quote else c) (dq rest)
  end.

Fixpoint str_join (sep : string) (l : list string) : string :=
  match l with
  | [] => ""
  | [x] => x
  | x :: rest => x +:+ sep +:+ str_join sep rest
  end.

Definition str_concat (l : list string) : string := fold_right String.append "" l.

Definition decimal (z : Z) : string := NilZero.string_of_int (Z.to_int z).

(** ** Truth value, equality *)

Definition truthy (v : value) : bool :=
  match v with
  | VNone => false
  | VBool b => b
  | VInt z => negb (z =? 0)
  | VStr s => negb (String.eqb s "")
  | VUni u => negb (Nat.eqb (length u) 0)
  | VList l => negb (Nat.eqb (length l) 0)
  | VDict d => negb (Nat.eqb (size d) 0)
  end.

Definition int_of_bool (b : bool) : Z := if b then 1 else 0.

(** [a == b].  A [str] equals a [unicode] when it is ASCII and has the same
    characters; a boolean is the integer 0 or 1. *)
Fixpoint py_eq (a b : value) : bool :=
  match a, b with
  | VNone, VNone => true
  | VBool x, VBool y => Bool.eqb x y
  | VBool x, VInt y => int_of_bool x =? y
  | VInt x, VBool y => x =? int_of_bool y
  | VInt x, VInt y => x =? y
  | VStr x, VStr y => String.eqb x y
  | VUni x, VUni y => bool_decide (x = y)
  | VStr x, VUni y => ascii_only x && bool_decide (uni_of_str x = y)
  | VUni x, VStr y => ascii_only y && bool_decide (x = uni_of_str y)
  | VList x, VList y =>
      (fix go (l1 l2 : list value) : bool :=
         match l1, l2 with
         | [], [] => true
         | v1 :: r1, v2 :: r2 => py_eq v1 v2 && go r1 r2
         | _, _ => false
         end) x y
  | VDict x, VDict y =>
      Nat.eqb (size x) (size y)
      && map_fold (fun k v acc =>
                     acc && match y !! k with
                            | Some v' => py_eq v v'
                            | None => false
                            end) true x
  | _, _ => false
  end.

(** ** str.strip() *)

Definition is_space (c : ascii) : bool :=
  let n := code c in (N.eqb n 32 || (N.leb 9 n && N.leb n 13))%bool.

Fixpoint lstrip (s : string) : string :=
  match s with
  | EmptyString => EmptyString
  | String c rest => if is_space c then lstrip rest else s
  end.

Fixpoint rstrip (s : string) : string :=
  match s with
  | EmptyString => EmptyString
  | String c rest =>
      match rstrip rest with
      | EmptyString => if is_space c then EmptyString else String c EmptyString
      | rest' => String c rest'
      end
  end.

Definition strip (s : string) : string := rstrip (lstrip s).

(** ** str() and repr() *)

Definition two_hex (n : Z) : string :=
  String (hex_digit (Z.shiftr n 4)) (String (hex_digit n) EmptyString).

Definition contains_char (c : ascii) (s : string) : bool :=
  existsb (Ascii.eqb c) (list_ascii_of_string s).

(** [repr] of a [str]: apostrophes around it, or double quotes when it has
    an apostrophe and no double quote. *)
Definition repr_str (s : string) : string :=
  let quote :=
    if contains_char apostrophe s && negb (contains_char double_quote s)
    then double_quote else apostrophe in
  let esc (c : ascii) : string :=
    let n := byte_of c in
    if (Ascii.eqb c quote || Ascii.eqb c backslash)%bool
    then String backslash (String c EmptyString)
    else if n =? 9 then String backslash "t"
    else if n =? 10 then String backslash "n"
    else if n =? 13 then String backslash "r"
    else if ((n <? 32) || (127 <=? n))%bool then String backslash "x" +:+ two_hex n
    else String c EmptyString in
  String quote (str_concat (map esc (list_ascii_of_string s)))
    +:+ String quote EmptyString.

(** [repr] of an [int] or [long]: a [long] ends in [L]; whether a number
    between 32 and 64 bits is a [long] depends on the build. *)
Definition repr_int (z : Z) : result string :=
  if ((- 2 ^ 31 <=? z) && (z <? 2 ^ 31))%bool then Ok (decimal z)
  else if ((z <? - 2 ^ 63) || (2 ^ 63 <=? z))%bool then Ok (decimal z +:+ "L")
  else Unmodelled.

Fixpoint py_repr (v : value) : result string :=
  match v with
  | VNone => Ok "None"
  | VBool b => Ok (if b then "True" else "False")
  | VInt z => repr_int z
  | VStr s => Ok (repr_str s)
  | VUni _ => Unmodelled
  | VList l =>
      items <~ result_mapM py_repr l;
      Ok ("[" +:+ str_join ", " items +:+ "]")
  | VDict _ => Unmodelled
  end.

Definition py_str (v : value) : result string :=
  match v with
  | VStr s => Ok s
  | VUni u => encode_ascii u
  | VInt z => Ok (decimal z)
  | _ => py_repr v
  end.

(** ** sanitize_dict (bp_lib.py, lines 205-213)

    [basestring] covers [str] and [unicode].  The items of a mapping are
    (key, value) tuples, which are iterables: each is rebuilt as the tuple
    of its sanitized key and value, and a key is a string. *)

Fixpoint sanitize_dict (data : value) : result value :=
  match data with
  | VStr s => Ok (VStr s)
  | VUni u => rmap VStr (encode_ascii u)
  | VDict d => rmap VDict (result_map_values sanitize_dict d)
  | VList l => rmap VList (result_mapM sanitize_dict l)
  | _ => Ok data
  end.

(** ** json.dumps and json.loads (Python 2.7, default arguments)

    Limits of the model.  A dictionary is written with its keys in the
    order of the map, which is not the order of the interpreter's hash
    table: the length of the text and what it decodes to do not depend on
    it, the text itself does.  The decoder has no recursion limit: on a
    text nested deeper than the interpreter's stack allows, Python raises
    [RuntimeError] where the model goes on.  Floating-point numbers,
    bytes outside ASCII and surrogates are [Unmodelled]. *)

Module Json.

Definition hex4 (n : N) : string :=
  let z := Z.of_N n in
  two_hex (Z.shiftr z 8) +:+ two_hex z.

(** One character of a string, with [ensure_ascii]: quote and backslash
    are escaped, [\b \f \n \r \t] are short escapes, every other
    character outside space..tilde is [\uXXXX]. *)
Definition escape_code (n : N) : result string :=
  let bs (c : string) := Ok (String backslash c) in
  if N.eqb n 34 then bs (String double_quote "")
  else if N.eqb n 92 then bs (String backslash "")
  else if N.eqb n 8 then bs "b"
  else if N.eqb n 12 then bs "f"
  else if N.eqb n 10 then bs "n"
  else if N.eqb n 13 then bs "r"
  else if N.eqb n 9 then bs "t"
  else if (N.leb 32 n && N.leb n 126)%bool then Ok (String (ascii_of_N n) "")
  else if N.ltb n 65536 then bs ("u" +:+ hex4 n)
  else Unmodelled.

Definition dumps_codes (u : list N) : result string :=
  parts <~ result_mapM escape_code u;
  Ok (String double_quote (str_concat parts) +:+ String double_quote "").

(** A [str] is decoded as UTF-8 first: only ASCII is covered. *)
Definition dumps_str (s : string) : result string :=
  if ascii_only s then dumps_codes (uni_of_str s) else Unmodelled.

Fixpoint dumps (v : value) : result string :=
  match v with
  | VNone => Ok "null"
  | VBool b => Ok (if b then "true" else "false")
  | VInt z => Ok (decimal z)
  | VStr s => dumps_str s
  | VUni u => dumps_codes u
  | VList l =>
      items <~ result_mapM dumps l;
      Ok ("[" +:+ str_join ", " items +:+ "]")
  | VDict d =>
      items <~ map_fold (fun k x acc =>
                           rest <~ acc;
                           ks <~ dumps_str k;
                           vs <~ dumps x;
                           Ok ((ks +:+ ": " +:+ vs) :: rest)) (Ok []) d;
      Ok ("{" +:+ str_join ", " items +:+ "}")
  end.

(** *** The decoder, on a list of character codes *)

Definition is_char (ch : ascii) (c : N) : bool := N.eqb c (code ch).
Definition QUOTE : ascii := double_quote.

Definition is_ws (c : N) : bool :=
  (N.eqb c 32 || N.eqb c 9 || N.eqb c 10 || N.eqb c 13)%bool.

Fixpoint skip_ws (l : list N) : list N :=
  match l with
  | c :: rest => if is_ws c then skip_ws rest else l
  | [] => []
  end.

Definition is_digit (c : N) : bool := (N.leb 48 c && N.leb c 57)%bool.

Definition hex_value (c : N) : option N :=
  if is_digit c then Some (c - 48)%N
  else if (N.leb 97 c && N.leb c 102)%bool then Some (c - 87)%N
  else if (N.leb 65 c && N.leb c 70)%bool then Some (c - 55)%N
  else None.

Definition hex4_value (a b c d : N) : option N :=
  match hex_value a, hex_value b, hex_value c, hex_value d with
  | Some x, Some y, Some z, Some t => Some (((x * 16 + y) * 16 + z) * 16 + t)%N
  | _, _, _, _ => None
  end.

Definition is_surrogate (n : N) : bool := (N.leb 55296 n && N.leb n 57343)%bool.

Definition short_escape (c : N) : option N :=
  if is_char QUOTE c then Some 34%N
  else if is_char backslash c then Some 92%N
  else if is_char "/" c then Some 47%N
  else if is_char "b" c then Some 8%N
  else if is_char "f" c then Some 12%N
  else if is_char "n" c then Some 10%N
  else if is_char "r" c then Some 13%N
  else if is_char "t" c then Some 9%N
  else None.

(** The characters of a string up to its closing quote ([l] starts after
    the opening one), strict: a control character is refused. *)
Fixpoint scan_string (l : list N) (acc : list N) : result (list N * list N) :=
  match l with
  | [] => Raise ValueError
  | c :: rest =>
      if is_char QUOTE c then Ok (rev acc, rest)
      else if is_char backslash c then
        match rest with
        | [] => Raise ValueError
        | e :: rest1 =>
            if is_char "u" e then
              match rest1 with
              | h1 :: h2 :: h3 :: h4 :: rest2 =>
                  match hex4_value h1 h2 h3 h4 with
                  | Some n =>
                      if is_surrogate n then Unmodelled
                      else scan_string rest2 (n :: acc)
                  | None => Raise ValueError
                  end
              | _ => Raise ValueError
              end
            else
              match short_escape e with
              | Some n => scan_string rest1 (n :: acc)
              | None => Raise ValueError
              end
        end
      else if N.ltb c 32 then Raise ValueError
      else scan_string rest (c :: acc)
  end.

Fixpoint span_digits (l : list N) : list N * list N :=
  match l with
  | c :: rest =>
      if is_digit c then let '(ds, r) := span_digits rest in (c :: ds, r)
      else ([], l)
  | [] => ([], [])
  end.

Definition int_of_digits (ds : list N) : Z :=
  fold_left (fun acc c => acc * 10 + Z.of_N (c - 48)) ds 0.

Definition starts_fraction (l : list N) : bool :=
  match l with
  | c :: d :: _ => is_char "." c && is_digit d
  | _ => false
  end.

Definition starts_exponent (l : list N) : bool :=
  match l with
  | c :: d :: rest =>
      (is_char "e" c || is_char "E" c)
      && (is_digit d
          || ((is_char "+" d || is_char "-" d)
              && match rest with
                 | d' :: _ => is_digit d'
                 | [] => false
                 end))
  | _ => false
  end.

(** An optional minus sign, then 0 or a digit 1-9 and more digits: an
    integer, and a float when a fraction or an exponent follows. *)
Definition scan_number (l : list N) : result (value * list N) :=
  let '(negative, l1) :=
    match l with
    | c :: rest => if is_char "-" c then (true, rest) else (false, l)
    | [] => (false, l)
    end in
  match l1 with
  | c :: rest =>
      if is_digit c then
        let '(ds, r) := if is_char "0" c then ([c], rest) else span_digits l1 in
        if (starts_fraction r || starts_exponent r)%bool then Unmodelled
        else Ok (VInt (if negative then - int_of_digits ds else int_of_digits ds), r)
      else Raise ValueError
  | [] => Raise ValueError
  end.

Fixpoint strip_prefix (p l : list N) : option (list N) :=
  match p, l with
  | [], _ => Some l
  | a :: p', b :: l' => if N.eqb a b then strip_prefix p' l' else None
  | _ :: _, [] => None
  end.

Definition key_of_codes (u : list N) : result string :=
  if ascii_codes u then Ok (str_of_codes u) else Unmodelled.

Section Containers.
Variable scan_once : list N -> result (value * list N).

(** After [[] and a first non-[]] character: values separated by commas. *)
Fixpoint scan_elements (fuel : nat) (l : list N) (acc : list value)
  : result (value * list N) :=
  match fuel with
  | O => Unmodelled
  | S fuel' =>
      p <~ scan_once l;
      let '(v, rest) := p in
      match skip_ws rest with
      | c :: rest1 =>
          if is_char "]" c then Ok (VList (rev (v :: acc)), rest1)
          else if is_char "," c then scan_elements fuel' (skip_ws rest1) (v :: acc)
          else Raise ValueError
      | [] => Raise ValueError
      end
  end.

(** After the opening quote of a key: the key, a colon and a value,
    then [}] or a comma and the next key.  A later pair replaces an earlier one with the
    same key. *)
Fixpoint scan_members (fuel : nat) (l : list N) (acc : gmap string value)
  : result (value * list N) :=
  match fuel with
  | O => Unmodelled
  | S fuel' =>
      ks <~ scan_string l [];
      let '(key, rest) := ks in
      k <~ key_of_codes key;
      match skip_ws rest with
      | c :: rest1 =>
          if is_char ":" c then
            p <~ scan_once (skip_ws rest1);
            let '(v, rest2) := p in
            let acc' := <[k:=v]> acc in
            match skip_ws rest2 with
            | c2 :: rest3 =>
                if is_char "}" c2 then Ok (VDict acc', rest3)
                else if is_char "," c2 then
                  match skip_ws rest3 with
                  | c3 :: rest4 =>
                      if is_char QUOTE c3 then scan_members fuel' rest4 acc'
                      else Raise ValueError
                  | [] => Raise ValueError
                  end
                else Raise ValueError
            | [] => Raise ValueError
            end
          else Raise ValueError
      | [] => Raise ValueError
      end
  end.
End Containers.

Definition literal (text : string) (v : value) (l : list N) : option (value * list N) :=
  match strip_prefix (uni_of_str text) l with
  | Some rest => Some (v, rest)
  | None => None
  end.

Definition is_float_name (l : list N) : bool :=
  match strip_prefix (uni_of_str "NaN") l,
        strip_prefix (uni_of_str "Infinity") l,
        strip_prefix (uni_of_str "-Infinity") l with
  | None, None, None => false
  | _, _, _ => true
  end.

Fixpoint scan_value (fuel : nat) (l : list N) : result (value * list N) :=
  match fuel with
  | O => Unmodelled
  | S fuel' =>
      match l with
      | [] => Raise ValueError
      | c :: rest =>
          if is_char QUOTE c then
            p <~ scan_string rest [];
            Ok (VUni (fst p), snd p)
          else if is_char "{" c then
            match skip_ws rest with
            | c1 :: rest1 =>
                if is_char "}" c1 then Ok (VDict ∅, rest1)
                else if is_char QUOTE c1 then scan_members (scan_value fuel') fuel' rest1 ∅
                else Raise ValueError
            | [] => Raise ValueError
            end
          else if is_char "[" c then
            match skip_ws rest with
            | c1 :: rest1 =>
                if is_char "]" c1 then Ok (VList [], rest1)
                else scan_elements (scan_value fuel') fuel' (c1 :: rest1) []
            | [] => Raise ValueError
            end
          else
            match literal "null" VNone l, literal "true" (VBool true) l,
                  literal "false" (VBool false) l with
            | Some p, _, _ | None, Some p, _ | None, None, Some p => Ok p
            | None, None, None =>
                if is_float_name l then Unmodelled else scan_number l
            end
      end
  end.

(** [json.loads] of a unicode text: one value, white space around it. *)
Definition loads_codes (u : list N) : result value :=
  p <~ scan_value (S (length u)) (skip_ws u);
  match skip_ws (snd p) with
  | [] => Ok (fst p)
  | _ :: _ => Raise ValueError
  end.

(** [json.loads(s)]: [s] is a [str] (decoded as UTF-8: only ASCII is
    covered) or a [unicode]; anything else is a [TypeError]. *)
Definition loads (s : value) : result value :=
  match s with
  | VStr b => if ascii_only b then loads_codes (uni_of_str b) else Unmodelled
  | VUni u => loads_codes u
  | _ => Raise TypeError
  end.

End Json.

(** ** Operations on values used by the library *)

(** [len(v)] *)
Definition py_len (v : value) : result Z :=
  match v with
  | VStr s => Ok (Z.of_nat (String.length s))
  | VUni u => Ok (Z.of_nat (length u))
  | VList l => Ok (Z.of_nat (length l))
  | VDict d => Ok (Z.of_nat (size d))
  | _ => Raise TypeError
  end.

(** [v[key]] for a string [key]: only a dictionary can be indexed by it. *)
Definition getitem_value (v : value) (key : string) : result value :=
  match v with
  | VDict d =>
      match d !! key with
      | Some x => Ok x
      | None => Raise (KeyError key)
      end
  | _ => Raise TypeError
  end.

(** [s + v] for a [str] [s]; with a [unicode] operand the sum is a
    [unicode] string, which is not followed further. *)
Definition str_add (s : string) (v : value) : result string :=
  match v with
  | VStr t => Ok (s +:+ t)
  | VUni _ => Unmodelled
  | _ => Raise TypeError
  end.

(** The bytes of a [str]. *)
Definition str_value (v : value) : result string := str_add "" v.

(** [v.strip()]: a method of strings only. *)
Definition str_strip (v : value) : result string :=
  match v with
  | VStr s => Ok (strip s)
  | VUni _ => Unmodelled
  | _ => Raise AttributeError
  end.

(** [base64.b64encode(v)] is [binascii.b2a_base64(v)[:-1]]. *)
Definition b64encode (v : value) : result string :=
  match v with
  | VStr s => Ok (slice_to_minus1 (Base64.b2a_base64 s))
  | VUni _ => Unmodelled
  | _ => Raise TypeError
  end.

(** [bpHash(data, key)] when the key is any value: [hmac.new] needs a
    byte string. *)
Definition bpHash_value (data : string) (key : value) : result string :=
  match key with
  | VStr k => Ok (bpHash data k)
  | VUni _ => Unmodelled
  | _ => Raise TypeError
  end.

Fixpoint is_infix (p l : list N) : bool :=
  match Json.strip_prefix p l with
  | Some _ => true
  | None =>
      match l with
      | [] => false
      | _ :: rest => is_infix p rest
      end
  end.

(** [key in v] for a value that is not a heap dictionary. *)
Definition contains_value (key : string) (v : value) : result bool :=
  match v with
  | VDict d => Ok (bool_decide (is_Some (d !! key)))
  | VList l => Ok (existsb (py_eq (VStr key)) l)
  | VUni u => Ok (is_infix (uni_of_str key) u)
  | VStr s => Ok (is_infix (uni_of_str key) (uni_of_str s))
  | _ => Raise TypeError
  end.

(** ** urllib.urlencode *)

Definition upper_hex (n : Z) : ascii :=
  nth (Z.to_nat (n mod 16)) (list_ascii_of_string "0123456789ABCDEF") "0"%char.

Definition always_safe (c : ascii) : bool :=
  let n := code c in
  ((N.leb 48 n && N.leb n 57) || (N.leb 65 n && N.leb n 90) || (N.leb 97 n && N.leb n 122)
   || N.eqb n 95 || N.eqb n 46 || N.eqb n 45)%bool.

Definition quote_plus (s : string) : string :=
  str_concat
    (map (fun c =>
            if N.eqb (code c) 32 then "+"
            else if always_safe c then String c ""
            else String "%" (String (upper_hex (Z.shiftr (byte_of c) 4))
                                    (String (upper_hex (byte_of c)) "")))
         (list_ascii_of_string s)).

(** The pairs of a dictionary are listed in the order of the map (see the
    limits of [Json.dumps]). *)
Definition urlencode (query : value) : result string :=
  match query with
  | VDict d =>
      pairs <~ map_fold (fun k x acc =>
                           rest <~ acc;
                           vs <~ py_str x;
                           Ok ((quote_plus k +:+ "=" +:+ quote_plus vs) :: rest)) (Ok []) d;
      Ok (str_join "&" pairs)
  | VList [] => Ok ""
  | VStr "" => Ok ""
  | VUni [] => Ok ""
  | _ => Raise TypeError
  end.

(** [dict(items)]: a later pair replaces an earlier one with the same key. *)
Definition dict_of_items (items : list (string * value)) : gmap string value :=
  fold_left (fun d kv => <[fst kv := snd kv]> d) items ∅.

(** ** The world, the object heap and the monad

    Dictionaries that the library creates and assigns into are objects in a
    heap, addressed by reference; [bp_options.bpOptions], the dictionary of
    the module [bp_options], is the object at [bpOptions_loc].  What a
    dictionary holds, and every other value, is immutable.

    The world answers what the library cannot decide: what the server
    returns for a request (or that the transport raises), the clock, the
    path of the module's file and which files can be opened for appending.
    The clock is one value of the world: what [time.strftime] returns in
    one call.  How the stamps of two calls compare is outside the model. *)

Definition loc := positive.

Inductive obj :=
| Ref (l : loc)
| Imm (v : value).

Record request := Request {
  req_url : string;
  req_headers : list (string * string);
  req_data : option string
}.

Record world := World {
  http_read : request -> result string;
  strftime : string;
  module_file : string;
  can_append : string -> bool
}.

Record state := State {
  heap : gmap loc (gmap string value);
  sent : list request;
  files : gmap string string
}.

Definition bpOptions_loc : loc := 1%positive.
Definition bpOptions : obj := Ref bpOptions_loc.

Definition M (A : Type) : Type := state -> result A * state.

Definition ret {A} (a : A) : M A := fun st => (Ok a, st).

Definition bind {A B} (m : M A) (f : A -> M B) : M B :=
  fun st =>
    match m st with
    | (Ok a, st') => f a st'
    | (Raise e, st') => (Raise e, st')
    | (Unmodelled, st') => (Unmodelled, st')
    end.

Definition lift {A} (r : result A) : M A := fun st => (r, st).

Notation "'let*' x ':=' m 'in' k" := (bind m (fun x => k))
  (at level 10, x name, m at level 100, k at level 200).

Fixpoint for_each {A} (l : list A) (body : A -> M unit) : M unit :=
  match l with
  | [] => ret tt
  | x :: rest => let* _ := body x in for_each rest body
  end.

(** A dictionary display or [dict(...)]: a new object. *)
Definition alloc (d : gmap string value) : M obj :=
  fun st =>
    let l := fresh (dom (heap st)) in
    (Ok (Ref l), State (<[l:=d]> (heap st)) (sent st) (files st)).

(** The object that holds a value: a dictionary becomes a new object. *)
Definition to_obj (v : value) : M obj :=
  match v with
  | VDict d => alloc d
  | _ => ret (Imm v)
  end.

(** The value an object holds now. *)
Definition contents (o : obj) : M value :=
  fun st =>
    match o with
    | Ref l =>
        match heap st !! l with
        | Some d => (Ok (VDict d), st)
        | None => (Unmodelled, st)
        end
    | Imm v => (Ok v, st)
    end.

Definition obj_truthy (o : obj) : M bool :=
  let* v := contents o in ret (truthy v).

(** [o[key]] *)
Definition getitem (o : obj) (key : string) : M value :=
  let* v := contents o in lift (getitem_value v key).

(** [key in o] *)
Definition contains (key : string) (o : obj) : M bool :=
  let* v := contents o in lift (contains_value key v).

(** [o.items()] *)
Definition items (o : obj) : M (list (string * value)) :=
  let* v := contents o in
  match v with
  | VDict d => ret (map_to_list d)
  | _ => lift (Raise AttributeError)
  end.

(** [o[key] = v] *)
Definition setitem (o : obj) (key : string) (v : value) : M unit :=
  fun st =>
    match o with
    | Ref l =>
        match heap st !! l with
        | Some d => (Ok tt, State (<[l := <[key:=v]> d]> (heap st)) (sent st) (files st))
        | None => (Unmodelled, st)
        end
    | Imm (VDict _) => (Unmodelled, st)
    | Imm _ => (Raise TypeError, st)
    end.

(** [opener.open(url, data).read()], [data] absent for a GET. *)
Definition opener_open (w : world) (url : string) (headers : list (string * string))
    (data : option string) : M string :=
  fun st =>
    let req := Request url headers data in
    (http_read w req, State (heap st) (sent st ++ [req]) (files st)).

(** [open(file_name, "a")] *)
Definition open_append (w : world) (file_name : string) : M unit :=
  lift (if can_append w file_name then Ok tt else Raise IOError).

(** [log_file.write(text)] on a file opened for appending. *)
Definition file_write (file_name text : string) : M unit :=
  fun st =>
    (Ok tt,
     State (heap st) (sent st)
           (<[file_name := default "" (files st !! file_name) +:+ text]> (files st))).

(** ** The library: bp_lib.py *)

Section Library.

Variable w : world.

(** bpLog (lines 39-55) *)
Definition bpLog (contents_ : value) : M unit :=
  let* log_file := getitem bpOptions "logFile" in
  let* file_name :=
    if negb (py_eq log_file (VStr "")) then
      let* suffix := getitem bpOptions "logFile" in
      lift (str_add (module_file w) suffix)
    else ret (module_file w +:+ "/bplog.txt") in
  let* _ := open_append w file_name in
  let* _ := file_write file_name (strftime w +:+ ": ") in
  let* text := lift (Json.dumps contents_) in
  file_write file_name (text +:+ String Base64.newline "").

Definition blank_error : gmap string value :=
  {[ "error" := VStr "url or apiKey were blank." ]}.

(** bpCurl (lines 58-99).  [a and b] evaluates [b] only when [a] is
    true. *)
Definition bpCurl (url api_key post : value) : M obj :=
  let* stripped_url := lift (str_strip url) in
  let* proceed :=
    if truthy (VStr stripped_url) then
      let* stripped_key := lift (str_strip api_key) in
      ret (truthy (VStr stripped_key))
    else ret false in
  if proceed then
    let* uname := lift (b64encode api_key) in
    let headers :=
      [ ("Content-Type", "application/json");
        ("Authorization", "Basic " +:+ uname);
        ("X-BitPay-Plugin-Info", "pythonlib1.1") ] in
    let* target := lift (str_value url) in
    let* response_string :=
      if truthy post then
        let* query := lift (Json.loads post) in
        let* data := lift (urlencode query) in
        opener_open w target headers (Some data)
      else opener_open w target headers None in
    match Json.loads (VStr response_string) with
    | Ok v => to_obj v
    | Raise ValueError =>
        let* response := alloc {[ "error" := VStr response_string ]} in
        let* logging := getitem bpOptions "useLogging" in
        let* _ :=
          if truthy logging then bpLog (VStr ("Error: " +:+ response_string))
          else ret tt in
        ret response
    | Raise e => lift (Raise e)
    | Unmodelled => lift Unmodelled
    end
  else alloc blank_error.

Definition post_options : list string :=
  [ "orderID"; "itemDesc"; "itemCode"; "notificationEmail"; "notificationURL";
    "redirectURL"; "posData"; "price"; "currency"; "physical"; "fullNotifications";
    "transactionSpeed"; "buyerName"; "buyerAddress1"; "buyerAddress2"; "buyerCity";
    "buyerState"; "buyerZip"; "buyerEmail"; "buyerPhone" ].

Definition too_long_error : gmap string value :=
  {[ "error" := VStr "posData > 100 character limit. Are you using the posData hash?" ]}.

(** bpCreateInvoice, lines 134-137: the configured options overridden by
    the caller's, in a dictionary of their own. *)
Definition merge_options (options : obj) : M obj :=
  let* given := obj_truthy options in
  let* options := if given then ret options else alloc ∅ in
  let* defaults := items bpOptions in
  let* overrides := items options in
  alloc (dict_of_items (defaults ++ overrides)).

(** bpCreateInvoice, lines 138-145: the envelope [pos], with the hash
    when [verifyPos] is set, stored serialized as [options['posData']]. *)
Definition build_envelope (pos_data : value) (options : obj) : M obj :=
  let* pos := alloc {[ "posData" := pos_data ]} in
  let* verify := getitem bpOptions "verifyPos" in
  let* _ :=
    if truthy verify then
      let* data := lift (clean <~ sanitize_dict pos_data; py_str clean) in
      let* key := getitem options "apiKey" in
      let* hash := lift (bpHash_value data key) in
      setitem pos "hash" (VStr hash)
    else ret tt in
  let* envelope := contents pos in
  let* text := lift (Json.dumps envelope) in
  let* _ := setitem options "posData" (VStr text) in
  ret pos.

(** What lines 134-161 of bpCreateInvoice leave: the early error
    dictionary, or the merged [options] and the request body [pos]. *)
Inductive prepared :=
| TooLong (response : obj)
| Prepared (options pos : obj).

(** bpCreateInvoice, lines 147-161: the length limit, then the
    allow-listed options copied into [pos]. *)
Definition check_and_copy (order_id price : value) (options pos : obj) : M prepared :=
  let* stored := getitem options "posData" in
  let* n := lift (py_len stored) in
  if 100 <? n then
    let* response := alloc too_long_error in
    ret (TooLong response)
  else
    let* _ := setitem options "orderID" order_id in
    let* _ := setitem options "price" price in
    let* _ :=
      for_each post_options (fun o =>
        let* present := contains o options in
        if present then
          let* v := getitem options o in
          setitem pos o v
        else ret tt) in
    ret (Prepared options pos).

(** bpCreateInvoice, lines 134-161: up to the body of the request. *)
Definition bpCreateInvoice_prepare (order_id price pos_data : value) (options : obj)
  : M prepared :=
  let* options := merge_options options in
  let* pos := build_envelope pos_data options in
  check_and_copy order_id price options pos.

(** bpCreateInvoice, lines 163-173: serialize, send, log. *)
Definition bpCreateInvoice_send (options pos : obj) : M obj :=
  let* body := contents pos in
  let* pos_text := lift (Json.dumps body) in
  let* key := getitem options "apiKey" in
  let* response := bpCurl (VStr "https://bitpay.com/api/invoice/") key (VStr pos_text) in
  let* logging := getitem bpOptions "useLogging" in
  let* _ :=
    if truthy logging then
      let* _ := bpLog (VStr "Create Invoice: ") in
      let* _ := bpLog (VStr pos_text) in
      let* _ := bpLog (VStr "Response: ") in
      let* answer := contents response in
      bpLog answer
    else ret tt in
  ret response.

(** bpCreateInvoice (lines 102-173) *)
Definition bpCreateInvoice (order_id price pos_data : value) (options : obj) : M obj :=
  let* p := bpCreateInvoice_prepare order_id price pos_data options in
  match p with
  | TooLong response => ret response
  | Prepared options' pos => bpCreateInvoice_send options' pos
  end.

(** bpVerifyNotification (lines 176-202) *)
Definition bpVerifyNotification (api_key post : value) : M obj :=
  let* api_key := if truthy api_key then ret api_key else getitem bpOptions "apiKey" in
  if negb (truthy post) then ret (Imm (VStr "No post data"))
  else
    let* parsed := lift (Json.loads post) in
    let* json_data := to_obj parsed in
    let* present := contains "posData" json_data in
    if negb present then ret (Imm (VStr "no posData"))
    else
      let* inner_text := getitem json_data "posData" in
      let* pos_data := lift (Json.loads inner_text) in
      let* verify := getitem bpOptions "verifyPos" in
      let* bad_hash :=
        if truthy verify then
          let* claimed := lift (getitem_value pos_data "hash") in
          let* inner := lift (getitem_value pos_data "posData") in
          let* data := lift (clean <~ sanitize_dict inner; py_str clean) in
          let* hash := lift (bpHash_value data api_key) in
          ret (negb (py_eq claimed (VStr hash)))
        else ret false in
      if bad_hash then ret (Imm (VStr "authentication failed (bad hash)"))
      else
        let* inner := lift (getitem_value pos_data "posData") in
        let* _ := setitem json_data "posData" inner in
        ret json_data.

(** bpGetInvoice (lines 216-233) *)
Definition bpGetInvoice (invoice_id api_key : value) : M obj :=
  let* api_key := if truthy api_key then ret api_key else getitem bpOptions "apiKey" in
  let* url := lift (str_add "https://bitpay.com/api/invoice/" invoice_id) in
  let* response := bpCurl (VStr url) api_key (VBool false) in
  let* text := getitem response "posData" in
  let* envelope := lift (Json.loads text) in
  let* _ := setitem response "posData" envelope in
  let* envelope' := getitem response "posData" in
  let* inner := lift (getitem_value envelope' "posData") in
  let* _ := setitem response "posData" inner in
  ret response.

(** bpDecodeResponse (lines 249-261) *)
Definition bpDecodeResponse (response : value) : M obj :=
  if negb (truthy response)
  then ret (Imm (VStr "Error: decodeResponse expects a string parameter."))
  else
    let* v := lift (Json.loads response) in
    to_obj v.

End Library.

(** ** Vocabulary of the properties *)

(** A string that is empty or made of white space only. *)
Definition whitespace_only (s : string) : bool :=
  forallb is_space (list_ascii_of_string s).

(** The key a call works with (lines 184-185 and 225-226): the argument,
    or the configured [apiKey] when the argument is false or empty. *)
Definition effective_key (api_key : value) (cfg : gmap string value) : option value :=
  if truthy api_key then Some api_key else cfg !! "apiKey".

(** What the caller passed as [options]: nothing, or a dictionary of the
    heap that holds [opts]. *)
Definition options_given (st : state) (options : obj) (opts : gmap string value) : Prop :=
  (options = Imm VNone /\ opts = ∅)
  \/ (exists l, options = Ref l /\ heap st !! l = Some opts).

(** The keyed hash in the words of the documentation: the base64 encoding
    of the HMAC-SHA256 digest of [data] under [key]. *)
Definition keyed_hash_spec (data key : string) : string :=
  Base64.encode (HMAC.digest key data).

(** The hash check of line 197, for the decoded envelope [pos_data]. *)
Definition hash_check (verify pos_data api_key : value) : M bool :=
  if truthy verify then
    let* claimed := lift (getitem_value pos_data "hash") in
    let* inner := lift (getitem_value pos_data "posData") in
    let* data := lift (clean <~ sanitize_dict inner; py_str clean) in
    let* hash := lift (bpHash_value data api_key) in
    ret (negb (py_eq claimed (VStr hash)))
  else ret false.

(** The envelope in the words of the documentation: the caller's posData
    and, when verification is enabled, the keyed hash of its sanitized form
    under the [apiKey] of the merged options. *)
Definition posData_envelope (verify pos_data : value) (merged : gmap string value)
  : result (gmap string value) :=
  if truthy verify then
    data <~ (clean <~ sanitize_dict pos_data; py_str clean);
    key <~ getitem_value (VDict merged) "apiKey";
    hash <~ bpHash_value data key;
    Ok (<["hash" := VStr hash]> {[ "posData" := pos_data ]})
  else Ok {[ "posData" := pos_data ]}.

(** [pos] after the loop of lines 159-161 over [keys]. *)
Definition copy_keys (keys : list string) (options pos : gmap string value)
  : gmap string value :=
  fold_left (fun acc o =>
               match options !! o with
               | Some v => <[o:=v]> acc
               | None => acc
               end) keys pos.

(** The GET request of bpCurl for a url and a key. *)
Definition get_request (url key : string) : request :=
  Request url
          [ ("Content-Type", "application/json");
            ("Authorization", "Basic " +:+ Base64.encode key);
            ("X-BitPay-Plugin-Info", "pythonlib1.1") ]
          None.

(** A configuration with the keys the documentation lists for
    [bp_options.bpOptions], a state that holds it and nothing else, and a
    world whose server always answers [body]. *)
Definition sample_config (verify : bool) : gmap string value :=
  list_to_map
    [ ("apiKey", VStr "secret"); ("verifyPos", VBool verify);
      ("useLogging", VBool false); ("logFile", VStr ""); ("currency", VStr "BTC") ].

Definition sample_state (verify : bool) : state :=
  State {[ bpOptions_loc := sample_config verify ]} [] ∅.

Definition sample_world (body : string) : world :=
  World (fun _ => Ok body) "11-03 10:00:00" "/srv/bp_lib.py" (fun _ => true).

(** A notification payload: a JSON object with the fields [others] and,
    under [posData], the JSON serialization of [envelope]. *)
Definition notification_payload (envelope others : gmap string value) : result string :=
  text <~ Json.dumps (VDict envelope);
  Json.dumps (VDict (<["posData" := VStr text]> others)).

(** An object is new with respect to the heap [h0] when it is a value or a
    reference that [h0] does not have. *)
Definition fresh_for (h0 : gmap loc (gmap string value)) (o : obj) : Prop :=
  match o with
  | Ref l => h0 !! l = None
  | Imm _ => True
  end.

(** The postcondition that asks nothing. *)
Definition any {A} : A -> Prop := fun _ => True.

(** A computation keeps the dictionaries of [h0] as they are, from any
    state that has them, and its result satisfies [Q]. *)
Definition preserves {A} (h0 : gmap loc (gmap string value)) (m : M A) (Q : A -> Prop)
  : Prop :=
  forall st, h0 ⊆ heap st ->
    h0 ⊆ heap (snd (m st)) /\ forall a, fst (m st) = Ok a -> Q a.

Definition fresh_prepared (h0 : gmap loc (gmap string value)) (p : prepared) : Prop :=
  match p with
  | TooLong response => fresh_for h0 response
  | Prepared options pos => fresh_for h0 options /\ fresh_for h0 pos
  end.

(** What [bp_options.bpOptions] holds in a state. *)
Definition configuration (st : state) : option (gmap string value) :=
  heap st !! bpOptions_loc.

(** A string between double quotes, given in pieces. *)
Definition quoted (parts : list string) : string :=
  String double_quote (str_concat parts) +:+ String double_quote "".


(** The envelope of line 138-143 for a posData and the hash that goes with
    it. *)
Definition envelope_of (pos_data : value) (hash : string) : gmap string value :=
  <["hash" := VStr hash]> {[ "posData" := pos_data ]}.

Definition NUL : string := String (ascii_of_nat 0) "".

(** The text of a serialization that succeeded. *)
Definition text_of (r : result string) : string :=
  match r with
  | Ok s => s
  | _ => ""
  end.

(** Sample notifications: the envelope of "cust-ref-42" under the key
    "secret", the same without a hash, and the payloads that carry them. *)
Definition sample_envelope : gmap string value :=
  envelope_of (VStr "cust-ref-42") (bpHash "cust-ref-42" "secret").

Definition sample_plain_envelope : gmap string value :=
  {[ "posData" := VStr "cust-ref-42" ]}.

Definition sample_payload (envelope : gmap string value) : string :=
  text_of (notification_payload envelope {[ "id" := VStr "inv1" ]}).

(** What [json.loads] makes of [sample_payload envelope]. *)
Definition sample_decoded (envelope : gmap string value) : gmap string value :=
  <["posData" := VUni (uni_of_str (text_of (Json.dumps (VDict envelope))))]>
    {[ "id" := VUni (uni_of_str "inv1") ]}.

(** A posData of 40 characters, its envelope under the key "secret", and a
    server answer that carries an envelope. *)
Definition long_posData : value := VStr "order-0000000000000000000000000000000042".

Definition long_envelope : gmap string value :=
  envelope_of long_posData (bpHash "order-0000000000000000000000000000000042" "secret").

Definition sample_answer : string := sample_payload {[ "posData" := VInt 5 ]}.

(** ** Vocabulary of further properties *)

(** A printable ASCII character other than the double quote and the
    backslash: [json.dumps] writes it as it is. *)
Definition plain_code (n : N) : bool :=
  (N.leb 32 n && N.leb n 126 && negb (N.eqb n 34) && negb (N.eqb n 92))%bool.

Definition plain_text (s : string) : bool :=
  forallb (fun c => plain_code (code c)) (list_ascii_of_string s).

(** The longest plain posData that fits the 100 characters of line 147:
    the envelope spends 15 characters around it, and 56 more on the hash. *)
Definition posData_room (verify : value) : nat :=
  if truthy verify then 29%nat else 85%nat.

(** A computation leaves a component of the state (the heap, the requests
    sent, the files) as it is, from every state and whatever the outcome. *)
Definition stable {X A} (component : state -> X) (m : M A) : Prop :=
  forall st, component (snd (m st)) = component st.

(** What [bpCurl] hands to [opener.open] as data: nothing for a false
    [post], the form encoding of the decoded [post] otherwise. *)
Definition request_data (post : value) : result (option string) :=
  if truthy post then
    query <~ Json.loads post;
    data <~ urlencode query;
    Ok (Some data)
  else Ok None.

(** The request of [bpCurl] for a url, a key and the data. *)
Definition curl_request (url key : string) (data : option string) : request :=
  Request url
          [ ("Content-Type", "application/json");
            ("Authorization", "Basic " +:+ Base64.encode key);
            ("X-BitPay-Plugin-Info", "pythonlib1.1") ]
          data.

(** The name of the log file (lines 46-51) and the line [bpLog] writes. *)
Definition log_file_name (w : world) (log_file : string) : string :=
  if String.eqb log_file "" then module_file w +:+ "/bplog.txt"
  else module_file w +:+ log_file.

Definition log_line (w : world) (text : string) : string :=
  strftime w +:+ ": " +:+ text +:+ String Base64.newline "".

(** A state whose configuration has no key at all. *)
Definition bare_state : state :=
  State {[ bpOptions_loc := (∅ : gmap string value) ]} [] ∅.

(** Lines 86-95 of [bpCurl]: what becomes of the text the server sent. *)
Definition decode_answer (w : world) (response_string : string) : M obj :=
  match Json.loads (VStr response_string) with
  | Ok v => to_obj v
  | Raise ValueError =>
      let* response := alloc {[ "error" := VStr response_string ]} in
      let* logging := getitem bpOptions "useLogging" in
      let* _ :=
        if truthy logging then bpLog w (VStr ("Error: " +:+ response_string))
        else ret tt in
      ret response
  | Raise e => lift (Raise e)
  | Unmodelled => lift Unmodelled
  end.

(** Where [bpCreateInvoice] posts to (line 163). *)
Definition invoice_url : string := "https://bitpay.com/api/invoice/".

(** The sample configuration with logging enabled, and a state that holds
    it and nothing else. *)
Definition logging_config : gmap string value :=
  <["useLogging" := VBool true]> (sample_config false).

Definition logging_state : state :=
  State {[ bpOptions_loc := logging_config ]} [] ∅.

(** The request body [bpCreateInvoice] builds for given arguments (lines
    138-161), serialized as on line 161. *)
Notation invoice_body order_id price text merged envelope :=
  (copy_keys post_options
     (<["price" := price]> (<["orderID" := order_id]> (<["posData" := VStr text]> merged)))
     envelope) (only parsing).


(** The JSON text of the request body of
    [bpCreateInvoice("order123", "10.00", "cust-ref-42")] under
    [logging_config], and the data of its request. *)
Definition sample_body_text : string :=
  text_of (Json.dumps (VDict (invoice_body (VStr "order123") (VStr "10.00")
                                (text_of (Json.dumps (VDict {[ "posData" := VStr "cust-ref-42" ]})))
                                (∅ ∪ logging_config)
                                {[ "posData" := VStr "cust-ref-42" ]}))).

Definition sample_request_data : option string :=
  match request_data (VStr sample_body_text) with
  | Ok data => data
  | _ => None
  end.


(** ** Test vectors and sample runs of the models *)

Example sha256_abc :
  hexdigest (SHA256.digest "abc")
  = "ba7816bf8f01cfea414140de5dae2223b00361a396177a9cb410ff61f20015ad".
Proof. vm_compute. reflexivity. Qed.

Example sha256_empty :
  hexdigest (SHA256.digest "")
  = "e3b0c44298fc1c149afbf4c8996fb92427ae41e4649b934ca495991b7852b855".
Proof. vm_compute. reflexivity. Qed.

Example sha256_two_blocks :
  hexdigest (SHA256.digest "abcdbcdecdefdefgefghfghighijhijkijkljklmklmnlmnomnopnopq")
  = "248d6a61d20638b8e5c026930c3e6039a33ce45964ff2167f6ecedd419db06c1".
Proof. vm_compute. reflexivity. Qed.

(** RFC 4231, test case 2. *)
Example hmac_rfc4231_2 :
  hexdigest (HMAC.digest "Jefe" "what do ya want for nothing?")
  = "5bdcc146bf60754e6a042426089575c75a003f089d2739839dec58b964ec3843".
Proof. vm_compute. reflexivity. Qed.

Example b2a_base64_foobar :
  Base64.b2a_base64 "fooba" = "Zm9vYmE=" +:+ String Base64.newline "".
Proof. vm_compute. reflexivity. Qed.

Example dumps_envelope :
  Json.dumps (VDict {[ "posData" := VStr "cust-ref-42" ]})
  = Ok (dq "{'posData': 'cust-ref-42'}").
Proof. vm_compute. reflexivity. Qed.

Example dumps_escapes :
  Json.dumps (VList [VStr (dq "a'b"); VUni [233%N]; VInt (-7); VNone; VBool true])
  = Ok (str_concat ["["; dq "'a"; String backslash (dq "'b', '"); String backslash "u00e9";
                    dq "', -7, null, true"; "]"]).
Proof. vm_compute. reflexivity. Qed.

Example loads_nested :
  Json.loads (VStr (dq "{'a': [1, -20, {'b': null}], 'c': 'x', 'a2': true} "))
  = Ok (VDict (<["a" := VList [VInt 1; VInt (-20); VDict {[ "b" := VNone ]}]]>
               (<["c" := VUni (uni_of_str "x")]> {[ "a2" := VBool true ]}))).
Proof. vm_compute. reflexivity. Qed.

Example loads_extra_data : Json.loads (VStr "1 2") = Raise ValueError.
Proof. vm_compute. reflexivity. Qed.

Example loads_empty : Json.loads (VStr "") = Raise ValueError.
Proof. vm_compute. reflexivity. Qed.

Example loads_float : Json.loads (VStr "[1.5]") = Unmodelled.
Proof. vm_compute. reflexivity. Qed.

Example str_of_list :
  py_str (VList [VStr "a"; VInt 1; VBool false; VList []]) = Ok "['a', 1, False, []]".
Proof. vm_compute. reflexivity. Qed.

Example sanitize_unicode :
  sanitize_dict (VList [VUni (uni_of_str "ab"); VDict {[ "k" := VUni (uni_of_str "v") ]}])
  = Ok (VList [VStr "ab"; VDict {[ "k" := VStr "v" ]}]).
Proof. vm_compute. reflexivity. Qed.

Example sanitize_non_ascii : sanitize_dict (VUni [233%N]) = Raise UnicodeEncodeError.
Proof. vm_compute. reflexivity. Qed.

(** * Properties *)

(** ** Running the monad *)

Lemma bind_ok {A B} (m : M A) (f : A -> M B) st a st' :
  m st = (Ok a, st') -> bind m f st = f a st'.
Proof. intros H. unfold bind. by rewrite H. Qed.

Lemma bind_raise {A B} (m : M A) (f : A -> M B) st e st' :
  m st = (Raise e, st') -> bind m f st = (Raise e, st').
Proof. intros H. unfold bind. by rewrite H. Qed.

Lemma bind_lift_ok {A B} (r : result A) (f : A -> M B) st a :
  r = Ok a -> bind (lift r) f st = f a st.
Proof. intros ->. reflexivity. Qed.

Lemma contents_ref st l d : heap st !! l = Some d -> contents (Ref l) st = (Ok (VDict d), st).
Proof. intros H. unfold contents. by rewrite H. Qed.

Lemma getitem_ref st l d key v :
  heap st !! l = Some d -> d !! key = Some v -> getitem (Ref l) key st = (Ok v, st).
Proof.
  intros Hl Hk. unfold getitem. rewrite (bind_ok _ _ _ _ _ (contents_ref _ _ _ Hl)).
  unfold lift, getitem_value. by rewrite Hk.
Qed.

Lemma getitem_ref_missing st l d key :
  heap st !! l = Some d -> d !! key = None -> getitem (Ref l) key st = (Raise (KeyError key), st).
Proof.
  intros Hl Hk. unfold getitem. rewrite (bind_ok _ _ _ _ _ (contents_ref _ _ _ Hl)).
  unfold lift, getitem_value. by rewrite Hk.
Qed.

Lemma setitem_ref st l d key v :
  heap st !! l = Some d ->
  setitem (Ref l) key v st
  = (Ok tt, State (<[l := <[key:=v]> d]> (heap st)) (sent st) (files st)).
Proof. intros H. unfold setitem. by rewrite H. Qed.

Lemma fresh_loc_unused (h : gmap loc (gmap string value)) : h !! fresh (dom h) = None.
Proof. apply not_elem_of_dom. apply is_fresh. Qed.

Lemma fresh_loc_other (h : gmap loc (gmap string value)) l d :
  h !! l = Some d -> fresh (dom h) <> l.
Proof. intros H E. rewrite <- E, fresh_loc_unused in H. discriminate. Qed.

(** ** The keyed hash *)

Lemma slice_to_minus1_snoc s c : slice_to_minus1 (s +:+ String c "") = s.
Proof.
  induction s as [|a s IH]; [reflexivity|].
  simpl. rewrite IH. destruct s; reflexivity.
Qed.

(** C6.  [bpHash(data, key)] is the base64 encoding of the HMAC-SHA256
    digest of [data] keyed by [key]: the slice [[:-1]] removes the newline
    that ends the line [binascii.b2a_base64] returns and nothing else; and
    equal (data, key) pairs give equal hashes. *)
Theorem bpHash_keyed_hash (data key data' key' : string) :
  (data, key) = (data', key') ->
  bpHash data key = keyed_hash_spec data key
  /\ Base64.b2a_base64 (HMAC.digest key data)
     = bpHash data key +:+ String Base64.newline ""
  /\ bpHash data key = bpHash data' key'.
Proof.
  intros E. injection E as -> ->.
  assert (H : bpHash data' key' = keyed_hash_spec data' key').
  { unfold bpHash, Base64.b2a_base64. apply slice_to_minus1_snoc. }
  split; [exact H|]. split; [|reflexivity].
  rewrite H. reflexivity.
Qed.

Lemma bpHash_keyed_hash_witness :
  bpHash "what do ya want for nothing?" "Jefe"
  = keyed_hash_spec "what do ya want for nothing?" "Jefe"
  /\ Base64.b2a_base64 (HMAC.digest "Jefe" "what do ya want for nothing?")
     = bpHash "what do ya want for nothing?" "Jefe" +:+ String Base64.newline ""
  /\ bpHash "what do ya want for nothing?" "Jefe"
     = bpHash "what do ya want for nothing?" "Jefe".
Proof.
  apply (bpHash_keyed_hash "what do ya want for nothing?" "Jefe"
                           "what do ya want for nothing?" "Jefe").
  reflexivity.
Defined.

(** ** Blank arguments of bpCurl *)

Lemma lstrip_whitespace s : whitespace_only s = true -> lstrip s = "".
Proof.
  unfold whitespace_only. induction s as [|c s IH]; [reflexivity|].
  simpl. intros H. apply andb_true_iff in H as [Hc Hs]. rewrite Hc. auto.
Qed.

Lemma strip_whitespace s : whitespace_only s = true -> strip s = "".
Proof. intros H. unfold strip. by rewrite lstrip_whitespace. Qed.

(** C5.  When the url or the key is empty or white space only, [bpCurl]
    returns a new dictionary holding the error text, raises nothing and
    sends no request. *)
Theorem bpCurl_blank_arguments (w : world) (url api_key : string) (post : value) (st : state) :
  whitespace_only url = true \/ whitespace_only api_key = true ->
  exists l st',
    bpCurl w (VStr url) (VStr api_key) post st = (Ok (Ref l), st')
    /\ heap st' !! l = Some {[ "error" := VStr "url or apiKey were blank." ]}
    /\ heap st !! l = None
    /\ sent st' = sent st
    /\ files st' = files st.
Proof.
  intros H.
  assert (E : bpCurl w (VStr url) (VStr api_key) post st = alloc blank_error st).
  { unfold bpCurl. rewrite (bind_lift_ok _ _ _ (strip url)) by reflexivity.
    destruct (truthy (VStr (strip url))) eqn:Hu.
    - destruct H as [H|H].
      + rewrite (strip_whitespace _ H) in Hu. discriminate.
      + rewrite (bind_ok _ _ st false st); [reflexivity|].
        rewrite (bind_lift_ok _ _ _ (strip api_key)) by reflexivity.
        by rewrite (strip_whitespace _ H).
    - reflexivity. }
  rewrite E. unfold alloc. eexists _, _. split; [reflexivity|]. simpl.
  rewrite lookup_insert_eq. repeat split. apply fresh_loc_unused.
Qed.

Lemma bpCurl_blank_arguments_witness :
  exists l st',
    bpCurl (World (fun _ => Raise URLError) "" "" (fun _ => false))
           (VStr "https://bitpay.com/api/invoice/") (VStr "  ") (VBool false)
           (State ∅ [] ∅) = (Ok (Ref l), st')
    /\ heap st' !! l = Some {[ "error" := VStr "url or apiKey were blank." ]}
    /\ heap (State ∅ [] ∅) !! l = None
    /\ sent st' = sent (State ∅ [] ∅)
    /\ files st' = files (State ∅ [] ∅).
Proof.
  apply (bpCurl_blank_arguments _ "https://bitpay.com/api/invoice/" "  ").
  right. reflexivity.
Defined.

(** ** Notification verification *)

Lemma loads_truthy (s v : value) : Json.loads s = Ok v -> truthy s = true.
Proof.
  destruct s as [| | |s|u| |]; simpl; try discriminate.
  - destruct s; [|reflexivity]. vm_compute. discriminate.
  - destruct u; [|reflexivity]. vm_compute. discriminate.
Qed.

Lemma run_effective_key st cfg api_key k :
  heap st !! bpOptions_loc = Some cfg ->
  effective_key api_key cfg = Some k ->
  (if truthy api_key then ret api_key else getitem bpOptions "apiKey") st = (Ok k, st).
Proof.
  unfold effective_key. intros Hcfg Hk. destruct (truthy api_key).
  - injection Hk as ->. reflexivity.
  - by apply (getitem_ref _ _ cfg).
Qed.

Lemma run_effective_key_missing st cfg api_key :
  heap st !! bpOptions_loc = Some cfg ->
  effective_key api_key cfg = None ->
  (if truthy api_key then ret api_key else getitem bpOptions "apiKey") st
  = (Raise (KeyError "apiKey"), st).
Proof.
  unfold effective_key. intros Hcfg Hk. destruct (truthy api_key); [discriminate|].
  by apply (getitem_ref_missing _ _ cfg).
Qed.

(** Lines 184-197 on a payload that decodes to the dictionary [jd] with a
    [posData] field that decodes to [pos_data]: the payload is a new object
    [l], and the call goes on with the hash check. *)
Lemma bpVerifyNotification_decoded st cfg api_key post k jd text pos_data verify :
  heap st !! bpOptions_loc = Some cfg ->
  effective_key api_key cfg = Some k ->
  Json.loads post = Ok (VDict jd) ->
  jd !! "posData" = Some text ->
  Json.loads text = Ok pos_data ->
  cfg !! "verifyPos" = Some verify ->
  let l := fresh (dom (heap st)) in
  let st1 := State (<[l:=jd]> (heap st)) (sent st) (files st) in
  bpVerifyNotification api_key post st
  = (let* bad_hash := hash_check verify pos_data k in
     if bad_hash then ret (Imm (VStr "authentication failed (bad hash)"))
     else
       let* inner := lift (getitem_value pos_data "posData") in
       let* _ := setitem (Ref l) "posData" inner in
       ret (Ref l)) st1.
Proof.
  intros Hcfg Hk Hpost Htext Hinner Hverify l st1.
  assert (Hl : heap st1 !! l = Some jd) by apply lookup_insert_eq.
  assert (Hcfg1 : heap st1 !! bpOptions_loc = Some cfg).
  { simpl. rewrite lookup_insert_ne; [done|]. by eapply fresh_loc_other. }
  unfold bpVerifyNotification.
  rewrite (bind_ok _ _ _ _ _ (run_effective_key _ _ _ _ Hcfg Hk)).
  cbv beta. rewrite (loads_truthy _ _ Hpost). cbn [negb]. cbv beta iota.
  rewrite (bind_lift_ok _ _ _ _ Hpost).
  rewrite (bind_ok _ _ st (Ref l) st1) by reflexivity.
  rewrite (bind_ok _ _ st1 true st1).
  2:{ unfold contains. rewrite (bind_ok _ _ _ _ _ (contents_ref _ _ _ Hl)).
      unfold lift, contains_value. rewrite Htext. reflexivity. }
  cbn [negb]. cbv beta iota.
  rewrite (bind_ok _ _ _ _ _ (getitem_ref _ _ _ _ _ Hl Htext)).
  rewrite (bind_lift_ok _ _ _ _ Hinner).
  rewrite (bind_ok _ _ _ _ _ (getitem_ref _ _ _ _ _ Hcfg1 Hverify)).
  reflexivity.
Qed.

(** C10.  With [verifyPos] disabled no hash is looked at: a payload that
    decodes to a dictionary whose [posData] field decodes to an envelope
    with an inner [posData] comes back as a new dictionary, the payload with
    [posData] replaced by the inner value, whatever the envelope's [hash]
    field is, absent or present. *)
Theorem bpVerifyNotification_unverified
    (st : state) (cfg : gmap string value) (api_key post k : value)
    (jd : gmap string value) (text : value) (envelope : gmap string value)
    (inner verify : value) :
  heap st !! bpOptions_loc = Some cfg ->
  cfg !! "verifyPos" = Some verify ->
  truthy verify = false ->
  effective_key api_key cfg = Some k ->
  Json.loads post = Ok (VDict jd) ->
  jd !! "posData" = Some text ->
  Json.loads text = Ok (VDict envelope) ->
  envelope !! "posData" = Some inner ->
  exists l st',
    bpVerifyNotification api_key post st = (Ok (Ref l), st')
    /\ heap st' !! l = Some (<["posData" := inner]> jd)
    /\ heap st !! l = None
    /\ sent st' = sent st
    /\ files st' = files st.
Proof.
  intros Hcfg Hverify Hoff Hk Hpost Htext Henv Hinner.
  rewrite (bpVerifyNotification_decoded st cfg api_key post k jd text (VDict envelope) verify)
    by assumption.
  unfold hash_check. rewrite Hoff.
  rewrite (bind_ok _ _ _ false _) by reflexivity. cbv iota.
  rewrite (bind_lift_ok _ _ _ inner) by (simpl; by rewrite Hinner).
  erewrite bind_ok by (apply setitem_ref; apply lookup_insert_eq).
  eexists _, _. split; [reflexivity|]. simpl.
  rewrite lookup_insert_eq. repeat split. apply fresh_loc_unused.
Qed.

(** C9.  With [verifyPos] enabled, a payload that decodes to a dictionary
    whose [posData] field decodes to an envelope without a [hash] key makes
    the call raise a [KeyError]: for [hash], or for [apiKey] already when
    no key was passed and none is configured.  No error string and no
    result is returned. *)
Theorem bpVerifyNotification_missing_hash
    (st : state) (cfg : gmap string value) (api_key post : value)
    (jd : gmap string value) (text : value) (envelope : gmap string value)
    (verify : value) :
  heap st !! bpOptions_loc = Some cfg ->
  cfg !! "verifyPos" = Some verify ->
  truthy verify = true ->
  Json.loads post = Ok (VDict jd) ->
  jd !! "posData" = Some text ->
  Json.loads text = Ok (VDict envelope) ->
  envelope !! "hash" = None ->
  fst (bpVerifyNotification api_key post st)
  = Raise (KeyError match effective_key api_key cfg with
                    | Some _ => "hash"
                    | None => "apiKey"
                    end).
Proof.
  intros Hcfg Hverify Hon Hpost Htext Henv Hhash.
  destruct (effective_key api_key cfg) as [k|] eqn:Hk.
  - rewrite (bpVerifyNotification_decoded st cfg api_key post k jd text (VDict envelope) verify)
      by assumption.
    unfold hash_check. rewrite Hon.
    erewrite bind_raise; [reflexivity|].
    erewrite bind_raise; [reflexivity|].
    unfold lift. simpl. rewrite Hhash. reflexivity.
  - unfold bpVerifyNotification.
    by rewrite (bind_raise _ _ _ _ _ (run_effective_key_missing _ _ _ Hcfg Hk)).
Qed.

(** ** Invoice retrieval *)

Lemma rstrip_nonempty c s : is_space c = false -> rstrip (String c s) <> "".
Proof. intros H. simpl. rewrite H. destruct (rstrip s); discriminate. Qed.

Lemma lstrip_not_whitespace s :
  whitespace_only s = false ->
  exists c rest, lstrip s = String c rest /\ is_space c = false.
Proof.
  unfold whitespace_only. induction s as [|c s IH]; [discriminate|].
  simpl. destruct (is_space c) eqn:Hc; simpl.
  - exact IH.
  - intros _. by exists c, s.
Qed.

Lemma strip_not_whitespace s : whitespace_only s = false -> truthy (VStr (strip s)) = true.
Proof.
  intros H. destruct (lstrip_not_whitespace s H) as (c & rest & E & Hc).
  unfold strip. rewrite E. pose proof (rstrip_nonempty c rest Hc) as Hne.
  remember (rstrip (String c rest)) as r. destruct r; [done|reflexivity].
Qed.

Lemma b64encode_encode s : b64encode (VStr s) = Ok (Base64.encode s).
Proof. unfold b64encode, Base64.b2a_base64. by rewrite slice_to_minus1_snoc. Qed.

(** A GET by [bpCurl] that the server answers with a JSON object. *)
Lemma bpCurl_get_object w st url key body (R : gmap string value) :
  whitespace_only url = false ->
  whitespace_only key = false ->
  http_read w (get_request url key) = Ok body ->
  Json.loads (VStr body) = Ok (VDict R) ->
  bpCurl w (VStr url) (VStr key) (VBool false) st
  = (Ok (Ref (fresh (dom (heap st)))),
     State (<[fresh (dom (heap st)) := R]> (heap st))
           (sent st ++ [get_request url key]) (files st)).
Proof.
  intros Hurl Hkey Hhttp Hbody. unfold bpCurl.
  rewrite (bind_lift_ok _ _ _ (strip url)) by reflexivity.
  rewrite (strip_not_whitespace _ Hurl).
  rewrite (bind_ok _ _ st true st).
  2:{ rewrite (bind_lift_ok _ _ _ (strip key)) by reflexivity.
      by rewrite (strip_not_whitespace _ Hkey). }
  cbv beta iota.
  rewrite (bind_lift_ok _ _ _ _ (b64encode_encode key)).
  rewrite (bind_lift_ok _ _ _ url) by reflexivity.
  cbn [truthy]. cbv beta iota.
  erewrite bind_ok.
  2:{ unfold opener_open. fold (get_request url key). rewrite Hhttp. reflexivity. }
  rewrite Hbody. reflexivity.
Qed.

(** C4.  When the server answers the GET with a JSON object [R] whose
    [posData] field decodes to an envelope with an inner [posData],
    [bpGetInvoice] returns a dictionary that has the inner value under
    [posData] and agrees with [R] on every other key. *)
Theorem bpGetInvoice_unwraps
    (w : world) (st : state) (cfg : gmap string value) (invoice_id : string)
    (api_key : value) (key body : string) (R : gmap string value) (text : value)
    (envelope : gmap string value) (inner : value) :
  heap st !! bpOptions_loc = Some cfg ->
  effective_key api_key cfg = Some (VStr key) ->
  whitespace_only key = false ->
  http_read w (get_request ("https://bitpay.com/api/invoice/" +:+ invoice_id) key) = Ok body ->
  Json.loads (VStr body) = Ok (VDict R) ->
  R !! "posData" = Some text ->
  Json.loads text = Ok (VDict envelope) ->
  envelope !! "posData" = Some inner ->
  exists l st' d,
    bpGetInvoice w (VStr invoice_id) api_key st = (Ok (Ref l), st')
    /\ heap st' !! l = Some d
    /\ d !! "posData" = Some inner
    /\ (forall other, other <> "posData" -> d !! other = R !! other)
    /\ heap st !! l = None.
Proof.
  intros Hcfg Hk Hkey Hhttp Hbody Htext Henv Hinner.
  unfold bpGetInvoice.
  rewrite (bind_ok _ _ _ _ _ (run_effective_key _ _ _ _ Hcfg Hk)).
  rewrite (bind_lift_ok _ _ _ ("https://bitpay.com/api/invoice/" +:+ invoice_id))
    by reflexivity.
  erewrite bind_ok by (by apply (bpCurl_get_object w st _ key body R)).
  set (l := fresh (dom (heap st))).
  erewrite bind_ok by (eapply getitem_ref; [apply lookup_insert_eq|exact Htext]).
  rewrite (bind_lift_ok _ _ _ _ Henv).
  erewrite bind_ok by (apply setitem_ref; apply lookup_insert_eq).
  erewrite bind_ok
    by (eapply getitem_ref; [apply lookup_insert_eq|apply lookup_insert_eq]).
  rewrite (bind_lift_ok _ _ _ inner) by (simpl; by rewrite Hinner).
  erewrite bind_ok by (apply setitem_ref; apply lookup_insert_eq).
  eexists l, _, _. split; [reflexivity|]. simpl.
  split; [apply lookup_insert_eq|].
  split; [apply lookup_insert_eq|].
  split; [|apply fresh_loc_unused].
  intros other Hne. by rewrite !lookup_insert_ne.
Qed.

(** ** Invoice creation: merging the options *)

Lemma fold_insert_items (l : list (string * value)) (d : gmap string value) :
  NoDup l.*1 ->
  fold_left (fun d kv => <[fst kv := snd kv]> d) l d = list_to_map l ∪ d.
Proof.
  revert d. induction l as [|[k v] l IH]; intros d Hnd.
  - simpl. by rewrite (left_id_L ∅ (∪)).
  - apply NoDup_cons in Hnd as [Hk Hnd]. simpl.
    rewrite (IH _ Hnd).
    rewrite <- insert_union_r by (by apply not_elem_of_list_to_map_1).
    by rewrite insert_union_l.
Qed.

(** [dict(bpOptions.items() + options.items())]: the caller's value where
    the caller gives one, the configured one elsewhere. *)
Lemma dict_of_items_merge (cfg opts : gmap string value) :
  dict_of_items (map_to_list cfg ++ map_to_list opts) = opts ∪ cfg.
Proof.
  unfold dict_of_items. rewrite fold_left_app.
  rewrite !fold_insert_items by apply NoDup_fst_map_to_list.
  rewrite !list_to_map_to_list. by rewrite (right_id_L ∅ (∪)).
Qed.

Lemma items_ref st l d :
  heap st !! l = Some d -> items (Ref l) st = (Ok (map_to_list d), st).
Proof.
  intros H. unfold items. by rewrite (bind_ok _ _ _ _ _ (contents_ref _ _ _ H)).
Qed.

Lemma merge_from_dictionary st cfg l opts :
  heap st !! bpOptions_loc = Some cfg ->
  heap st !! l = Some opts ->
  (let* defaults := items bpOptions in
   let* overrides := items (Ref l) in
   alloc (dict_of_items (defaults ++ overrides))) st
  = (Ok (Ref (fresh (dom (heap st)))),
     State (<[fresh (dom (heap st)) := opts ∪ cfg]> (heap st)) (sent st) (files st)).
Proof.
  intros Hcfg Hl.
  rewrite (bind_ok _ _ _ _ _ (items_ref _ _ _ Hcfg)).
  rewrite (bind_ok _ _ _ _ _ (items_ref _ _ _ Hl)).
  unfold alloc. by rewrite dict_of_items_merge.
Qed.

Lemma merge_without_options st cfg (o : obj) :
  heap st !! bpOptions_loc = Some cfg ->
  obj_truthy o st = (Ok false, st) ->
  exists lo st1,
    merge_options o st = (Ok (Ref lo), st1)
    /\ heap st1 !! lo = Some cfg
    /\ heap st !! lo = None
    /\ (forall l d, heap st !! l = Some d -> heap st1 !! l = Some d)
    /\ sent st1 = sent st /\ files st1 = files st.
Proof.
  intros Hcfg Hfalse. unfold merge_options.
  rewrite (bind_ok _ _ _ _ _ Hfalse). cbv beta iota.
  set (l0 := fresh (dom (heap st))).
  set (st0 := State (<[l0:=∅]> (heap st)) (sent st) (files st)).
  rewrite (bind_ok _ _ st (Ref l0) st0) by reflexivity.
  assert (Hne : l0 <> bpOptions_loc) by (by eapply fresh_loc_other).
  assert (Hcfg0 : heap st0 !! bpOptions_loc = Some cfg)
    by (simpl; by rewrite lookup_insert_ne).
  assert (Hl0 : heap st0 !! l0 = Some ∅) by apply lookup_insert_eq.
  rewrite (merge_from_dictionary st0 cfg l0 ∅ Hcfg0 Hl0).
  rewrite (left_id_L ∅ (∪)).
  set (lo := fresh (dom (heap st0))).
  assert (Hlo : heap st0 !! lo = None) by apply fresh_loc_unused.
  eexists lo, _. split; [reflexivity|]. simpl.
  split; [apply lookup_insert_eq|].
  split.
  { simpl in Hlo. apply lookup_insert_None in Hlo. tauto. }
  split; [|done].
  intros l d Hl.
  assert (l <> l0) by (intros ->; subst l0; by rewrite fresh_loc_unused in Hl).
  assert (Hl' : heap st0 !! l = Some d) by (simpl; by rewrite lookup_insert_ne).
  rewrite lookup_insert_ne; [done|].
  intros ->. by rewrite Hlo in Hl'.
Qed.

(** Lines 134-137: a new dictionary [lo] holds the merged options; the
    dictionaries that were there keep what they hold. *)
Lemma merge_options_run st cfg options opts :
  heap st !! bpOptions_loc = Some cfg ->
  options_given st options opts ->
  exists lo st1,
    merge_options options st = (Ok (Ref lo), st1)
    /\ heap st1 !! lo = Some (opts ∪ cfg)
    /\ heap st !! lo = None
    /\ (forall l d, heap st !! l = Some d -> heap st1 !! l = Some d)
    /\ sent st1 = sent st /\ files st1 = files st.
Proof.
  intros Hcfg [[-> ->]|(l & -> & Hl)].
  - rewrite (left_id_L ∅ (∪)). by apply merge_without_options.
  - destruct (truthy (VDict opts)) eqn:Ht.
    + unfold merge_options.
      rewrite (bind_ok _ _ st true st).
      2:{ unfold obj_truthy. rewrite (bind_ok _ _ _ _ _ (contents_ref _ _ _ Hl)).
          unfold ret. by rewrite Ht. }
      cbv beta iota. rewrite (bind_ok _ _ st (Ref l) st) by reflexivity.
      rewrite (merge_from_dictionary st cfg l opts Hcfg Hl).
      eexists _, _. split; [reflexivity|]. simpl.
      split; [apply lookup_insert_eq|].
      split; [apply fresh_loc_unused|].
      split; [|done].
      intros l' d Hl'. rewrite lookup_insert_ne; [done|].
      by eapply fresh_loc_other.
    + assert (opts = ∅) as ->.
      { simpl in Ht. apply negb_false_iff, Nat.eqb_eq in Ht.
        by apply map_size_empty_iff. }
      rewrite (left_id_L ∅ (∪)). apply merge_without_options; [done|].
      unfold obj_truthy. rewrite (bind_ok _ _ _ _ _ (contents_ref _ _ _ Hl)).
      reflexivity.
Qed.

(** ** Invoice creation: the envelope *)

(** Lines 138-145: a new dictionary [lp] holds the envelope, and the merged
    options hold its serialization under [posData]. *)
Lemma build_envelope_run st cfg lo merged verify pos_data envelope text :
  heap st !! bpOptions_loc = Some cfg ->
  heap st !! lo = Some merged ->
  cfg !! "verifyPos" = Some verify ->
  posData_envelope verify pos_data merged = Ok envelope ->
  Json.dumps (VDict envelope) = Ok text ->
  exists lp st2,
    build_envelope pos_data (Ref lo) st = (Ok (Ref lp), st2)
    /\ heap st2 !! lp = Some envelope
    /\ heap st2 !! lo = Some (<["posData" := VStr text]> merged)
    /\ heap st !! lp = None
    /\ (forall l d, l <> lo -> heap st !! l = Some d -> heap st2 !! l = Some d)
    /\ sent st2 = sent st /\ files st2 = files st.
Proof.
  intros Hcfg Hlo Hverify Henv Htext. unfold build_envelope.
  set (lp := fresh (dom (heap st))).
  set (st1 := State (<[lp := {[ "posData" := pos_data ]}]> (heap st)) (sent st) (files st)).
  assert (Hfresh : heap st !! lp = None) by apply fresh_loc_unused.
  assert (Hlp_lo : lp <> lo) by (by eapply fresh_loc_other).
  assert (Hlp_cfg : lp <> bpOptions_loc) by (by eapply fresh_loc_other).
  rewrite (bind_ok _ _ st (Ref lp) st1) by reflexivity.
  assert (Hcfg1 : heap st1 !! bpOptions_loc = Some cfg)
    by (simpl; by rewrite lookup_insert_ne).
  assert (Hlo1 : heap st1 !! lo = Some merged) by (simpl; by rewrite lookup_insert_ne).
  rewrite (bind_ok _ _ _ _ _ (getitem_ref _ _ _ _ _ Hcfg1 Hverify)).
  assert (Hstep : exists st1',
             (if truthy verify
              then
                let* data := lift (clean <~ sanitize_dict pos_data; py_str clean) in
                let* key := getitem (Ref lo) "apiKey" in
                let* hash := lift (bpHash_value data key) in
                setitem (Ref lp) "hash" (VStr hash)
              else ret tt) st1 = (Ok tt, st1')
             /\ heap st1' = <[lp := envelope]> (heap st)
             /\ sent st1' = sent st /\ files st1' = files st).
  { unfold posData_envelope in Henv. destruct (truthy verify).
    - destruct (clean <~ sanitize_dict pos_data; py_str clean) as [data| |] eqn:Hdata;
        try discriminate.
      simpl in Henv.
      destruct (merged !! "apiKey") as [key|] eqn:Hkey; try discriminate.
      simpl in Henv.
      destruct (bpHash_value data key) as [hash| |] eqn:Hhash; try discriminate.
      simpl in Henv. injection Henv as <-.
      rewrite (bind_lift_ok _ _ _ data) by reflexivity.
      rewrite (bind_ok _ _ _ _ _ (getitem_ref _ _ _ _ _ Hlo1 Hkey)).
      rewrite (bind_lift_ok _ _ _ _ Hhash).
      erewrite setitem_ref by apply lookup_insert_eq.
      eexists. split; [reflexivity|]. unfold st1. cbn [heap sent files].
      rewrite insert_insert_eq. repeat split; reflexivity.
    - injection Henv as <-. exists st1. repeat split; reflexivity. }
  destruct Hstep as (st1' & Hrun & Hheap & Hsent & Hfiles).
  rewrite (bind_ok _ _ _ _ _ Hrun).
  assert (Hlp1 : heap st1' !! lp = Some envelope) by (rewrite Hheap; apply lookup_insert_eq).
  assert (Hlo1' : heap st1' !! lo = Some merged) by (rewrite Hheap; by rewrite lookup_insert_ne).
  rewrite (bind_ok _ _ _ _ _ (contents_ref _ _ _ Hlp1)).
  rewrite (bind_lift_ok _ _ _ _ Htext).
  rewrite (bind_ok _ _ _ _ _ (setitem_ref _ _ _ _ _ Hlo1')).
  eexists lp, _. split; [reflexivity|]. cbn [heap sent files].
  split; [by rewrite lookup_insert_ne|].
  split; [apply lookup_insert_eq|].
  split; [done|].
  split; [|done].
  intros l d Hne Hl. rewrite lookup_insert_ne by done. rewrite Hheap.
  rewrite lookup_insert_ne; [done|]. intros ->. by rewrite Hfresh in Hl.
Qed.

(** ** Invoice creation: the limit and the request body *)

Lemma contains_ref st l d key :
  heap st !! l = Some d ->
  contains key (Ref l) st = (Ok (bool_decide (is_Some (d !! key))), st).
Proof.
  intros H. unfold contains. by rewrite (bind_ok _ _ _ _ _ (contents_ref _ _ _ H)).
Qed.

Lemma state_eta st : State (heap st) (sent st) (files st) = st.
Proof. by destruct st. Qed.

(** The loop of lines 159-161. *)
Lemma copy_loop keys st lo lp (options pos : gmap string value) :
  lo <> lp ->
  heap st !! lo = Some options ->
  heap st !! lp = Some pos ->
  for_each keys (fun o =>
    let* present := contains o (Ref lo) in
    if present then
      let* v := getitem (Ref lo) o in
      setitem (Ref lp) o v
    else ret tt) st
  = (Ok tt, State (<[lp := copy_keys keys options pos]> (heap st)) (sent st) (files st)).
Proof.
  intros Hne. revert st pos. induction keys as [|o keys IH]; intros st pos Hlo Hlp.
  - unfold for_each, ret, copy_keys. cbn [fold_left].
    rewrite insert_id by exact Hlp. rewrite state_eta. reflexivity.
  - cbn [for_each].
    set (pos' := match options !! o with
                 | Some v => <[o:=v]> pos
                 | None => pos
                 end).
    set (st' := State (<[lp := pos']> (heap st)) (sent st) (files st)).
    rewrite (bind_ok _ _ st tt st').
    + rewrite (IH st' pos').
      * unfold st'. cbn [heap sent files]. rewrite insert_insert_eq.
        unfold copy_keys. reflexivity.
      * unfold st'. cbn [heap]. rewrite lookup_insert_ne by congruence. exact Hlo.
      * apply lookup_insert_eq.
    + rewrite (bind_ok _ _ _ _ _ (contains_ref _ _ _ o Hlo)).
      unfold st', pos'. destruct (options !! o) as [v|] eqn:Ho.
      * rewrite bool_decide_eq_true_2 by eauto.
        rewrite (bind_ok _ _ _ _ _ (getitem_ref _ _ _ _ _ Hlo Ho)).
        rewrite (setitem_ref _ _ _ _ _ Hlp). reflexivity.
      * rewrite bool_decide_eq_false_2 by (intros [? ?]; discriminate).
        unfold ret. rewrite insert_id by exact Hlp. rewrite state_eta. reflexivity.
Qed.

Lemma copy_keys_lookup keys (options pos : gmap string value) key :
  copy_keys keys options pos !! key
  = if decide (key ∈ keys)
    then match options !! key with
         | Some v => Some v
         | None => pos !! key
         end
    else pos !! key.
Proof.
  unfold copy_keys. revert pos. induction keys as [|o keys IH]; intros pos.
  - cbn [fold_left].
    destruct (decide (key ∈ [])) as [H|H]; [by apply not_elem_of_nil in H|reflexivity].
  - cbn [fold_left]. rewrite IH. clear IH.
    set (pos' := match options !! o with
                 | Some v => <[o:=v]> pos
                 | None => pos
                 end).
    destruct (decide (key = o)) as [->|Hne].
    + destruct (decide (o ∈ o :: keys)) as [_|H];
        [|exfalso; apply H; apply list_elem_of_here].
      unfold pos'. destruct (options !! o) as [v|] eqn:Ho.
      * rewrite lookup_insert_eq. destruct (decide (o ∈ keys)); reflexivity.
      * destruct (decide (o ∈ keys)); reflexivity.
    + assert (Hpos : pos' !! key = pos !! key).
      { unfold pos'. destruct (options !! o); [|reflexivity].
        apply lookup_insert_ne. congruence. }
      rewrite Hpos.
      destruct (decide (key ∈ keys)) as [Hin|Hnin];
        destruct (decide (key ∈ o :: keys)) as [Hin'|Hnin']; try reflexivity.
      * exfalso. apply Hnin'. by apply list_elem_of_further.
      * exfalso. apply elem_of_cons in Hin' as [?|?]; [by apply Hne|by apply Hnin].
Qed.

(** Lines 147-150: an envelope of more than 100 characters. *)
Lemma check_and_copy_too_long st lo lp order_id price merged stored n :
  heap st !! lo = Some merged ->
  merged !! "posData" = Some stored ->
  py_len stored = Ok n ->
  100 < n ->
  check_and_copy order_id price (Ref lo) (Ref lp) st
  = (Ok (TooLong (Ref (fresh (dom (heap st))))),
     State (<[fresh (dom (heap st)) := too_long_error]> (heap st)) (sent st) (files st)).
Proof.
  intros Hlo Hstored Hlen Hn. unfold check_and_copy.
  rewrite (bind_ok _ _ _ _ _ (getitem_ref _ _ _ _ _ Hlo Hstored)).
  rewrite (bind_lift_ok _ _ _ _ Hlen).
  by rewrite (proj2 (Z.ltb_lt 100 n) Hn).
Qed.

(** Lines 147-161 when the envelope fits: [pos] ends as the request body. *)
Lemma check_and_copy_fits st lo lp order_id price merged pos stored n :
  lo <> lp ->
  heap st !! lo = Some merged ->
  heap st !! lp = Some pos ->
  merged !! "posData" = Some stored ->
  py_len stored = Ok n ->
  n <= 100 ->
  let merged' := <["price" := price]> (<["orderID" := order_id]> merged) in
  check_and_copy order_id price (Ref lo) (Ref lp) st
  = (Ok (Prepared (Ref lo) (Ref lp)),
     State (<[lp := copy_keys post_options merged' pos]> (<[lo := merged']> (heap st)))
           (sent st) (files st)).
Proof.
  intros Hne Hlo Hlp Hstored Hlen Hn merged'. unfold check_and_copy.
  rewrite (bind_ok _ _ _ _ _ (getitem_ref _ _ _ _ _ Hlo Hstored)).
  rewrite (bind_lift_ok _ _ _ _ Hlen).
  rewrite (proj2 (Z.ltb_ge 100 n) Hn).
  rewrite (bind_ok _ _ _ _ _ (setitem_ref _ _ _ _ _ Hlo)).
  erewrite bind_ok by (apply setitem_ref; apply lookup_insert_eq).
  erewrite bind_ok.
  2:{ apply (copy_loop post_options _ lo lp merged' pos Hne).
      - apply lookup_insert_eq.
      - cbn [heap]. rewrite !lookup_insert_ne by congruence. exact Hlp. }
  unfold ret. cbn [heap sent files]. rewrite insert_insert_eq. reflexivity.
Qed.

(** Lines 134-161 when the serialized envelope has more than 100
    characters: the error dictionary, in a new object. *)
Lemma bpCreateInvoice_prepare_too_long
    st cfg options opts verify order_id price pos_data envelope text :
  heap st !! bpOptions_loc = Some cfg ->
  options_given st options opts ->
  cfg !! "verifyPos" = Some verify ->
  posData_envelope verify pos_data (opts ∪ cfg) = Ok envelope ->
  Json.dumps (VDict envelope) = Ok text ->
  (100 < String.length text)%nat ->
  exists l st',
    bpCreateInvoice_prepare order_id price pos_data options st = (Ok (TooLong (Ref l)), st')
    /\ heap st' !! l = Some too_long_error
    /\ heap st !! l = None
    /\ sent st' = sent st /\ files st' = files st.
Proof.
  intros Hcfg Hopts Hverify Henv Htext Hlong.
  destruct (merge_options_run st cfg options opts Hcfg Hopts)
    as (lo & st1 & Hrun1 & Hlo1 & Hlo0 & Hkeep1 & Hsent1 & Hfiles1).
  destruct (build_envelope_run st1 cfg lo (opts ∪ cfg) verify pos_data envelope text
              (Hkeep1 _ _ Hcfg) Hlo1 Hverify Henv Htext)
    as (lp & st2 & Hrun2 & Hlp2 & Hlo2 & Hlp1 & Hkeep2 & Hsent2 & Hfiles2).
  unfold bpCreateInvoice_prepare.
  rewrite (bind_ok _ _ _ _ _ Hrun1), (bind_ok _ _ _ _ _ Hrun2).
  rewrite (check_and_copy_too_long st2 lo lp order_id price _ (VStr text)
             (Z.of_nat (String.length text)) Hlo2);
    [|apply lookup_insert_eq|reflexivity|lia].
  eexists _, _. split; [reflexivity|]. cbn [heap sent files].
  split; [apply lookup_insert_eq|].
  split; [|by rewrite Hsent2, Hfiles2].
  pose proof (fresh_loc_unused (heap st2)) as Hfresh.
  destruct (heap st !! fresh (dom (heap st2))) as [d|] eqn:Hold; [|done].
  assert (Hne : fresh (dom (heap st2)) <> lo) by (intros E; by rewrite E, Hlo0 in Hold).
  apply Hkeep1 in Hold. apply (Hkeep2 _ _ Hne) in Hold.
  by rewrite Hfresh in Hold.
Qed.

(** C3.  When the serialized envelope (with the hash when verification is
    enabled) is longer than 100 characters, [bpCreateInvoice] returns the
    error dictionary and sends no request. *)
Theorem bpCreateInvoice_envelope_limit
    (w : world) (st : state) (cfg : gmap string value) (options : obj)
    (opts : gmap string value) (verify order_id price pos_data : value)
    (envelope : gmap string value) (text : string) :
  heap st !! bpOptions_loc = Some cfg ->
  options_given st options opts ->
  cfg !! "verifyPos" = Some verify ->
  posData_envelope verify pos_data (opts ∪ cfg) = Ok envelope ->
  Json.dumps (VDict envelope) = Ok text ->
  (100 < String.length text)%nat ->
  exists l st',
    bpCreateInvoice w order_id price pos_data options st = (Ok (Ref l), st')
    /\ heap st' !! l
       = Some {[ "error" :=
                   VStr "posData > 100 character limit. Are you using the posData hash?" ]}
    /\ heap st !! l = None
    /\ sent st' = sent st
    /\ files st' = files st.
Proof.
  intros Hcfg Hopts Hverify Henv Htext Hlong.
  destruct (bpCreateInvoice_prepare_too_long st cfg options opts verify order_id price
              pos_data envelope text Hcfg Hopts Hverify Henv Htext Hlong)
    as (l & st' & Hrun & Hl & Hfresh & Hsent & Hfiles).
  exists l, st'. unfold bpCreateInvoice.
  by rewrite (bind_ok _ _ _ _ _ Hrun).
Qed.

(** Lines 134-161 when the envelope fits: the request body is the envelope
    with the allow-listed keys of the final options copied over it. *)
Lemma bpCreateInvoice_prepare_fits
    st cfg options opts verify order_id price pos_data envelope text :
  heap st !! bpOptions_loc = Some cfg ->
  options_given st options opts ->
  cfg !! "verifyPos" = Some verify ->
  posData_envelope verify pos_data (opts ∪ cfg) = Ok envelope ->
  Json.dumps (VDict envelope) = Ok text ->
  (String.length text <= 100)%nat ->
  let final :=
    <["price" := price]> (<["orderID" := order_id]>
      (<["posData" := VStr text]> (opts ∪ cfg))) in
  exists lo lp st',
    bpCreateInvoice_prepare order_id price pos_data options st
    = (Ok (Prepared (Ref lo) (Ref lp)), st')
    /\ heap st' !! lp = Some (copy_keys post_options final envelope)
    /\ heap st' !! lo = Some final
    /\ lo <> lp
    /\ heap st !! lo = None /\ heap st !! lp = None
    /\ (forall l d, heap st !! l = Some d -> heap st' !! l = Some d)
    /\ sent st' = sent st /\ files st' = files st.
Proof.
  intros Hcfg Hopts Hverify Henv Htext Hfits final.
  destruct (merge_options_run st cfg options opts Hcfg Hopts)
    as (lo & st1 & Hrun1 & Hlo1 & Hlo0 & Hkeep1 & Hsent1 & Hfiles1).
  destruct (build_envelope_run st1 cfg lo (opts ∪ cfg) verify pos_data envelope text
              (Hkeep1 _ _ Hcfg) Hlo1 Hverify Henv Htext)
    as (lp & st2 & Hrun2 & Hlp2 & Hlo2 & Hlp1 & Hkeep2 & Hsent2 & Hfiles2).
  assert (Hne : lo <> lp) by (intros E; by rewrite E, Hlp1 in Hlo1).
  unfold bpCreateInvoice_prepare.
  rewrite (bind_ok _ _ _ _ _ Hrun1), (bind_ok _ _ _ _ _ Hrun2).
  rewrite (check_and_copy_fits st2 lo lp order_id price _ envelope (VStr text)
             (Z.of_nat (String.length text)) Hne Hlo2 Hlp2);
    [|apply lookup_insert_eq|reflexivity|lia].
  eexists lo, lp, _. split; [reflexivity|]. cbn [heap sent files].
  split; [apply lookup_insert_eq|].
  split; [rewrite lookup_insert_ne by done; apply lookup_insert_eq|].
  split; [done|]. split; [done|].
  split.
  { destruct (heap st !! lp) as [d|] eqn:Hold; [|done].
    apply Hkeep1 in Hold. by rewrite Hlp1 in Hold. }
  split; [|by rewrite Hsent2, Hfiles2].
  intros l d Hl.
  assert (l <> lo) by (intros ->; by rewrite Hlo0 in Hl).
  assert (Hl2 : heap st2 !! l = Some d) by (apply Hkeep2; [done|by apply Hkeep1]).
  assert (l <> lp).
  { intros ->. apply Hkeep1 in Hl. by rewrite Hlp1 in Hl. }
  by rewrite !lookup_insert_ne.
Qed.

Ltac in_list := repeat first [apply list_elem_of_here | apply list_elem_of_further].

Lemma hash_not_allow_listed : "hash" ∉ post_options.
Proof.
  unfold post_options. intros H.
  repeat (apply elem_of_cons in H as [H|H]; [discriminate H|]).
  by apply not_elem_of_nil in H.
Qed.

(** C2, at a configuration with [verifyPos] enabled: the request body that
    [bpCreateInvoice("order123", "10.00", "cust-ref-42")] builds has the key
    [hash], which is not in the allow-list [post_options].  The body is
    accumulated in the dictionary [pos] that served as the envelope, and
    the [hash] entry of the envelope stays in it. *)
Theorem bpCreateInvoice_body_keeps_hash :
  exists lo lp st' body,
    bpCreateInvoice_prepare (VStr "order123") (VStr "10.00") (VStr "cust-ref-42")
                            (Imm VNone) (sample_state true)
    = (Ok (Prepared (Ref lo) (Ref lp)), st')
    /\ heap st' !! lp = Some body
    /\ body !! "hash" = Some (VStr "zI8QoFNIOiF6fgE43D7cEAHtfFXIK0pwKLuh6BS8xQM=")
    /\ ("hash" ∉ post_options)
    /\ dom body = list_to_set ["hash"; "orderID"; "posData"; "price"; "currency"].
Proof.
  destruct (bpCreateInvoice_prepare_fits (sample_state true) (sample_config true)
              (Imm VNone) ∅ (VBool true)
              (VStr "order123") (VStr "10.00") (VStr "cust-ref-42")
              (<["hash" := VStr "zI8QoFNIOiF6fgE43D7cEAHtfFXIK0pwKLuh6BS8xQM="]>
                 {[ "posData" := VStr "cust-ref-42" ]})
              (dq "{'hash': 'zI8QoFNIOiF6fgE43D7cEAHtfFXIK0pwKLuh6BS8xQM=', 'posData': 'cust-ref-42'}"))
    as (lo & lp & st' & Hrun & Hlp & _).
  - reflexivity.
  - by left.
  - reflexivity.
  - vm_compute. reflexivity.
  - vm_compute. reflexivity.
  - vm_compute. lia.
  - exists lo, lp, st'. eexists. split; [exact Hrun|]. split; [exact Hlp|].
    split; [|split; [apply hash_not_allow_listed|]].
    + rewrite copy_keys_lookup.
      rewrite (decide_False (P := "hash" ∈ post_options)) by apply hash_not_allow_listed.
      apply lookup_insert_eq.
    + vm_compute. reflexivity.
Qed.

(** ** The dictionaries that exist before a call are left as they are *)

Section Preservation.

Variable h0 : gmap loc (gmap string value).

Lemma preserves_ret {A} (a : A) (Q : A -> Prop) : Q a -> preserves h0 (ret a) Q.
Proof. intros HQ st Hst. split; [done|]. simpl. by intros ? [= <-]. Qed.

Lemma preserves_lift {A} (r : result A) : preserves h0 (lift r) any.
Proof. intros st Hst. by split. Qed.

Lemma preserves_weaken {A} (m : M A) (P Q : A -> Prop) :
  preserves h0 m P -> (forall a, P a -> Q a) -> preserves h0 m Q.
Proof.
  intros Hm HPQ st Hst. destruct (Hm st Hst) as [Hkeep HP].
  split; [done|]. intros a Ha. auto.
Qed.

Lemma preserves_bind {A B} (m : M A) (f : A -> M B) (P : A -> Prop) (Q : B -> Prop) :
  preserves h0 m P ->
  (forall a, P a -> preserves h0 (f a) Q) ->
  preserves h0 (bind m f) Q.
Proof.
  intros Hm Hf st Hst. destruct (Hm st Hst) as [Hkeep HP]. unfold bind.
  destruct (m st) as [[a|e|] st1]; simpl in *.
  - apply (Hf a); auto.
  - split; [done|]. discriminate.
  - split; [done|]. discriminate.
Qed.

Lemma preserves_if {A} (b : bool) (m1 m2 : M A) (Q : A -> Prop) :
  preserves h0 m1 Q -> preserves h0 m2 Q -> preserves h0 (if b then m1 else m2) Q.
Proof. by destruct b. Qed.

Lemma preserves_alloc d : preserves h0 (alloc d) (fresh_for h0).
Proof.
  intros st Hst. unfold alloc. simpl.
  assert (Hnew : h0 !! fresh (dom (heap st)) = None).
  { destruct (h0 !! fresh (dom (heap st))) as [d'|] eqn:E; [|done].
    eapply lookup_weaken in E; [|exact Hst]. by rewrite fresh_loc_unused in E. }
  split.
  - by apply insert_subseteq_r.
  - by intros ? [= <-].
Qed.

Lemma preserves_to_obj v : preserves h0 (to_obj v) (fresh_for h0).
Proof. destruct v; try (by apply preserves_ret). apply preserves_alloc. Qed.

Lemma preserves_contents o : preserves h0 (contents o) any.
Proof.
  intros st Hst. unfold contents.
  destruct o as [l|v]; [destruct (heap st !! l)|]; by split.
Qed.

Lemma preserves_read {B} (o : obj) (f : value -> M B) :
  (forall v, preserves h0 (f v) any) ->
  preserves h0 (let* v := contents o in f v) any.
Proof. intros Hf. eapply preserves_bind; [apply preserves_contents|]. auto. Qed.

Lemma preserves_getitem o key : preserves h0 (getitem o key) any.
Proof. apply preserves_read. intros v. apply preserves_lift. Qed.

Lemma preserves_contains key o : preserves h0 (contains key o) any.
Proof. apply preserves_read. intros v. apply preserves_lift. Qed.

Lemma preserves_obj_truthy o : preserves h0 (obj_truthy o) any.
Proof. apply preserves_read. intros v. by apply preserves_ret. Qed.

Lemma preserves_items o : preserves h0 (items o) any.
Proof.
  apply preserves_read. intros v.
  destruct v; apply preserves_lift.
Qed.

(** An assignment into a new object leaves the old ones alone. *)
Lemma preserves_setitem o key v : fresh_for h0 o -> preserves h0 (setitem o key v) any.
Proof.
  intros Ho st Hst. unfold setitem.
  destruct o as [l|x].
  - destruct (heap st !! l) as [d|] eqn:E; [|by split].
    split; [|done]. simpl. by apply insert_subseteq_r.
  - destruct x; by split.
Qed.

Lemma preserves_opener_open w url headers data :
  preserves h0 (opener_open w url headers data) any.
Proof. intros st Hst. by split. Qed.

Lemma preserves_open_append w name : preserves h0 (open_append w name) any.
Proof. apply preserves_lift. Qed.

Lemma preserves_file_write name text : preserves h0 (file_write name text) any.
Proof. intros st Hst. by split. Qed.

Lemma preserves_for_each {A} (l : list A) (body : A -> M unit) :
  (forall x, preserves h0 (body x) any) -> preserves h0 (for_each l body) any.
Proof.
  intros Hbody. induction l as [|x l IH]; simpl.
  - by apply preserves_ret.
  - eapply preserves_bind; [apply Hbody|]. intros _ _. exact IH.
Qed.

End Preservation.

Section PreservationOfTheLibrary.

Variable h0 : gmap loc (gmap string value).
Variable w : world.

Lemma preserves_raise {A} (e : exn) (Q : A -> Prop) : preserves h0 (lift (Raise e)) Q.
Proof. intros st Hst. split; [done|]. discriminate. Qed.

Lemma preserves_unmodelled {A} (Q : A -> Prop) : preserves h0 (lift Unmodelled) Q.
Proof. intros st Hst. split; [done|]. discriminate. Qed.

Lemma preserves_alloc_any d : preserves h0 (alloc d) any.
Proof. eapply preserves_weaken; [apply preserves_alloc|done]. Qed.

Ltac keep_step :=
  cbv beta;
  lazymatch goal with
  | |- preserves _ (bind _ _) _ => eapply preserves_bind; [|intros ? ?]
  | |- preserves _ (if _ then _ else _) _ => apply preserves_if
  | |- preserves _ (ret _) _ =>
      first [ apply preserves_ret; first [exact I | assumption | (split; assumption)]
            | exact (preserves_ret _ _ any I) ]
  | |- preserves _ (lift (Raise _)) _ => apply preserves_raise
  | |- preserves _ (lift Unmodelled) _ => apply preserves_unmodelled
  | |- preserves _ (lift _) _ => apply preserves_lift
  | |- preserves _ (getitem _ _) _ => apply preserves_getitem
  | |- preserves _ (contains _ _) _ => apply preserves_contains
  | |- preserves _ (obj_truthy _) _ => apply preserves_obj_truthy
  | |- preserves _ (items _) _ => apply preserves_items
  | |- preserves _ (contents _) _ => apply preserves_contents
  | |- preserves _ (opener_open _ _ _ _) _ => apply preserves_opener_open
  | |- preserves _ (open_append _ _) _ => apply preserves_open_append
  | |- preserves _ (file_write _ _) _ => apply preserves_file_write
  | |- preserves _ (alloc _) _ => first [apply preserves_alloc | apply preserves_alloc_any]
  | |- preserves _ (to_obj _) _ => apply preserves_to_obj
  | |- preserves _ (setitem _ _ _) _ => apply preserves_setitem; assumption
  | |- preserves _ (for_each _ _) _ => apply preserves_for_each; intros ?
  end.

Ltac keep := repeat keep_step.

Lemma preserves_bpLog c : preserves h0 (bpLog w c) any.
Proof. unfold bpLog. keep. Qed.

Lemma preserves_bpCurl url api_key post :
  preserves h0 (bpCurl w url api_key post) (fresh_for h0).
Proof.
  unfold bpCurl. keep.
  match goal with
  | |- context [Json.loads ?s] => destruct (Json.loads s) as [v|e|]; [|destruct e|]
  end; keep.
  apply preserves_bpLog.
Qed.

Ltac keep_lib :=
  repeat first
    [ keep_step
    | lazymatch goal with
      | |- preserves _ (bpLog _ _) _ => apply preserves_bpLog
      | |- preserves _ (bpCurl _ _ _ _) _ => apply preserves_bpCurl
      end ].

Lemma preserves_merge_options options :
  preserves h0 (merge_options options) (fresh_for h0).
Proof. unfold merge_options. keep. Qed.

Lemma preserves_build_envelope pos_data options :
  fresh_for h0 options ->
  preserves h0 (build_envelope pos_data options) (fresh_for h0).
Proof. intros Ho. unfold build_envelope. keep. Qed.

Lemma preserves_check_and_copy order_id price options pos :
  fresh_for h0 options -> fresh_for h0 pos ->
  preserves h0 (check_and_copy order_id price options pos) (fresh_prepared h0).
Proof. intros Ho Hp. unfold check_and_copy. keep. Qed.

Lemma preserves_bpCreateInvoice_prepare order_id price pos_data options :
  preserves h0 (bpCreateInvoice_prepare order_id price pos_data options)
            (fresh_prepared h0).
Proof.
  unfold bpCreateInvoice_prepare.
  eapply preserves_bind; [apply preserves_merge_options|]. intros lo Hlo.
  eapply preserves_bind; [by apply preserves_build_envelope|]. intros lp Hlp.
  by apply preserves_check_and_copy.
Qed.

Lemma preserves_bpCreateInvoice_send options pos :
  preserves h0 (bpCreateInvoice_send w options pos) (fresh_for h0).
Proof.
  unfold bpCreateInvoice_send. keep_lib.
Qed.

Lemma preserves_bpCreateInvoice order_id price pos_data options :
  preserves h0 (bpCreateInvoice w order_id price pos_data options) (fresh_for h0).
Proof.
  unfold bpCreateInvoice.
  eapply preserves_bind; [apply preserves_bpCreateInvoice_prepare|].
  intros [response|options' pos] Hp.
  - by apply preserves_ret.
  - apply preserves_bpCreateInvoice_send.
Qed.

Lemma preserves_bpVerifyNotification api_key post :
  preserves h0 (bpVerifyNotification api_key post) (fresh_for h0).
Proof. unfold bpVerifyNotification. keep. Qed.

Lemma preserves_bpGetInvoice invoice_id api_key :
  preserves h0 (bpGetInvoice w invoice_id api_key) (fresh_for h0).
Proof.
  unfold bpGetInvoice. keep_lib.
Qed.

Lemma preserves_bpDecodeResponse response :
  preserves h0 (bpDecodeResponse response) (fresh_for h0).
Proof. unfold bpDecodeResponse. keep. Qed.

End PreservationOfTheLibrary.

Lemma preserves_configuration {A} (m : M A) (Q : A -> Prop) st cfg :
  preserves (heap st) m Q ->
  configuration st = Some cfg ->
  configuration (snd (m st)) = configuration st.
Proof.
  intros Hm Hcfg. destruct (Hm st) as [Hkeep _]; [done|].
  rewrite Hcfg. unfold configuration in *. by eapply lookup_weaken.
Qed.

(** C8.  No operation of the library changes [bp_options.bpOptions]: after
    any call the configuration is what it was before.  The assignments of
    [bpCreateInvoice], [bpVerifyNotification] and [bpGetInvoice] go to
    dictionaries created during the call; [sanitize_dict] and [bpHash] are
    functions of their arguments and touch no state at all. *)
Theorem configuration_unchanged
    (w : world) (st : state) (cfg : gmap string value)
    (order_id price pos_data invoice_id api_key post url response contents_ : value)
    (options : obj) (data key : string) :
  configuration st = Some cfg ->
  configuration (snd (bpCreateInvoice w order_id price pos_data options st))
  = configuration st
  /\ configuration (snd (bpGetInvoice w invoice_id api_key st)) = configuration st
  /\ configuration (snd (bpVerifyNotification api_key post st)) = configuration st
  /\ configuration (snd (bpCurl w url api_key post st)) = configuration st
  /\ configuration (snd (bpDecodeResponse response st)) = configuration st
  /\ configuration (snd (bpLog w contents_ st)) = configuration st
  /\ snd (lift (sanitize_dict pos_data) st) = st
  /\ snd (lift (Ok (bpHash data key)) st) = st.
Proof.
  intros Hcfg.
  split; [eapply preserves_configuration;
          [apply preserves_bpCreateInvoice|done]|].
  split; [eapply preserves_configuration; [apply preserves_bpGetInvoice|done]|].
  split; [eapply preserves_configuration;
          [apply preserves_bpVerifyNotification|done]|].
  split; [eapply preserves_configuration; [apply preserves_bpCurl|done]|].
  split; [eapply preserves_configuration; [apply preserves_bpDecodeResponse|done]|].
  split; [eapply preserves_configuration; [apply preserves_bpLog|done]|].
  by split.
Qed.

(** ** A string survives [json.dumps] followed by [json.loads] *)

Lemma uni_of_str_app a b :
  uni_of_str (a +:+ b) = (uni_of_str a ++ uni_of_str b)%list.
Proof.
  unfold uni_of_str. induction a as [|c a IH]; [reflexivity|].
  simpl. f_equal. exact IH.
Qed.

Lemma ascii_only_codes s : ascii_only s = ascii_codes (uni_of_str s).
Proof.
  unfold ascii_only, ascii_codes, uni_of_str.
  induction (list_ascii_of_string s) as [|c l IH]; [reflexivity|].
  cbn [forallb map]. by rewrite IH.
Qed.

Lemma str_of_codes_uni_of_str s : str_of_codes (uni_of_str s) = s.
Proof.
  unfold str_of_codes, uni_of_str. rewrite map_map.
  rewrite <- (string_of_list_ascii_of_string s) at 2. f_equal.
  induction (list_ascii_of_string s) as [|c l IH]; [reflexivity|].
  cbn [map]. unfold code at 1. by rewrite ascii_N_embedding, IH.
Qed.

(** One ASCII character: what [json.dumps] writes for it, [scan_string]
    reads back as that character. *)
Lemma escape_code_scanned_nat (m : nat) :
  (m < 128)%nat ->
  exists p, Json.escape_code (N.of_nat m) = Ok p
            /\ forall tail acc,
                 Json.scan_string (uni_of_str p ++ tail)%list acc
                 = Json.scan_string tail (N.of_nat m :: acc).
Proof.
  intros Hm.
  do 128 (destruct m as [|m];
          [eexists; split; [reflexivity|intros tail acc; reflexivity]|]).
  lia.
Qed.

Lemma escape_code_scanned (n : N) :
  (n < 128)%N ->
  exists p, Json.escape_code n = Ok p
            /\ forall tail acc,
                 Json.scan_string (uni_of_str p ++ tail)%list acc
                 = Json.scan_string tail (n :: acc).
Proof.
  intros Hn. rewrite <- (N2Nat.id n). apply escape_code_scanned_nat. lia.
Qed.

Lemma forallb_cons_true {A} (f : A -> bool) x l :
  forallb f (x :: l) = true -> f x = true /\ forallb f l = true.
Proof. cbn [forallb]. apply andb_true_iff. Qed.

(** An ASCII string: [json.dumps] succeeds on it, and [scan_string] reads
    the characters back from what was written, up to the closing quote. *)
Lemma escape_codes_scanned (u : list N) :
  ascii_codes u = true ->
  exists parts,
    result_mapM Json.escape_code u = Ok parts
    /\ forall tail acc,
         Json.scan_string (uni_of_str (str_concat parts) ++ 34%N :: tail)%list acc
         = Ok (rev acc ++ u, tail)%list.
Proof.
  unfold ascii_codes. induction u as [|n u IH]; intros Hu.
  - exists []. split; [reflexivity|]. intros tail acc.
    rewrite app_nil_r. reflexivity.
  - apply forallb_cons_true in Hu as [Hn Hu]. apply N.ltb_lt in Hn.
    destruct (escape_code_scanned n Hn) as (p & Hp & Hscan).
    destruct (IH Hu) as (parts & Hparts & Hrest).
    exists (p :: parts). split.
    + cbn [result_mapM]. rewrite Hp, Hparts. reflexivity.
    + intros tail acc. cbn [str_concat fold_right].
      rewrite uni_of_str_app, <- app_assoc, Hscan.
      change (fold_right String.append "" parts) with (str_concat parts).
      rewrite Hrest. cbn [rev]. rewrite <- app_assoc. reflexivity.
Qed.

Lemma dumps_str_scanned (s : string) :
  ascii_only s = true ->
  exists parts,
    Json.dumps_str s = Ok (quoted parts)
    /\ forall tail acc,
         Json.scan_string (uni_of_str (str_concat parts) ++ 34%N :: tail)%list acc
         = Ok (rev acc ++ uni_of_str s, tail)%list.
Proof.
  intros Hs. pose proof Hs as Hs'. rewrite ascii_only_codes in Hs'.
  destruct (escape_codes_scanned _ Hs') as (parts & Hparts & Hscan).
  exists parts. split; [|exact Hscan].
  unfold Json.dumps_str, Json.dumps_codes. rewrite Hs, Hparts. reflexivity.
Qed.

Lemma uni_of_str_quoted parts :
  uni_of_str (quoted parts)
  = (34%N :: uni_of_str (str_concat parts) ++ [34%N])%list.
Proof. unfold quoted. rewrite uni_of_str_app. reflexivity. Qed.

Lemma skip_ws_stays c l : Json.is_ws c = false -> Json.skip_ws (c :: l) = c :: l.
Proof. intros H. cbn [Json.skip_ws]. by rewrite H. Qed.

Lemma scan_value_string fuel (e u tail : list N) :
  (forall tail acc,
     Json.scan_string (e ++ 34%N :: tail)%list acc = Ok (rev acc ++ u, tail)%list) ->
  Json.scan_value (S fuel) (34%N :: e ++ 34%N :: tail)%list = Ok (VUni u, tail).
Proof.
  intros H. cbn [Json.scan_value].
  change (Json.is_char Json.QUOTE 34) with true. cbv iota.
  rewrite H. reflexivity.
Qed.

Lemma scan_value_object fuel (l : list N) :
  Json.scan_value (S fuel) (123%N :: 34%N :: l)
  = Json.scan_members (Json.scan_value fuel) fuel l ∅.
Proof.
  cbn [Json.scan_value].
  change (Json.is_char Json.QUOTE 123) with false.
  change (Json.is_char "{" 123) with true. cbv iota.
  rewrite skip_ws_stays by reflexivity.
  change (Json.is_char "}" 34) with false.
  change (Json.is_char Json.QUOTE 34) with true. reflexivity.
Qed.

(** A member [key: "string"] followed by a comma and the next key, or by
    the closing brace. *)
Lemma scan_members_next scan fuel (l kc r1 r2 : list N) k v acc :
  Json.scan_string l [] = Ok (kc, 58%N :: 32%N :: 34%N :: r1) ->
  Json.key_of_codes kc = Ok k ->
  scan (34%N :: r1) = Ok (v, 44%N :: 32%N :: 34%N :: r2) ->
  Json.scan_members scan (S fuel) l acc = Json.scan_members scan fuel r2 (<[k:=v]> acc).
Proof.
  intros Hkey Hk Hv. cbn [Json.scan_members].
  rewrite Hkey. cbn [rbind]. rewrite Hk. cbn [rbind].
  rewrite skip_ws_stays by reflexivity.
  change (Json.is_char ":" 58) with true. cbv iota.
  change (Json.skip_ws (32%N :: 34%N :: r1)) with (Json.skip_ws (34%N :: r1)).
  rewrite skip_ws_stays by reflexivity.
  rewrite Hv. cbn [rbind].
  rewrite skip_ws_stays by reflexivity.
  change (Json.is_char "}" 44) with false.
  change (Json.is_char "," 44) with true. cbv iota.
  change (Json.skip_ws (32%N :: 34%N :: r2)) with (Json.skip_ws (34%N :: r2)).
  rewrite skip_ws_stays by reflexivity.
  change (Json.is_char Json.QUOTE 34) with true. reflexivity.
Qed.

Lemma scan_members_last scan fuel (l kc r1 r2 : list N) k v acc :
  Json.scan_string l [] = Ok (kc, 58%N :: 32%N :: 34%N :: r1) ->
  Json.key_of_codes kc = Ok k ->
  scan (34%N :: r1) = Ok (v, 125%N :: r2) ->
  Json.scan_members scan (S fuel) l acc = Ok (VDict (<[k:=v]> acc), r2).
Proof.
  intros Hkey Hk Hv. cbn [Json.scan_members].
  rewrite Hkey. cbn [rbind]. rewrite Hk. cbn [rbind].
  rewrite skip_ws_stays by reflexivity.
  change (Json.is_char ":" 58) with true. cbv iota.
  change (Json.skip_ws (32%N :: 34%N :: r1)) with (Json.skip_ws (34%N :: r1)).
  rewrite skip_ws_stays by reflexivity.
  rewrite Hv. cbn [rbind].
  rewrite skip_ws_stays by reflexivity.
  change (Json.is_char "}" 125) with true. reflexivity.
Qed.

(** The text of an envelope with string fields decodes to these fields. *)
Lemma loads_envelope_codes (eh ex uh ux : list N) :
  (forall tail acc,
     Json.scan_string (eh ++ 34%N :: tail)%list acc = Ok (rev acc ++ uh, tail)%list) ->
  (forall tail acc,
     Json.scan_string (ex ++ 34%N :: tail)%list acc = Ok (rev acc ++ ux, tail)%list) ->
  Json.loads_codes
    (uni_of_str (dq "{'hash': '") ++ eh ++ uni_of_str (dq "', 'posData': '")
       ++ ex ++ uni_of_str (dq "'}"))%list
  = Ok (VDict (<["posData" := VUni ux]> (<["hash" := VUni uh]> ∅))).
Proof.
  intros Hh Hx. unfold Json.loads_codes.
  change (uni_of_str (dq "{'hash': '"))
    with [123; 34; 104; 97; 115; 104; 34; 58; 32; 34]%N.
  change (uni_of_str (dq "', 'posData': '"))
    with [34; 44; 32; 34; 112; 111; 115; 68; 97; 116; 97; 34; 58; 32; 34]%N.
  change (uni_of_str (dq "'}")) with [34; 125]%N.
  cbn [app length].
  rewrite skip_ws_stays by reflexivity.
  rewrite scan_value_object.
  erewrite scan_members_next;
    [|reflexivity|reflexivity|apply scan_value_string; exact Hh].
  erewrite scan_members_last;
    [|reflexivity|reflexivity|apply scan_value_string; exact Hx].
  reflexivity.
Qed.

Lemma envelope_fold {B} (f : string -> value -> B -> B) (z : B) (h x : value) :
  map_fold f z (<["hash" := h]> ({[ "posData" := x ]} : gmap string value))
  = f "hash" h (f "posData" x z).
Proof. reflexivity. Qed.

(** The envelope of an ASCII [posData] with an ASCII hash: its JSON text
    decodes to the two fields, as [unicode] strings. *)
Lemma envelope_round_trip (x h : string) :
  ascii_only x = true ->
  ascii_only h = true ->
  exists text,
    Json.dumps (VDict (<["hash" := VStr h]> {[ "posData" := VStr x ]})) = Ok text
    /\ Json.loads (VUni (uni_of_str text))
       = Ok (VDict (<["posData" := VUni (uni_of_str x)]>
                      (<["hash" := VUni (uni_of_str h)]> ∅))).
Proof.
  intros Hx Hh.
  destruct (dumps_str_scanned x Hx) as (px & Hpx & Hscanx).
  destruct (dumps_str_scanned h Hh) as (ph & Hph & Hscanh).
  exists ("{" +:+ str_join ", " [ dq "'hash'" +:+ ": " +:+ quoted ph;
                                  dq "'posData'" +:+ ": " +:+ quoted px ] +:+ "}").
  split.
  - cbn [Json.dumps]. rewrite envelope_fold. cbn [rbind].
    change (Json.dumps_str "posData") with (Ok (A := string) (dq "'posData'")).
    change (Json.dumps_str "hash") with (Ok (A := string) (dq "'hash'")).
    cbn [rbind Json.dumps]. rewrite Hpx. cbn [rbind]. rewrite Hph. reflexivity.
  - cbn [Json.loads str_join].
    rewrite !uni_of_str_app, !uni_of_str_quoted.
    rewrite <- (loads_envelope_codes (uni_of_str (str_concat ph))
                  (uni_of_str (str_concat px)) (uni_of_str h) (uni_of_str x) Hscanh Hscanx).
    f_equal.
    change (uni_of_str "{") with [123%N].
    change (uni_of_str "}") with [125%N].
    change (uni_of_str (dq "'hash'")) with [34; 104; 97; 115; 104; 34]%N.
    change (uni_of_str (dq "'posData'")) with [34; 112; 111; 115; 68; 97; 116; 97; 34]%N.
    change (uni_of_str ": ") with [58; 32]%N.
    change (uni_of_str ", ") with [44; 32]%N.
    change (uni_of_str (dq "{'hash': '"))
      with [123; 34; 104; 97; 115; 104; 34; 58; 32; 34]%N.
    change (uni_of_str (dq "', 'posData': '"))
      with [34; 44; 32; 34; 112; 111; 115; 68; 97; 116; 97; 34; 58; 32; 34]%N.
    change (uni_of_str (dq "'}")) with [34; 125]%N.
    repeat (rewrite <- ?app_assoc; cbn [app]).
    reflexivity.
Qed.

(** ** The keyed hash is ASCII *)

Lemma digit_ascii n : N.ltb (code (Base64.digit n)) 128 = true.
Proof.
  unfold Base64.digit.
  destruct (nth_in_or_default (Z.to_nat (n mod 64)) Base64.table "="%char) as [Hin|Heq];
    [|rewrite Heq; reflexivity].
  assert (Hall : forallb (fun c => N.ltb (code c) 128) Base64.table = true) by reflexivity.
  rewrite forallb_forall in Hall. by apply Hall.
Qed.

Lemma encode_bytes_ascii l :
  forallb (fun c => N.ltb (code c) 128) (Base64.encode_bytes l) = true.
Proof.
  assert (H : forall n l, (length l <= n)%nat ->
                forallb (fun c => N.ltb (code c) 128) (Base64.encode_bytes l) = true).
  { clear l. induction n as [|n IH]; intros l Hl.
    - destruct l; [reflexivity|simpl in Hl; lia].
    - destruct l as [|a [|b [|c rest]]]; cbn [Base64.encode_bytes forallb];
        rewrite ?digit_ascii; try reflexivity.
      cbn [andb]. apply IH. simpl in Hl. lia. }
  by apply (H (length l)).
Qed.

Lemma encode_ascii_only s : ascii_only (Base64.encode s) = true.
Proof.
  unfold ascii_only, Base64.encode.
  rewrite list_ascii_of_string_of_list_ascii. apply encode_bytes_ascii.
Qed.

Lemma bpHash_encode data key : bpHash data key = Base64.encode (HMAC.digest key data).
Proof. unfold bpHash, Base64.b2a_base64. apply slice_to_minus1_snoc. Qed.

Lemma bpHash_ascii data key : ascii_only (bpHash data key) = true.
Proof. rewrite bpHash_encode. apply encode_ascii_only. Qed.

(** ** Verification of a notification against its hash *)

Lemma sanitize_ascii_unicode x :
  ascii_only x = true ->
  (clean <~ sanitize_dict (VUni (uni_of_str x)); py_str clean) = Ok x.
Proof.
  intros Hx. cbn [sanitize_dict]. unfold encode_ascii.
  rewrite <- ascii_only_codes, Hx. cbn [rmap rbind py_str].
  by rewrite str_of_codes_uni_of_str.
Qed.

Lemma py_eq_unicode_of x : ascii_only x = true -> py_eq (VUni (uni_of_str x)) (VStr x) = true.
Proof.
  intros Hx. cbn [py_eq]. rewrite Hx. cbn [andb].
  by apply bool_decide_eq_true_2.
Qed.

(** Line 197 onwards with [verifyPos] enabled. *)
Lemma bpVerifyNotification_checked
    st cfg verify api_key post key jd text envelope claimed inner data :
  heap st !! bpOptions_loc = Some cfg ->
  cfg !! "verifyPos" = Some verify ->
  truthy verify = true ->
  effective_key api_key cfg = Some (VStr key) ->
  Json.loads post = Ok (VDict jd) ->
  jd !! "posData" = Some text ->
  Json.loads text = Ok (VDict envelope) ->
  envelope !! "hash" = Some claimed ->
  envelope !! "posData" = Some inner ->
  (clean <~ sanitize_dict inner; py_str clean) = Ok data ->
  if py_eq claimed (VStr (bpHash data key))
  then exists l st',
         bpVerifyNotification api_key post st = (Ok (Ref l), st')
         /\ heap st' !! l = Some (<["posData" := inner]> jd)
         /\ heap st !! l = None
  else fst (bpVerifyNotification api_key post st)
       = Ok (Imm (VStr "authentication failed (bad hash)")).
Proof.
  intros Hcfg Hverify Hon Hk Hpost Htext Henv Hclaimed Hinner Hdata.
  rewrite (bpVerifyNotification_decoded st cfg api_key post (VStr key) jd text
             (VDict envelope) verify) by assumption.
  unfold hash_check. rewrite Hon.
  assert (Hc : getitem_value (VDict envelope) "hash" = Ok claimed)
    by (cbn [getitem_value]; by rewrite Hclaimed).
  assert (Hi : getitem_value (VDict envelope) "posData" = Ok inner)
    by (cbn [getitem_value]; by rewrite Hinner).
  erewrite (bind_ok _ _ _ (negb (py_eq claimed (VStr (bpHash data key))))).
  2:{ rewrite (bind_lift_ok _ _ _ _ Hc), (bind_lift_ok _ _ _ _ Hi).
      rewrite (bind_lift_ok _ _ _ _ Hdata).
      rewrite (bind_lift_ok _ _ _ (bpHash data key)) by reflexivity.
      reflexivity. }
  destruct (py_eq claimed (VStr (bpHash data key))); cbn [negb]; cbv beta iota.
  - rewrite (bind_lift_ok _ _ _ _ Hi).
    erewrite bind_ok by (apply setitem_ref; apply lookup_insert_eq).
    eexists _, _. split; [reflexivity|]. cbn [heap].
    rewrite lookup_insert_eq. split; [reflexivity|]. apply fresh_loc_unused.
  - reflexivity.
Qed.



(** ** The theorems at sample inputs *)


Lemma bpVerifyNotification_unverified_witness :
  exists l st',
    bpVerifyNotification (VBool false) (VStr (sample_payload sample_plain_envelope))
                         (sample_state false) = (Ok (Ref l), st')
    /\ heap st' !! l
       = Some (<["posData" := VUni (uni_of_str "cust-ref-42")]>
                 (sample_decoded sample_plain_envelope))
    /\ heap (sample_state false) !! l = None
    /\ sent st' = sent (sample_state false)
    /\ files st' = files (sample_state false).
Proof.
  apply (bpVerifyNotification_unverified (sample_state false) (sample_config false)
           (VBool false) (VStr (sample_payload sample_plain_envelope)) (VStr "secret")
           (sample_decoded sample_plain_envelope)
           (VUni (uni_of_str (text_of (Json.dumps (VDict sample_plain_envelope)))))
           {[ "posData" := VUni (uni_of_str "cust-ref-42") ]}
           (VUni (uni_of_str "cust-ref-42")) (VBool false));
    vm_compute; reflexivity.
Defined.

Lemma bpVerifyNotification_missing_hash_witness :
  fst (bpVerifyNotification (VStr "secret") (VStr (sample_payload sample_plain_envelope))
                            (sample_state true))
  = Raise (KeyError "hash").
Proof.
  apply (bpVerifyNotification_missing_hash (sample_state true) (sample_config true)
           (VStr "secret") (VStr (sample_payload sample_plain_envelope))
           (sample_decoded sample_plain_envelope)
           (VUni (uni_of_str (text_of (Json.dumps (VDict sample_plain_envelope)))))
           {[ "posData" := VUni (uni_of_str "cust-ref-42") ]} (VBool true));
    vm_compute; reflexivity.
Defined.

Lemma bpCreateInvoice_envelope_limit_witness :
  exists l st',
    bpCreateInvoice (sample_world "") (VStr "order123") (VStr "10.00") long_posData
                    (Imm VNone) (sample_state true) = (Ok (Ref l), st')
    /\ heap st' !! l
       = Some {[ "error" :=
                   VStr "posData > 100 character limit. Are you using the posData hash?" ]}
    /\ heap (sample_state true) !! l = None
    /\ sent st' = sent (sample_state true)
    /\ files st' = files (sample_state true).
Proof.
  apply (bpCreateInvoice_envelope_limit (sample_world "") (sample_state true)
           (sample_config true) (Imm VNone) ∅ (VBool true) (VStr "order123")
           (VStr "10.00") long_posData long_envelope
           (text_of (Json.dumps (VDict long_envelope)))).
  - reflexivity.
  - left. split; reflexivity.
  - reflexivity.
  - vm_compute. reflexivity.
  - vm_compute. reflexivity.
  - vm_compute. lia.
Defined.

Lemma bpGetInvoice_unwraps_witness :
  exists l st' d,
    bpGetInvoice (sample_world sample_answer) (VStr "inv1") (VBool false)
                 (sample_state false) = (Ok (Ref l), st')
    /\ heap st' !! l = Some d
    /\ d !! "posData" = Some (VInt 5)
    /\ (forall other, other <> "posData" ->
          d !! other = sample_decoded {[ "posData" := VInt 5 ]} !! other)
    /\ heap (sample_state false) !! l = None.
Proof.
  apply (bpGetInvoice_unwraps (sample_world sample_answer) (sample_state false)
           (sample_config false) "inv1" (VBool false) "secret" sample_answer
           (sample_decoded {[ "posData" := VInt 5 ]})
           (VUni (uni_of_str (text_of (Json.dumps (VDict {[ "posData" := VInt 5 ]})))))
           {[ "posData" := VInt 5 ]} (VInt 5));
    vm_compute; reflexivity.
Defined.

Lemma configuration_unchanged_witness :
  let w := sample_world sample_answer in
  let st := sample_state true in
  configuration (snd (bpCreateInvoice w (VStr "order123") (VStr "10.00")
                                      (VStr "cust-ref-42") (Imm VNone) st))
  = configuration st
  /\ configuration (snd (bpGetInvoice w (VStr "inv1") (VBool false) st)) = configuration st
  /\ configuration (snd (bpVerifyNotification (VBool false)
                           (VStr (sample_payload sample_envelope)) st))
     = configuration st
  /\ configuration (snd (bpCurl w (VStr "https://bitpay.com/api/invoice/") (VBool false)
                                (VStr (sample_payload sample_envelope)) st))
     = configuration st
  /\ configuration (snd (bpDecodeResponse (VStr sample_answer) st)) = configuration st
  /\ configuration (snd (bpLog w (VStr "Response: ") st)) = configuration st
  /\ snd (lift (sanitize_dict (VStr "cust-ref-42")) st) = st
  /\ snd (lift (Ok (bpHash "cust-ref-42" "secret")) st) = st.
Proof.
  apply (configuration_unchanged (sample_world sample_answer) (sample_state true)
           (sample_config true) (VStr "order123") (VStr "10.00") (VStr "cust-ref-42")
           (VStr "inv1") (VBool false) (VStr (sample_payload sample_envelope))
           (VStr "https://bitpay.com/api/invoice/") (VStr sample_answer)
           (VStr "Response: ") (Imm VNone) "cust-ref-42" "secret").
  reflexivity.
Defined.

(** * Further properties *)

(** ** The size of the keyed hash *)

Lemma length_string_of_list_ascii l : String.length (string_of_list_ascii l) = length l.
Proof. induction l as [|c l IH]; [reflexivity|]. cbn. by rewrite IH. Qed.

Lemma length_str_of_bytes l : String.length (str_of_bytes l) = length l.
Proof. unfold str_of_bytes. by rewrite length_string_of_list_ascii, length_map. Qed.

Lemma length_list_ascii_of_string s : length (list_ascii_of_string s) = String.length s.
Proof. induction s as [|c s IH]; [reflexivity|]. cbn. by rewrite IH. Qed.

Lemma length_bytes_of s : length (bytes_of s) = String.length s.
Proof. unfold bytes_of. by rewrite length_map, length_list_ascii_of_string. Qed.

Lemma length_round st kw : length (SHA256.round st kw) = length st.
Proof.
  unfold SHA256.round.
  destruct st as [|a [|b [|c [|d [|e [|f [|g [|h [|i rest]]]]]]]]]; reflexivity.
Qed.

Lemma length_fold_round kws st : length (fold_left SHA256.round kws st) = length st.
Proof.
  revert st. induction kws as [|kw kws IH]; intros st; [reflexivity|].
  cbn [fold_left]. by rewrite IH, length_round.
Qed.

Lemma length_compress st block : length (SHA256.compress st block) = length st.
Proof.
  unfold SHA256.compress.
  rewrite length_map, length_combine, length_fold_round. lia.
Qed.

Lemma length_fold_compress blocks st :
  length (fold_left SHA256.compress blocks st) = length st.
Proof.
  revert st. induction blocks as [|b blocks IH]; intros st; [reflexivity|].
  cbn [fold_left]. by rewrite IH, length_compress.
Qed.

Lemma length_concat_words ws :
  length (concat (map SHA256.bytes_of_word ws)) = (4 * length ws)%nat.
Proof.
  induction ws as [|w ws IH]; [reflexivity|].
  cbn [map concat]. rewrite length_app, IH. cbn [length SHA256.bytes_of_word]. lia.
Qed.

(** A SHA-256 digest has 32 bytes. *)
Lemma length_sha256_digest s : String.length (SHA256.digest s) = 32%nat.
Proof.
  unfold SHA256.digest, SHA256.digest_bytes.
  rewrite length_str_of_bytes, length_concat_words, length_fold_compress.
  reflexivity.
Qed.

Lemma length_hmac_digest key msg : String.length (HMAC.digest key msg) = 32%nat.
Proof. unfold HMAC.digest. apply length_sha256_digest. Qed.

(** Base64 writes four characters for every three bytes, the last group
    completed. *)
Lemma length_encode_bytes l :
  length (Base64.encode_bytes l) = (4 * ((length l + 2) / 3))%nat.
Proof.
  assert (H : forall n l, (length l <= n)%nat ->
                length (Base64.encode_bytes l) = (4 * ((length l + 2) / 3))%nat).
  { clear l. induction n as [|n IH]; intros l Hl.
    - destruct l; [reflexivity|simpl in Hl; lia].
    - destruct l as [|a [|b [|c rest]]]; try reflexivity.
      cbn [Base64.encode_bytes length]. rewrite IH by (simpl in Hl; lia).
      replace (S (S (S (length rest))) + 2)%nat with ((length rest + 2) + 1 * 3)%nat by lia.
      rewrite Nat.div_add by lia. lia. }
  by apply (H (length l)).
Qed.

Lemma length_encode s :
  String.length (Base64.encode s) = (4 * ((String.length s + 2) / 3))%nat.
Proof.
  unfold Base64.encode.
  by rewrite length_string_of_list_ascii, length_encode_bytes, length_bytes_of.
Qed.

Lemma length_bpHash data key : String.length (bpHash data key) = 44%nat.
Proof. rewrite bpHash_encode, length_encode, length_hmac_digest. reflexivity. Qed.

(** X1.  Whatever the data and the key, [bpHash] returns 44 ASCII
    characters: the base64 form of the 32 bytes of a SHA-256 digest. *)
Theorem bpHash_length (data key : string) :
  String.length (bpHash data key) = 44%nat /\ ascii_only (bpHash data key) = true.
Proof. split; [apply length_bpHash|apply bpHash_ascii]. Qed.

(** ** The limit of line 147 in terms of the posData *)

Lemma length_append a b : String.length (a +:+ b) = (String.length a + String.length b)%nat.
Proof. induction a as [|c a IH]; [reflexivity|]. simpl. by rewrite IH. Qed.

Lemma escape_code_length n p : Json.escape_code n = Ok p -> (1 <= String.length p)%nat.
Proof.
  unfold Json.escape_code.
  repeat match goal with
         | |- context [if ?b then _ else _] => destruct b
         end;
    intros [= <-]; cbn [String.length]; lia.
Qed.

Lemma escape_code_plain n :
  plain_code n = true -> Json.escape_code n = Ok (String (ascii_of_N n) "").
Proof.
  unfold plain_code, Json.escape_code. intros H.
  apply andb_true_iff in H as [H H92]. apply andb_true_iff in H as [H H34].
  apply andb_true_iff in H as [H32 H126].
  apply negb_true_iff in H92, H34.
  rewrite H34, H92, H32, H126. cbn [andb].
  apply N.leb_le in H32.
  repeat match goal with
         | |- context [N.eqb n ?k] =>
             destruct (N.eqb_spec n k) as [->|_]; [lia|]
         end.
  reflexivity.
Qed.

Lemma escape_codes_length u parts :
  result_mapM Json.escape_code u = Ok parts ->
  (length u <= String.length (str_concat parts))%nat.
Proof.
  revert parts. induction u as [|n u IH]; intros parts.
  - intros [= <-]. cbn. lia.
  - cbn [result_mapM].
    destruct (Json.escape_code n) as [p| |] eqn:Hp; try discriminate.
    cbn [rbind]. destruct (result_mapM Json.escape_code u) as [ps| |]; try discriminate.
    cbn [rbind]. intros [= <-].
    cbn [str_concat fold_right length]. rewrite length_append.
    pose proof (escape_code_length _ _ Hp). pose proof (IH ps eq_refl) as Hps.
    unfold str_concat in Hps. lia.
Qed.

Lemma escape_codes_plain u :
  forallb plain_code u = true ->
  exists parts,
    result_mapM Json.escape_code u = Ok parts
    /\ String.length (str_concat parts) = length u.
Proof.
  induction u as [|n u IH]; intros Hu.
  - by exists [].
  - apply forallb_cons_true in Hu as [Hn Hu].
    destruct (IH Hu) as (parts & Hparts & Hlen).
    exists (String (ascii_of_N n) "" :: parts). split.
    + cbn [result_mapM]. by rewrite (escape_code_plain _ Hn), Hparts.
    + cbn [str_concat fold_right length]. rewrite length_append.
      unfold str_concat in Hlen. rewrite Hlen. reflexivity.
Qed.

Lemma length_uni_of_str s : length (uni_of_str s) = String.length s.
Proof. unfold uni_of_str. by rewrite length_map, length_list_ascii_of_string. Qed.

Lemma length_quoted parts :
  String.length (quoted parts) = (String.length (str_concat parts) + 2)%nat.
Proof. unfold quoted. cbn [String.length]. rewrite length_append. cbn. lia. Qed.

(** The JSON form of an ASCII string is at least two characters longer
    than the string. *)
Lemma dumps_str_longer s q :
  Json.dumps_str s = Ok q -> (String.length s + 2 <= String.length q)%nat.
Proof.
  unfold Json.dumps_str, Json.dumps_codes.
  destruct (ascii_only s); [|discriminate].
  destruct (result_mapM Json.escape_code (uni_of_str s)) as [parts| |] eqn:Hparts;
    try discriminate.
  cbn [rbind]. intros [= <-].
  change (String double_quote (str_concat parts) +:+ String double_quote "")
    with (quoted parts).
  rewrite length_quoted. apply escape_codes_length in Hparts.
  rewrite length_uni_of_str in Hparts. lia.
Qed.

Lemma plain_text_codes s : plain_text s = forallb plain_code (uni_of_str s).
Proof.
  unfold plain_text, uni_of_str.
  induction (list_ascii_of_string s) as [|c l IH]; [reflexivity|].
  cbn [forallb map]. by rewrite IH.
Qed.

Lemma plain_code_ascii n : plain_code n = true -> N.ltb n 128 = true.
Proof.
  unfold plain_code. intros H.
  apply andb_true_iff in H as [H _]. apply andb_true_iff in H as [H _].
  apply andb_true_iff in H as [_ H]. apply N.leb_le in H. apply N.ltb_lt. lia.
Qed.

Lemma plain_text_ascii s : plain_text s = true -> ascii_only s = true.
Proof.
  unfold plain_text, ascii_only. rewrite !forallb_forall.
  intros H c Hc. apply plain_code_ascii. by apply H.
Qed.

(** A plain string is written between quotes as it is. *)
Lemma dumps_str_plain s :
  plain_text s = true ->
  exists q, Json.dumps_str s = Ok q /\ String.length q = (String.length s + 2)%nat.
Proof.
  intros Hs. pose proof (plain_text_ascii _ Hs) as Ha.
  rewrite plain_text_codes in Hs.
  destruct (escape_codes_plain _ Hs) as (parts & Hparts & Hlen).
  exists (quoted parts). split.
  - unfold Json.dumps_str, Json.dumps_codes. by rewrite Ha, Hparts.
  - rewrite length_quoted, Hlen, length_uni_of_str. reflexivity.
Qed.

Lemma dumps_plain_envelope x qx :
  Json.dumps_str x = Ok qx ->
  Json.dumps (VDict {[ "posData" := VStr x ]})
  = Ok ("{" +:+ (dq "'posData'" +:+ ": " +:+ qx) +:+ "}").
Proof.
  intros Hx. cbn [Json.dumps]. rewrite map_fold_singleton. cbn [rbind].
  change (Json.dumps_str "posData") with (Ok (A := string) (dq "'posData'")).
  cbn [rbind Json.dumps]. rewrite Hx. reflexivity.
Qed.

Lemma dumps_hash_envelope x h qx qh :
  Json.dumps_str x = Ok qx ->
  Json.dumps_str h = Ok qh ->
  Json.dumps (VDict (envelope_of (VStr x) h))
  = Ok ("{" +:+ ((dq "'hash'" +:+ ": " +:+ qh) +:+ ", "
                 +:+ (dq "'posData'" +:+ ": " +:+ qx)) +:+ "}").
Proof.
  intros Hx Hh. unfold envelope_of. cbn [Json.dumps]. rewrite envelope_fold. cbn [rbind].
  change (Json.dumps_str "posData") with (Ok (A := string) (dq "'posData'")).
  change (Json.dumps_str "hash") with (Ok (A := string) (dq "'hash'")).
  cbn [rbind Json.dumps]. rewrite Hx. cbn [rbind]. rewrite Hh. reflexivity.
Qed.

Lemma digit_plain n : plain_code (code (Base64.digit n)) = true.
Proof.
  unfold Base64.digit.
  destruct (nth_in_or_default (Z.to_nat (n mod 64)) Base64.table "="%char) as [Hin|Heq];
    [|rewrite Heq; reflexivity].
  assert (Hall : forallb (fun c => plain_code (code c)) Base64.table = true) by reflexivity.
  rewrite forallb_forall in Hall. by apply Hall.
Qed.

Lemma encode_bytes_plain l :
  forallb (fun c => plain_code (code c)) (Base64.encode_bytes l) = true.
Proof.
  assert (H : forall n l, (length l <= n)%nat ->
                forallb (fun c => plain_code (code c)) (Base64.encode_bytes l) = true).
  { clear l. induction n as [|n IH]; intros l Hl.
    - destruct l; [reflexivity|simpl in Hl; lia].
    - destruct l as [|a [|b [|c rest]]]; cbn [Base64.encode_bytes forallb];
        rewrite ?digit_plain; try reflexivity.
      cbn [andb]. apply IH. simpl in Hl. lia. }
  by apply (H (length l)).
Qed.

Lemma bpHash_plain data key : plain_text (bpHash data key) = true.
Proof.
  rewrite bpHash_encode. unfold plain_text, Base64.encode.
  rewrite list_ascii_of_string_of_list_ascii. apply encode_bytes_plain.
Qed.

(** The envelope of a string, serialized: 15 characters around the JSON
    form of the string, and 56 more with the hash. *)
Lemma envelope_text_length verify x key merged qx :
  Json.dumps_str x = Ok qx ->
  (truthy verify = true -> merged !! "apiKey" = Some (VStr key)) ->
  exists envelope text,
    posData_envelope verify (VStr x) merged = Ok envelope
    /\ Json.dumps (VDict envelope) = Ok text
    /\ String.length text
       = (String.length qx + if truthy verify then 69 else 13)%nat.
Proof.
  intros Hx Hkey. unfold posData_envelope.
  destruct (truthy verify).
  - destruct (dumps_str_plain _ (bpHash_plain x key)) as (qh & Hh & Hlen).
    exists (envelope_of (VStr x) (bpHash x key)). eexists. split; [|split].
    + cbn [sanitize_dict rbind py_str getitem_value]. rewrite (Hkey eq_refl). reflexivity.
    + by apply dumps_hash_envelope.
    + rewrite !length_append, Hlen.
      rewrite (length_bpHash x key).
      change (String.length (dq "'hash'")) with 6%nat.
      change (String.length (dq "'posData'")) with 9%nat.
      change (String.length "{") with 1%nat.
      change (String.length "}") with 1%nat.
      change (String.length ": ") with 2%nat.
      change (String.length ", ") with 2%nat.
      lia.
  - exists {[ "posData" := VStr x ]}. eexists. split; [reflexivity|split].
    + by apply dumps_plain_envelope.
    + rewrite !length_append.
      change (String.length (dq "'posData'")) with 9%nat.
      change (String.length "{") with 1%nat.
      change (String.length "}") with 1%nat.
      change (String.length ": ") with 2%nat.
      lia.
Qed.

(** X2.  The limit of 100 characters, read on the posData: with
    [verifyPos] enabled an ASCII string of more than 29 characters is
    refused with the error dictionary and a plain string of at most 29
    passes; with [verifyPos] disabled the bound is 85. *)
Theorem bpCreateInvoice_posData_room
    (st : state) (cfg : gmap string value) (options : obj) (opts : gmap string value)
    (verify order_id price : value) (x key : string) :
  heap st !! bpOptions_loc = Some cfg ->
  options_given st options opts ->
  cfg !! "verifyPos" = Some verify ->
  (truthy verify = true -> (opts ∪ cfg) !! "apiKey" = Some (VStr key)) ->
  (ascii_only x = true ->
   (posData_room verify < String.length x)%nat ->
   exists l st',
     bpCreateInvoice_prepare order_id price (VStr x) options st
     = (Ok (TooLong (Ref l)), st')
     /\ heap st' !! l = Some too_long_error
     /\ sent st' = sent st)
  /\ (plain_text x = true ->
      (String.length x <= posData_room verify)%nat ->
      exists lo lp st',
        bpCreateInvoice_prepare order_id price (VStr x) options st
        = (Ok (Prepared (Ref lo) (Ref lp)), st')).
Proof.
  intros Hcfg Hopts Hverify Hkey. unfold posData_room. split.
  - intros Hx Hlong.
    destruct (dumps_str_scanned x Hx) as (parts & Hqx & _).
    destruct (envelope_text_length verify x key (opts ∪ cfg) _ Hqx Hkey)
      as (envelope & text & Henv & Htext & Hlen).
    pose proof (dumps_str_longer _ _ Hqx) as Hq.
    destruct (bpCreateInvoice_prepare_too_long st cfg options opts verify order_id price
                (VStr x) envelope text Hcfg Hopts Hverify Henv Htext)
      as (l & st' & Hrun & Hl & _ & Hsent & _).
    + rewrite Hlen. destruct (truthy verify); lia.
    + by exists l, st'.
  - intros Hx Hfits.
    destruct (dumps_str_plain x Hx) as (qx & Hqx & Hq).
    destruct (envelope_text_length verify x key (opts ∪ cfg) _ Hqx Hkey)
      as (envelope & text & Henv & Htext & Hlen).
    destruct (bpCreateInvoice_prepare_fits st cfg options opts verify order_id price
                (VStr x) envelope text Hcfg Hopts Hverify Henv Htext)
      as (lo & lp & st' & Hrun & _).
    + rewrite Hlen, Hq. destruct (truthy verify); lia.
    + by exists lo, lp, st'.
Qed.

Lemma bpCreateInvoice_posData_room_witness :
  (exists l st',
     bpCreateInvoice_prepare (VStr "order123") (VStr "10.00")
                             (VStr "a-reference-of-30-characters-x") (Imm VNone)
                             (sample_state true)
     = (Ok (TooLong (Ref l)), st')
     /\ heap st' !! l = Some too_long_error
     /\ sent st' = sent (sample_state true))
  /\ (exists lo lp st',
        bpCreateInvoice_prepare (VStr "order123") (VStr "10.00")
                                (VStr "a-reference-of-29-characters-") (Imm VNone)
                                (sample_state true)
        = (Ok (Prepared (Ref lo) (Ref lp)), st')).
Proof.
  split.
  - apply (bpCreateInvoice_posData_room (sample_state true) (sample_config true)
             (Imm VNone) ∅ (VBool true) (VStr "order123") (VStr "10.00")
             "a-reference-of-30-characters-x" "secret");
      first [reflexivity | (left; split; reflexivity) | (vm_compute; lia)].
  - apply (bpCreateInvoice_posData_room (sample_state true) (sample_config true)
             (Imm VNone) ∅ (VBool true) (VStr "order123") (VStr "10.00")
             "a-reference-of-29-characters-" "secret");
      first [reflexivity | (left; split; reflexivity) | (vm_compute; lia)].
Defined.

(** ** The fields of the request body *)

Lemma posData_envelope_keys verify pos_data merged envelope :
  posData_envelope verify pos_data merged = Ok envelope ->
  envelope !! "posData" = Some pos_data
  /\ (forall key, key <> "posData" -> key <> "hash" -> envelope !! key = None)
  /\ (truthy verify = false -> envelope !! "hash" = None)
  /\ (truthy verify = true -> is_Some (envelope !! "hash")).
Proof.
  unfold posData_envelope. destruct (truthy verify).
  - destruct (clean <~ sanitize_dict pos_data; py_str clean) as [data| |]; try discriminate.
    cbn [rbind]. destruct (getitem_value (VDict merged) "apiKey") as [k| |];
      try discriminate.
    cbn [rbind]. destruct (bpHash_value data k) as [hash| |]; try discriminate.
    cbn [rbind]. intros [= <-]. split; [|split; [|split]].
    + rewrite lookup_insert_ne by discriminate. apply lookup_singleton_eq.
    + intros key Hp Hh. rewrite lookup_insert_ne by congruence.
      apply lookup_singleton_ne. congruence.
    + discriminate.
    + intros _. rewrite lookup_insert_eq. eauto.
  - intros [= <-]. split; [|split; [|split]].
    + apply lookup_singleton_eq.
    + intros key Hp Hh. apply lookup_singleton_ne. congruence.
    + intros _. apply lookup_singleton_ne. discriminate.
    + discriminate.
Qed.

Lemma lookup_union_first (m1 m2 : gmap string value) key :
  (m1 ∪ m2) !! key = match m1 !! key with
                     | Some v => Some v
                     | None => m2 !! key
                     end.
Proof.
  rewrite lookup_union. destruct (m1 !! key), (m2 !! key); reflexivity.
Qed.

(** X3.  The request body [bpCreateInvoice] builds, field by field:
    [orderID] and [price] are the arguments, [posData] is the serialized
    envelope; any other allow-listed key has the caller's value when the
    caller's options give one and the configured value otherwise, and is
    absent when neither has it; outside the allow-list the body holds what
    the envelope holds, which is nothing when [verifyPos] is disabled. *)
Theorem bpCreateInvoice_body_fields
    (st : state) (cfg : gmap string value) (options : obj) (opts : gmap string value)
    (verify order_id price pos_data : value) (envelope : gmap string value)
    (text : string) :
  heap st !! bpOptions_loc = Some cfg ->
  options_given st options opts ->
  cfg !! "verifyPos" = Some verify ->
  posData_envelope verify pos_data (opts ∪ cfg) = Ok envelope ->
  Json.dumps (VDict envelope) = Ok text ->
  (String.length text <= 100)%nat ->
  exists lo lp st' body,
    bpCreateInvoice_prepare order_id price pos_data options st
    = (Ok (Prepared (Ref lo) (Ref lp)), st')
    /\ heap st' !! lp = Some body
    /\ body !! "orderID" = Some order_id
    /\ body !! "price" = Some price
    /\ body !! "posData" = Some (VStr text)
    /\ (forall key,
          key ∈ post_options ->
          key <> "orderID" -> key <> "price" -> key <> "posData" ->
          body !! key = match opts !! key with
                        | Some v => Some v
                        | None => cfg !! key
                        end)
    /\ (forall key, key ∉ post_options -> body !! key = envelope !! key)
    /\ (truthy verify = false -> forall key, key ∉ post_options -> body !! key = None).
Proof.
  intros Hcfg Hopts Hverify Henv Htext Hfits.
  destruct (bpCreateInvoice_prepare_fits st cfg options opts verify order_id price
              pos_data envelope text Hcfg Hopts Hverify Henv Htext Hfits)
    as (lo & lp & st' & Hrun & Hlp & _).
  destruct (posData_envelope_keys _ _ _ _ Henv) as (Hpos & Hother & Hoff & _).
  exists lo, lp, st'. eexists. split; [exact Hrun|]. split; [exact Hlp|].
  assert (Hout : forall key, key ∉ post_options ->
            copy_keys post_options
              (<["price" := price]> (<["orderID" := order_id]>
                 (<["posData" := VStr text]> (opts ∪ cfg)))) envelope !! key
            = envelope !! key).
  { intros key Hkey. rewrite copy_keys_lookup.
    destruct (decide (key ∈ post_options)); [done|reflexivity]. }
  split; [|split; [|split; [|split; [|split]]]].
  - rewrite copy_keys_lookup.
    rewrite (decide_True (P := "orderID" ∈ post_options)) by (unfold post_options; in_list).
    rewrite lookup_insert_ne by discriminate. rewrite lookup_insert_eq. reflexivity.
  - rewrite copy_keys_lookup.
    rewrite (decide_True (P := "price" ∈ post_options)) by (unfold post_options; in_list).
    rewrite lookup_insert_eq. reflexivity.
  - rewrite copy_keys_lookup.
    rewrite (decide_True (P := "posData" ∈ post_options)) by (unfold post_options; in_list).
    do 2 (rewrite lookup_insert_ne by discriminate). rewrite lookup_insert_eq.
    reflexivity.
  - intros key Hin Ho Hp Hd. rewrite copy_keys_lookup.
    destruct (decide (key ∈ post_options)) as [_|Hn]; [|done].
    do 3 (rewrite lookup_insert_ne by congruence).
    rewrite lookup_union_first.
    destruct (opts !! key) as [v|]; [reflexivity|].
    destruct (cfg !! key) as [v|]; [reflexivity|].
    apply Hother; [exact Hd|].
    intros ->. by apply hash_not_allow_listed.
  - exact Hout.
  - intros Hfalse key Hkey. rewrite (Hout key Hkey).
    destruct (decide (key = "hash")) as [->|Hh]; [by apply Hoff|].
    apply Hother; [|exact Hh].
    intros ->. apply Hkey. unfold post_options. in_list.
Qed.

Lemma bpCreateInvoice_body_fields_witness :
  exists lo lp st' body,
    bpCreateInvoice_prepare (VStr "order123") (VStr "10.00") (VStr "cust-ref-42")
                            (Imm VNone) (sample_state false)
    = (Ok (Prepared (Ref lo) (Ref lp)), st')
    /\ heap st' !! lp = Some body
    /\ body !! "orderID" = Some (VStr "order123")
    /\ body !! "price" = Some (VStr "10.00")
    /\ body !! "posData" = Some (VStr (text_of (Json.dumps (VDict sample_plain_envelope))))
    /\ (forall key,
          key ∈ post_options ->
          key <> "orderID" -> key <> "price" -> key <> "posData" ->
          body !! key = match (∅ : gmap string value) !! key with
                        | Some v => Some v
                        | None => sample_config false !! key
                        end)
    /\ (forall key, key ∉ post_options -> body !! key = sample_plain_envelope !! key)
    /\ (truthy (VBool false) = false ->
        forall key, key ∉ post_options -> body !! key = None).
Proof.
  apply (bpCreateInvoice_body_fields (sample_state false) (sample_config false)
           (Imm VNone) ∅ (VBool false) (VStr "order123") (VStr "10.00")
           (VStr "cust-ref-42") sample_plain_envelope
           (text_of (Json.dumps (VDict sample_plain_envelope))));
    first [reflexivity | (left; split; reflexivity) | (vm_compute; lia)].
Defined.

(** ** What an operation leaves alone *)

Section Stable.

Context {X : Type} (component : state -> X).

Lemma stable_ret {A} (a : A) : stable component (ret a).
Proof. intros st. reflexivity. Qed.

Lemma stable_lift {A} (r : result A) : stable component (lift r).
Proof. intros st. reflexivity. Qed.

Lemma stable_bind {A B} (m : M A) (f : A -> M B) :
  stable component m -> (forall a, stable component (f a)) ->
  stable component (bind m f).
Proof.
  intros Hm Hf st. unfold bind. specialize (Hm st).
  destruct (m st) as [[a|e|] st1]; cbn [snd] in *; [|exact Hm..].
  rewrite (Hf a st1). exact Hm.
Qed.

Lemma stable_if {A} (b : bool) (m1 m2 : M A) :
  stable component m1 -> stable component m2 ->
  stable component (if b then m1 else m2).
Proof. by destruct b. Qed.

Lemma stable_for_each {A} (l : list A) (body : A -> M unit) :
  (forall x, stable component (body x)) -> stable component (for_each l body).
Proof.
  intros Hbody. induction l as [|x l IH]; cbn [for_each].
  - apply stable_ret.
  - apply stable_bind; [apply Hbody|]. intros _. exact IH.
Qed.

Lemma stable_contents o : stable component (contents o).
Proof.
  intros st. unfold contents. destruct o as [l|v]; [destruct (heap st !! l)|]; reflexivity.
Qed.

Lemma stable_getitem o key : stable component (getitem o key).
Proof. apply stable_bind; [apply stable_contents|]. intros v. apply stable_lift. Qed.

Lemma stable_contains key o : stable component (contains key o).
Proof. apply stable_bind; [apply stable_contents|]. intros v. apply stable_lift. Qed.

Lemma stable_obj_truthy o : stable component (obj_truthy o).
Proof. apply stable_bind; [apply stable_contents|]. intros v. apply stable_ret. Qed.

Lemma stable_items o : stable component (items o).
Proof.
  apply stable_bind; [apply stable_contents|]. intros v. destruct v; apply stable_lift.
Qed.

Lemma stable_open_append w name : stable component (open_append w name).
Proof. apply stable_lift. Qed.

End Stable.

Lemma stable_alloc_sent d : stable sent (alloc d).
Proof. intros st. reflexivity. Qed.

Lemma stable_alloc_files d : stable files (alloc d).
Proof. intros st. reflexivity. Qed.

Lemma stable_to_obj_sent v : stable sent (to_obj v).
Proof. destruct v; try apply stable_ret. apply stable_alloc_sent. Qed.

Lemma stable_to_obj_files v : stable files (to_obj v).
Proof. destruct v; try apply stable_ret. apply stable_alloc_files. Qed.

Lemma stable_setitem_sent o key v : stable sent (setitem o key v).
Proof.
  intros st. unfold setitem.
  destruct o as [l|x]; [destruct (heap st !! l)|destruct x]; reflexivity.
Qed.

Lemma stable_setitem_files o key v : stable files (setitem o key v).
Proof.
  intros st. unfold setitem.
  destruct o as [l|x]; [destruct (heap st !! l)|destruct x]; reflexivity.
Qed.

Lemma stable_file_write_sent name text : stable sent (file_write name text).
Proof. intros st. reflexivity. Qed.

Lemma stable_file_write_heap name text : stable heap (file_write name text).
Proof. intros st. reflexivity. Qed.

Lemma stable_opener_open_files w url headers data :
  stable files (opener_open w url headers data).
Proof. intros st. reflexivity. Qed.

Lemma stable_opener_open_heap w url headers data :
  stable heap (opener_open w url headers data).
Proof. intros st. reflexivity. Qed.

Ltac stable_step :=
  cbv beta;
  lazymatch goal with
  | |- stable _ (bind _ _) => apply stable_bind; [|intros ?]
  | |- stable _ (if _ then _ else _) => apply stable_if
  | |- stable _ (ret _) => apply stable_ret
  | |- stable _ (lift _) => apply stable_lift
  | |- stable _ (getitem _ _) => apply stable_getitem
  | |- stable _ (contains _ _) => apply stable_contains
  | |- stable _ (obj_truthy _) => apply stable_obj_truthy
  | |- stable _ (items _) => apply stable_items
  | |- stable _ (contents _) => apply stable_contents
  | |- stable _ (open_append _ _) => apply stable_open_append
  | |- stable _ (for_each _ _) => apply stable_for_each; intros ?
  | |- stable sent (alloc _) => apply stable_alloc_sent
  | |- stable files (alloc _) => apply stable_alloc_files
  | |- stable sent (to_obj _) => apply stable_to_obj_sent
  | |- stable files (to_obj _) => apply stable_to_obj_files
  | |- stable sent (setitem _ _ _) => apply stable_setitem_sent
  | |- stable files (setitem _ _ _) => apply stable_setitem_files
  | |- stable sent (file_write _ _) => apply stable_file_write_sent
  | |- stable heap (file_write _ _) => apply stable_file_write_heap
  | |- stable files (opener_open _ _ _ _) => apply stable_opener_open_files
  | |- stable heap (opener_open _ _ _ _) => apply stable_opener_open_heap
  end.

Ltac stable_steps := repeat stable_step.

Lemma stable_bpLog_sent w c : stable sent (bpLog w c).
Proof. unfold bpLog. stable_steps. Qed.

Lemma stable_bpLog_heap w c : stable heap (bpLog w c).
Proof. unfold bpLog. stable_steps. Qed.

Lemma stable_prepare_sent order_id price pos_data options :
  stable sent (bpCreateInvoice_prepare order_id price pos_data options).
Proof.
  unfold bpCreateInvoice_prepare, merge_options, build_envelope, check_and_copy.
  stable_steps.
Qed.

Lemma stable_prepare_files order_id price pos_data options :
  stable files (bpCreateInvoice_prepare order_id price pos_data options).
Proof.
  unfold bpCreateInvoice_prepare, merge_options, build_envelope, check_and_copy.
  stable_steps.
Qed.

Lemma stable_verify_sent api_key post : stable sent (bpVerifyNotification api_key post).
Proof. unfold bpVerifyNotification. stable_steps. Qed.

Lemma stable_verify_files api_key post : stable files (bpVerifyNotification api_key post).
Proof. unfold bpVerifyNotification. stable_steps. Qed.

Lemma stable_decode_sent response : stable sent (bpDecodeResponse response).
Proof. unfold bpDecodeResponse. stable_steps. Qed.

Lemma stable_decode_files response : stable files (bpDecodeResponse response).
Proof. unfold bpDecodeResponse. stable_steps. Qed.

(** X4.  Verifying a notification, decoding a response and preparing the
    body of an invoice are local: whatever the arguments and the outcome,
    they send no request and write no file. *)
Theorem local_operations
    (st : state) (api_key post response order_id price pos_data : value) (options : obj) :
  (sent (snd (bpVerifyNotification api_key post st)) = sent st
   /\ files (snd (bpVerifyNotification api_key post st)) = files st)
  /\ (sent (snd (bpDecodeResponse response st)) = sent st
      /\ files (snd (bpDecodeResponse response st)) = files st)
  /\ (sent (snd (bpCreateInvoice_prepare order_id price pos_data options st)) = sent st
      /\ files (snd (bpCreateInvoice_prepare order_id price pos_data options st))
         = files st).
Proof.
  split; [|split]; split.
  - apply stable_verify_sent.
  - apply stable_verify_files.
  - apply stable_decode_sent.
  - apply stable_decode_files.
  - apply stable_prepare_sent.
  - apply stable_prepare_files.
Qed.

(** ** The caller's dictionaries *)

Lemma preserves_existing {A} (m : M A) (Q : A -> Prop) st l d :
  preserves (heap st) m Q ->
  heap st !! l = Some d ->
  heap (snd (m st)) !! l = Some d.
Proof.
  intros Hm Hl. destruct (Hm st) as [Hkeep _]; [done|]. by eapply lookup_weaken.
Qed.

(** X5.  A dictionary that exists before a call holds after it what it
    held before: in particular [bpCreateInvoice] does not write into the
    dictionary the caller passes as [options], although it assigns
    [posData], [orderID] and [price] to its variable [options]. *)
Theorem existing_dictionaries_unchanged
    (w : world) (st : state) (l : loc) (d : gmap string value)
    (order_id price pos_data invoice_id api_key post : value) (options : obj) :
  heap st !! l = Some d ->
  heap (snd (bpCreateInvoice w order_id price pos_data options st)) !! l = Some d
  /\ heap (snd (bpCreateInvoice w order_id price pos_data (Ref l) st)) !! l = Some d
  /\ heap (snd (bpGetInvoice w invoice_id api_key st)) !! l = Some d
  /\ heap (snd (bpVerifyNotification api_key post st)) !! l = Some d.
Proof.
  intros Hl.
  split; [eapply preserves_existing; [apply preserves_bpCreateInvoice|done]|].
  split; [eapply preserves_existing; [apply preserves_bpCreateInvoice|done]|].
  split; [eapply preserves_existing; [apply preserves_bpGetInvoice|done]|].
  eapply preserves_existing; [apply preserves_bpVerifyNotification|done].
Qed.

Lemma existing_dictionaries_unchanged_witness :
  let caller : gmap string value := {[ "currency" := VStr "USD" ]} in
  let st := State (<[7%positive := caller]> {[ bpOptions_loc := sample_config true ]}) [] ∅ in
  let w := sample_world sample_answer in
  heap (snd (bpCreateInvoice w (VStr "order123") (VStr "10.00") (VStr "cust-ref-42")
                             (Imm VNone) st)) !! 7%positive = Some caller
  /\ heap (snd (bpCreateInvoice w (VStr "order123") (VStr "10.00") (VStr "cust-ref-42")
                                (Ref 7%positive) st)) !! 7%positive = Some caller
  /\ heap (snd (bpGetInvoice w (VStr "inv1") (VBool false) st)) !! 7%positive = Some caller
  /\ heap (snd (bpVerifyNotification (VBool false)
                  (VStr (sample_payload sample_envelope)) st)) !! 7%positive
     = Some caller.
Proof.
  cbv zeta.
  apply (existing_dictionaries_unchanged (sample_world sample_answer)
           (State (<[7%positive := {[ "currency" := VStr "USD" ]}]>
                     {[ bpOptions_loc := sample_config true ]}) [] ∅)
           7%positive {[ "currency" := VStr "USD" ]}
           (VStr "order123") (VStr "10.00") (VStr "cust-ref-42") (VStr "inv1")
           (VBool false) (VStr (sample_payload sample_envelope)) (Imm VNone)).
  reflexivity.
Defined.

(** ** Logging *)

Lemma append_assoc a b c : (a +:+ b) +:+ c = a +:+ (b +:+ c).
Proof.
  induction a as [|x a IH]; [reflexivity|].
  change (String x ((a +:+ b) +:+ c) = String x (a +:+ (b +:+ c))).
  f_equal. exact IH.
Qed.

(** With [logFile] configured, [bpLog] is: open the file, write the time
    stamp, write the serialized contents. *)
Lemma bpLog_file w st cfg contents_ log_file :
  heap st !! bpOptions_loc = Some cfg ->
  cfg !! "logFile" = Some (VStr log_file) ->
  bpLog w contents_ st
  = (let* _ := open_append w (log_file_name w log_file) in
     let* _ := file_write (log_file_name w log_file) (strftime w +:+ ": ") in
     let* text := lift (Json.dumps contents_) in
     file_write (log_file_name w log_file) (text +:+ String Base64.newline "")) st.
Proof.
  intros Hcfg Hlog. unfold bpLog.
  rewrite (bind_ok _ _ _ _ _ (getitem_ref _ _ _ _ _ Hcfg Hlog)).
  rewrite (bind_ok _ _ st (log_file_name w log_file) st); [reflexivity|].
  unfold log_file_name. cbn [py_eq].
  destruct (String.eqb log_file ""); cbn [negb]; cbv beta iota; [reflexivity|].
  by rewrite (bind_ok _ _ _ _ _ (getitem_ref _ _ _ _ _ Hcfg Hlog)).
Qed.

Lemma bpLog_written w st cfg contents_ log_file text :
  heap st !! bpOptions_loc = Some cfg ->
  cfg !! "logFile" = Some (VStr log_file) ->
  Json.dumps contents_ = Ok text ->
  can_append w (log_file_name w log_file) = true ->
  bpLog w contents_ st
  = (Ok tt,
     State (heap st) (sent st)
           (<[log_file_name w log_file :=
                default "" (files st !! log_file_name w log_file) +:+ log_line w text]>
              (files st))).
Proof.
  intros Hcfg Hlog Htext Hopen.
  rewrite (bpLog_file w st cfg contents_ log_file Hcfg Hlog).
  rewrite (bind_ok _ _ st tt st) by (unfold open_append, lift; by rewrite Hopen).
  erewrite bind_ok by reflexivity.
  rewrite (bind_lift_ok _ _ _ _ Htext).
  unfold file_write. cbn [heap sent files].
  rewrite lookup_insert_eq, insert_insert_eq. cbn [default]. unfold id, log_line.
  rewrite !append_assoc. reflexivity.
Qed.

Lemma bpLog_not_opened w st cfg contents_ log_file :
  heap st !! bpOptions_loc = Some cfg ->
  cfg !! "logFile" = Some (VStr log_file) ->
  can_append w (log_file_name w log_file) = false ->
  bpLog w contents_ st = (Raise IOError, st).
Proof.
  intros Hcfg Hlog Hopen.
  rewrite (bpLog_file w st cfg contents_ log_file Hcfg Hlog).
  erewrite bind_raise; [reflexivity|].
  unfold open_append, lift. by rewrite Hopen.
Qed.

(** X6.  [bpLog] appends one line, the time stamp and the JSON form of
    its argument, to one file: the module's path followed by the
    configured [logFile], or by '/bplog.txt' when [logFile] is empty.  It
    touches nothing else.  When [logFile] is missing from the
    configuration it raises [KeyError], and when the file cannot be
    opened [IOError]; nothing is written then. *)
Theorem bpLog_appends_one_line
    (w : world) (st : state) (cfg : gmap string value) (contents_ : value) :
  heap st !! bpOptions_loc = Some cfg ->
  (forall log_file text,
     cfg !! "logFile" = Some (VStr log_file) ->
     Json.dumps contents_ = Ok text ->
     let name := log_file_name w log_file in
     (can_append w name = true ->
      bpLog w contents_ st
      = (Ok tt,
         State (heap st) (sent st)
               (<[name := default "" (files st !! name) +:+ log_line w text]> (files st))))
     /\ (can_append w name = false -> bpLog w contents_ st = (Raise IOError, st)))
  /\ (cfg !! "logFile" = None -> bpLog w contents_ st = (Raise (KeyError "logFile"), st)).
Proof.
  intros Hcfg. split.
  - intros log_file text Hlog Htext name. split; intros Hopen.
    + by apply (bpLog_written w st cfg).
    + by apply (bpLog_not_opened w st cfg _ log_file).
  - intros Hmissing. unfold bpLog.
    by rewrite (bind_raise _ _ _ _ _ (getitem_ref_missing _ _ _ _ Hcfg Hmissing)).
Qed.

Lemma bpLog_appends_one_line_witness :
  bpLog (sample_world "") (VStr "Response: ") (sample_state false)
  = (Ok tt,
     State (heap (sample_state false)) (sent (sample_state false))
           {[ "/srv/bp_lib.py/bplog.txt" := log_line (sample_world "") (dq "'Response: '") ]})
  /\ bpLog (sample_world "") (VStr "Response: ") bare_state
     = (Raise (KeyError "logFile"), bare_state).
Proof.
  split.
  - destruct (bpLog_appends_one_line (sample_world "") (sample_state false)
                (sample_config false) (VStr "Response: ") eq_refl) as [Hlog _].
    destruct (Hlog "" (dq "'Response: '") eq_refl eq_refl) as [Hok _].
    exact (Hok eq_refl).
  - destruct (bpLog_appends_one_line (sample_world "") bare_state
                ∅ (VStr "Response: ") eq_refl) as [_ Hmissing].
    exact (Hmissing eq_refl).
Defined.

(** ** The request of bpCurl *)

Lemma strip_not_blank s : whitespace_only s = false -> truthy (VStr (strip s)) = true.
Proof. apply strip_not_whitespace. Qed.

(** With a url and a key that are not blank, [bpCurl] is: build the data,
    open the url, decode the answer. *)
Lemma bpCurl_proceeds w st url key post :
  whitespace_only url = false ->
  whitespace_only key = false ->
  bpCurl w (VStr url) (VStr key) post st
  = (let* data := lift (request_data post) in
     let* body := opener_open w url (req_headers (curl_request url key None)) data in
     decode_answer w body) st.
Proof.
  intros Hurl Hkey. unfold bpCurl.
  rewrite (bind_lift_ok _ _ _ (strip url)) by reflexivity.
  rewrite (strip_not_blank _ Hurl).
  rewrite (bind_ok _ _ st true st).
  2:{ rewrite (bind_lift_ok _ _ _ (strip key)) by reflexivity.
      by rewrite (strip_not_blank _ Hkey). }
  cbv beta iota.
  rewrite (bind_lift_ok _ _ _ _ (b64encode_encode key)).
  rewrite (bind_lift_ok _ _ _ url) by reflexivity.
  unfold request_data. cbn [req_headers curl_request].
  destruct (truthy post); [|reflexivity].
  unfold bind at 1 4. unfold lift at 1 3.
  destruct (Json.loads post) as [query|e|]; [|reflexivity..].
  cbn [rbind]. unfold bind at 1 3. unfold lift at 1 2.
  destruct (urlencode query) as [data|e|]; reflexivity.
Qed.

Lemma stable_decode_answer_sent w body : stable sent (decode_answer w body).
Proof.
  unfold decode_answer.
  destruct (Json.loads (VStr body)) as [v|e|]; [|destruct e|]; stable_steps.
  apply stable_bpLog_sent.
Qed.

(** X7.  With a url and a key that are not blank, [bpCurl] sends exactly
    one request, whatever the server answers and whatever happens
    afterwards: to the url, with the key in base64 behind 'Basic ' in the
    Authorization header, without data when [post] is false and with the
    form encoding of the decoded [post] otherwise.  When [post] cannot be
    decoded or encoded the exception leaves before anything is sent. *)
Theorem bpCurl_one_request (w : world) (st : state) (url key : string) (post : value) :
  whitespace_only url = false ->
  whitespace_only key = false ->
  (forall data,
     request_data post = Ok data ->
     sent (snd (bpCurl w (VStr url) (VStr key) post st))
     = (sent st ++ [curl_request url key data])%list)
  /\ (forall e,
        request_data post = Raise e ->
        bpCurl w (VStr url) (VStr key) post st = (Raise e, st)).
Proof.
  intros Hurl Hkey. rewrite (bpCurl_proceeds w st url key post Hurl Hkey). split.
  - intros data Hdata. rewrite (bind_lift_ok _ _ _ _ Hdata).
    unfold bind, opener_open. cbn [req_headers curl_request].
    fold (curl_request url key data).
    destruct (http_read w (curl_request url key data)) as [body|e|]; try reflexivity.
    cbn [snd]. by rewrite stable_decode_answer_sent.
  - intros e He. unfold bind, lift. by rewrite He.
Qed.

Lemma bpCurl_one_request_witness :
  sent (snd (bpCurl (sample_world sample_answer) (VStr "https://bitpay.com/api/invoice/")
                    (VStr "secret") (VStr (dq "{'price': '10.00'}")) (sample_state false)))
  = [curl_request "https://bitpay.com/api/invoice/" "secret" (Some "price=10.00")]
  /\ bpCurl (sample_world sample_answer) (VStr "https://bitpay.com/api/invoice/")
            (VStr "secret") (VStr "not json") (sample_state false)
     = (Raise ValueError, sample_state false).
Proof.
  destruct (bpCurl_one_request (sample_world sample_answer) (sample_state false)
              "https://bitpay.com/api/invoice/" "secret" (VStr (dq "{'price': '10.00'}"))
              eq_refl eq_refl) as [Hsent _].
  destruct (bpCurl_one_request (sample_world sample_answer) (sample_state false)
              "https://bitpay.com/api/invoice/" "secret" (VStr "not json")
              eq_refl eq_refl) as [_ Hraise].
  split.
  - apply (Hsent (Some "price=10.00")). vm_compute. reflexivity.
  - apply Hraise. vm_compute. reflexivity.
Defined.

Lemma bpCurl_answered w st url key post data body :
  whitespace_only url = false ->
  whitespace_only key = false ->
  request_data post = Ok data ->
  http_read w (curl_request url key data) = Ok body ->
  bpCurl w (VStr url) (VStr key) post st
  = decode_answer w body
      (State (heap st) (sent st ++ [curl_request url key data]) (files st)).
Proof.
  intros Hurl Hkey Hdata Hbody.
  rewrite (bpCurl_proceeds w st url key post Hurl Hkey).
  rewrite (bind_lift_ok _ _ _ _ Hdata).
  apply bind_ok. unfold opener_open. cbn [req_headers curl_request].
  fold (curl_request url key data). by rewrite Hbody.
Qed.

Lemma bpCurl_object w st url key post data body (R : gmap string value) :
  whitespace_only url = false ->
  whitespace_only key = false ->
  request_data post = Ok data ->
  http_read w (curl_request url key data) = Ok body ->
  Json.loads (VStr body) = Ok (VDict R) ->
  bpCurl w (VStr url) (VStr key) post st
  = (Ok (Ref (fresh (dom (heap st)))),
     State (<[fresh (dom (heap st)) := R]> (heap st))
           (sent st ++ [curl_request url key data]) (files st)).
Proof.
  intros Hurl Hkey Hdata Hbody HR.
  rewrite (bpCurl_answered w st url key post data body Hurl Hkey Hdata Hbody).
  unfold decode_answer. rewrite HR. reflexivity.
Qed.

(** An answer that is not JSON: the error dictionary, and then the log
    when [useLogging] is set. *)
Lemma bpCurl_not_json w st cfg url key post data body logging :
  heap st !! bpOptions_loc = Some cfg ->
  whitespace_only url = false ->
  whitespace_only key = false ->
  request_data post = Ok data ->
  http_read w (curl_request url key data) = Ok body ->
  Json.loads (VStr body) = Raise ValueError ->
  cfg !! "useLogging" = Some logging ->
  let l := fresh (dom (heap st)) in
  let st1 := State (<[l := {[ "error" := VStr body ]}]> (heap st))
                   (sent st ++ [curl_request url key data]) (files st) in
  heap st1 !! bpOptions_loc = Some cfg
  /\ bpCurl w (VStr url) (VStr key) post st
     = (let* _ := if truthy logging then bpLog w (VStr ("Error: " +:+ body)) else ret tt in
        ret (Ref l)) st1.
Proof.
  intros Hcfg Hurl Hkey Hdata Hbody Hjson Hlogging l st1.
  assert (Hcfg1 : heap st1 !! bpOptions_loc = Some cfg).
  { unfold st1. cbn [heap]. rewrite lookup_insert_ne; [exact Hcfg|].
    by eapply fresh_loc_other. }
  split; [exact Hcfg1|].
  rewrite (bpCurl_answered w st url key post data body Hurl Hkey Hdata Hbody).
  unfold decode_answer. rewrite Hjson.
  rewrite (bind_ok _ _ _ (Ref l) st1) by reflexivity.
  by rewrite (bind_ok _ _ _ _ _ (getitem_ref _ _ _ _ _ Hcfg1 Hlogging)).
Qed.

Lemma bpCurl_not_json_quiet w st cfg url key post data body logging :
  heap st !! bpOptions_loc = Some cfg ->
  whitespace_only url = false ->
  whitespace_only key = false ->
  request_data post = Ok data ->
  http_read w (curl_request url key data) = Ok body ->
  Json.loads (VStr body) = Raise ValueError ->
  cfg !! "useLogging" = Some logging ->
  truthy logging = false ->
  bpCurl w (VStr url) (VStr key) post st
  = (Ok (Ref (fresh (dom (heap st)))),
     State (<[fresh (dom (heap st)) := {[ "error" := VStr body ]}]> (heap st))
           (sent st ++ [curl_request url key data]) (files st)).
Proof.
  intros Hcfg Hurl Hkey Hdata Hbody Hjson Hlogging Hoff.
  destruct (bpCurl_not_json w st cfg url key post data body logging
              Hcfg Hurl Hkey Hdata Hbody Hjson Hlogging) as [_ Hrun].
  rewrite Hrun, Hoff. reflexivity.
Qed.

Lemma bpCurl_blank w st url key post :
  whitespace_only url = true \/ whitespace_only key = true ->
  bpCurl w (VStr url) (VStr key) post st = alloc blank_error st.
Proof.
  intros H. unfold bpCurl. rewrite (bind_lift_ok _ _ _ (strip url)) by reflexivity.
  destruct (truthy (VStr (strip url))) eqn:Hu; [|reflexivity].
  destruct H as [H|H].
  - rewrite (strip_whitespace _ H) in Hu. discriminate.
  - rewrite (bind_ok _ _ st false st); [reflexivity|].
    rewrite (bind_lift_ok _ _ _ (strip key)) by reflexivity.
    by rewrite (strip_whitespace _ H).
Qed.

(** X8.  What [bpCurl] returns once the request is made.  An answer that
    is a JSON object comes back as a new dictionary with its fields.  An
    answer that is not JSON comes back as a new dictionary with the single
    key [error] holding the raw text; with [useLogging] disabled no file
    is written, with it enabled one line 'Error: ' followed by the text
    goes to the log file.  An exception of the transport is not caught. *)
Theorem bpCurl_answer
    (w : world) (st : state) (cfg : gmap string value) (url key : string)
    (post : value) (data : option string) :
  heap st !! bpOptions_loc = Some cfg ->
  whitespace_only url = false ->
  whitespace_only key = false ->
  request_data post = Ok data ->
  (forall body R,
     http_read w (curl_request url key data) = Ok body ->
     Json.loads (VStr body) = Ok (VDict R) ->
     exists l st',
       bpCurl w (VStr url) (VStr key) post st = (Ok (Ref l), st')
       /\ heap st' !! l = Some R /\ heap st !! l = None /\ files st' = files st)
  /\ (forall body logging,
        http_read w (curl_request url key data) = Ok body ->
        Json.loads (VStr body) = Raise ValueError ->
        cfg !! "useLogging" = Some logging ->
        exists l,
          heap st !! l = None
          /\ (truthy logging = false ->
              exists st',
                bpCurl w (VStr url) (VStr key) post st = (Ok (Ref l), st')
                /\ heap st' !! l = Some {[ "error" := VStr body ]}
                /\ files st' = files st)
          /\ (forall log_file text,
                truthy logging = true ->
                cfg !! "logFile" = Some (VStr log_file) ->
                can_append w (log_file_name w log_file) = true ->
                Json.dumps (VStr ("Error: " +:+ body)) = Ok text ->
                exists st',
                  bpCurl w (VStr url) (VStr key) post st = (Ok (Ref l), st')
                  /\ heap st' !! l = Some {[ "error" := VStr body ]}
                  /\ files st'
                     = <[log_file_name w log_file :=
                           default "" (files st !! log_file_name w log_file)
                           +:+ log_line w text]> (files st)))
  /\ (forall e,
        http_read w (curl_request url key data) = Raise e ->
        fst (bpCurl w (VStr url) (VStr key) post st) = Raise e).
Proof.
  intros Hcfg Hurl Hkey Hdata. split; [|split].
  - intros body R Hbody HR.
    rewrite (bpCurl_object w st url key post data body R Hurl Hkey Hdata Hbody HR).
    eexists _, _. split; [reflexivity|]. cbn [heap files].
    split; [apply lookup_insert_eq|]. split; [apply fresh_loc_unused|reflexivity].
  - intros body logging Hbody Hjson Hlogging.
    destruct (bpCurl_not_json w st cfg url key post data body logging
                Hcfg Hurl Hkey Hdata Hbody Hjson Hlogging) as [Hcfg1 Hrun].
    exists (fresh (dom (heap st))). split; [apply fresh_loc_unused|].
    rewrite Hrun. split.
    + intros Hoff. rewrite Hoff. eexists. split; [reflexivity|]. cbn [heap files].
      split; [apply lookup_insert_eq|reflexivity].
    + intros log_file text Hon Hlog Hopen Htext. rewrite Hon.
      rewrite (bind_ok _ _ _ _ _
                 (bpLog_written w _ cfg _ log_file text Hcfg1 Hlog Htext Hopen)).
      eexists. split; [reflexivity|]. cbn [heap files].
      split; [apply lookup_insert_eq|reflexivity].
  - intros e He.
    rewrite (bpCurl_proceeds w st url key post Hurl Hkey).
    rewrite (bind_lift_ok _ _ _ _ Hdata).
    erewrite bind_raise; [reflexivity|].
    unfold opener_open. cbn [req_headers curl_request].
    fold (curl_request url key data). by rewrite He.
Qed.

Lemma bpCurl_answer_witness :
  (exists l st',
     bpCurl (sample_world sample_answer) (VStr "https://bitpay.com/api/invoice/inv1")
            (VStr "secret") (VBool false) (sample_state false) = (Ok (Ref l), st')
     /\ heap st' !! l = Some (sample_decoded {[ "posData" := VInt 5 ]})
     /\ heap (sample_state false) !! l = None
     /\ files st' = files (sample_state false))
  /\ (exists l st',
        bpCurl (sample_world "<html>") (VStr "https://bitpay.com/api/invoice/inv1")
               (VStr "secret") (VBool false) (sample_state false) = (Ok (Ref l), st')
        /\ heap st' !! l = Some {[ "error" := VStr "<html>" ]}
        /\ files st' = files (sample_state false)).
Proof.
  split.
  - destruct (bpCurl_answer (sample_world sample_answer) (sample_state false)
                (sample_config false) "https://bitpay.com/api/invoice/inv1" "secret"
                (VBool false) None eq_refl eq_refl eq_refl eq_refl) as [Hobject _].
    apply (Hobject sample_answer); vm_compute; reflexivity.
  - destruct (bpCurl_answer (sample_world "<html>") (sample_state false)
                (sample_config false) "https://bitpay.com/api/invoice/inv1" "secret"
                (VBool false) None eq_refl eq_refl eq_refl eq_refl) as [_ [Herror _]].
    destruct (Herror "<html>" (VBool false) eq_refl eq_refl eq_refl)
      as (l & _ & Hoff & _).
    destruct (Hoff eq_refl) as (st' & Hrun & Hl & Hfiles).
    by exists l, st'.
Defined.

(** ** Invoice retrieval when there is no posData to unwrap *)

Lemma bpGetInvoice_no_posData w st cfg invoice_id api_key key l st1 (d : gmap string value) :
  heap st !! bpOptions_loc = Some cfg ->
  effective_key api_key cfg = Some (VStr key) ->
  bpCurl w (VStr ("https://bitpay.com/api/invoice/" +:+ invoice_id)) (VStr key)
         (VBool false) st = (Ok (Ref l), st1) ->
  heap st1 !! l = Some d ->
  d !! "posData" = None ->
  bpGetInvoice w (VStr invoice_id) api_key st = (Raise (KeyError "posData"), st1).
Proof.
  intros Hcfg Hk Hcurl Hl Hd. unfold bpGetInvoice.
  rewrite (bind_ok _ _ _ _ _ (run_effective_key _ _ _ _ Hcfg Hk)).
  rewrite (bind_lift_ok _ _ _ ("https://bitpay.com/api/invoice/" +:+ invoice_id))
    by reflexivity.
  rewrite (bind_ok _ _ _ _ _ Hcurl).
  by rewrite (bind_raise _ _ _ _ _ (getitem_ref_missing _ _ _ _ Hl Hd)).
Qed.

Lemma invoice_url_not_blank invoice_id :
  whitespace_only ("https://bitpay.com/api/invoice/" +:+ invoice_id) = false.
Proof. reflexivity. Qed.

(** X9.  [bpGetInvoice] does not return the error dictionaries of
    [bpCurl]: it indexes them with 'posData'.  With a blank key it raises
    [KeyError] for 'posData' without sending anything; so it does when the
    server's answer is not JSON (logging disabled) or is an object without
    [posData]. *)
Theorem bpGetInvoice_raises_on_errors
    (w : world) (st : state) (cfg : gmap string value) (invoice_id : string)
    (api_key : value) (key : string) :
  heap st !! bpOptions_loc = Some cfg ->
  effective_key api_key cfg = Some (VStr key) ->
  (whitespace_only key = true ->
   fst (bpGetInvoice w (VStr invoice_id) api_key st) = Raise (KeyError "posData")
   /\ sent (snd (bpGetInvoice w (VStr invoice_id) api_key st)) = sent st)
  /\ (forall body logging,
        whitespace_only key = false ->
        http_read w (get_request ("https://bitpay.com/api/invoice/" +:+ invoice_id) key)
        = Ok body ->
        Json.loads (VStr body) = Raise ValueError ->
        cfg !! "useLogging" = Some logging ->
        truthy logging = false ->
        fst (bpGetInvoice w (VStr invoice_id) api_key st) = Raise (KeyError "posData"))
  /\ (forall body R,
        whitespace_only key = false ->
        http_read w (get_request ("https://bitpay.com/api/invoice/" +:+ invoice_id) key)
        = Ok body ->
        Json.loads (VStr body) = Ok (VDict R) ->
        R !! "posData" = None ->
        fst (bpGetInvoice w (VStr invoice_id) api_key st) = Raise (KeyError "posData")).
Proof.
  intros Hcfg Hk. split; [|split].
  - intros Hblank.
    rewrite (bpGetInvoice_no_posData w st cfg invoice_id api_key key _ _ blank_error
               Hcfg Hk (bpCurl_blank w st _ key _ (or_intror Hblank))).
    + by split.
    + cbn [heap]. apply lookup_insert_eq.
    + apply lookup_singleton_ne. discriminate.
  - intros body logging Hkey Hbody Hjson Hlogging Hoff.
    rewrite (bpGetInvoice_no_posData w st cfg invoice_id api_key key _ _
               {[ "error" := VStr body ]} Hcfg Hk
               (bpCurl_not_json_quiet w st cfg _ key (VBool false) None body logging
                  Hcfg (invoice_url_not_blank invoice_id) Hkey eq_refl Hbody Hjson
                  Hlogging Hoff)).
    + reflexivity.
    + cbn [heap]. apply lookup_insert_eq.
    + apply lookup_singleton_ne. discriminate.
  - intros body R Hkey Hbody HR Hmissing.
    rewrite (bpGetInvoice_no_posData w st cfg invoice_id api_key key _ _ R Hcfg Hk
               (bpCurl_object w st _ key (VBool false) None body R
                  (invoice_url_not_blank invoice_id) Hkey eq_refl Hbody HR)).
    + reflexivity.
    + cbn [heap]. apply lookup_insert_eq.
    + exact Hmissing.
Qed.

Lemma bpGetInvoice_raises_on_errors_witness :
  (fst (bpGetInvoice (sample_world sample_answer) (VStr "inv1") (VStr " ")
                     (sample_state false)) = Raise (KeyError "posData")
   /\ sent (snd (bpGetInvoice (sample_world sample_answer) (VStr "inv1") (VStr " ")
                              (sample_state false))) = sent (sample_state false))
  /\ fst (bpGetInvoice (sample_world "<html>") (VStr "inv1") (VBool false)
                       (sample_state false)) = Raise (KeyError "posData").
Proof.
  split.
  - destruct (bpGetInvoice_raises_on_errors (sample_world sample_answer)
                (sample_state false) (sample_config false) "inv1" (VStr " ") " "
                eq_refl eq_refl) as [Hblank _].
    exact (Hblank eq_refl).
  - destruct (bpGetInvoice_raises_on_errors (sample_world "<html>")
                (sample_state false) (sample_config false) "inv1" (VBool false) "secret"
                eq_refl eq_refl) as (_ & Hnot_json & _).
    exact (Hnot_json "<html>" (VBool false) eq_refl eq_refl eq_refl eq_refl eq_refl).
Defined.

(** ** The early exits of notification verification *)

(** X10.  [bpVerifyNotification] before the envelope is looked at.  The
    key is fetched first: with no key passed and none configured the call
    raises [KeyError] for 'apiKey', even without post data.  Otherwise a
    false or empty [post] gives the string 'No post data', a JSON object
    without [posData] gives the string 'no posData', and a text that is
    not JSON makes the call raise. *)
Theorem bpVerifyNotification_early_exits
    (st : state) (cfg : gmap string value) (api_key post : value) :
  heap st !! bpOptions_loc = Some cfg ->
  (effective_key api_key cfg = None ->
   bpVerifyNotification api_key post st = (Raise (KeyError "apiKey"), st))
  /\ (forall k,
        effective_key api_key cfg = Some k ->
        (truthy post = false ->
         bpVerifyNotification api_key post st = (Ok (Imm (VStr "No post data")), st))
        /\ (forall jd : gmap string value,
              Json.loads post = Ok (VDict jd) ->
              jd !! "posData" = None ->
              fst (bpVerifyNotification api_key post st) = Ok (Imm (VStr "no posData")))
        /\ (forall e,
              truthy post = true ->
              Json.loads post = Raise e ->
              bpVerifyNotification api_key post st = (Raise e, st))).
Proof.
  intros Hcfg. split.
  - intros Hk. unfold bpVerifyNotification.
    by rewrite (bind_raise _ _ _ _ _ (run_effective_key_missing _ _ _ Hcfg Hk)).
  - intros k Hk. split; [|split].
    + intros Hpost. unfold bpVerifyNotification.
      rewrite (bind_ok _ _ _ _ _ (run_effective_key _ _ _ _ Hcfg Hk)).
      cbv beta. by rewrite Hpost.
    + intros jd Hpost Hmissing. unfold bpVerifyNotification.
      rewrite (bind_ok _ _ _ _ _ (run_effective_key _ _ _ _ Hcfg Hk)).
      cbv beta. rewrite (loads_truthy _ _ Hpost). cbn [negb]. cbv beta iota.
      rewrite (bind_lift_ok _ _ _ _ Hpost).
      erewrite bind_ok by reflexivity.
      erewrite (bind_ok _ _ _ false).
      2:{ erewrite contains_ref by apply lookup_insert_eq.
          rewrite bool_decide_eq_false_2; [reflexivity|].
          rewrite Hmissing. by intros [? ?]. }
      reflexivity.
    + intros e Htruthy Hpost. unfold bpVerifyNotification.
      rewrite (bind_ok _ _ _ _ _ (run_effective_key _ _ _ _ Hcfg Hk)).
      cbv beta. rewrite Htruthy. cbn [negb]. cbv beta iota.
      erewrite bind_raise; [reflexivity|]. unfold lift. by rewrite Hpost.
Qed.

Lemma bpVerifyNotification_early_exits_witness :
  bpVerifyNotification (VBool false) VNone bare_state
  = (Raise (KeyError "apiKey"), bare_state)
  /\ bpVerifyNotification (VBool false) (VStr "") (sample_state true)
     = (Ok (Imm (VStr "No post data")), sample_state true)
  /\ fst (bpVerifyNotification (VBool false) (VStr (dq "{'id': 'inv1'}"))
                               (sample_state true))
     = Ok (Imm (VStr "no posData"))
  /\ bpVerifyNotification (VBool false) (VStr "not json") (sample_state true)
     = (Raise ValueError, sample_state true).
Proof.
  destruct (bpVerifyNotification_early_exits bare_state ∅ (VBool false) VNone eq_refl)
    as [Hnone _].
  split; [exact (Hnone eq_refl)|].
  split.
  { destruct (bpVerifyNotification_early_exits (sample_state true) (sample_config true)
                (VBool false) (VStr "") eq_refl) as [_ Hsome].
    destruct (Hsome (VStr "secret") eq_refl) as [Hempty _]. exact (Hempty eq_refl). }
  split.
  { destruct (bpVerifyNotification_early_exits (sample_state true) (sample_config true)
                (VBool false) (VStr (dq "{'id': 'inv1'}")) eq_refl) as [_ Hsome].
    destruct (Hsome (VStr "secret") eq_refl) as (_ & Hno & _).
    apply (Hno {[ "id" := VUni (uni_of_str "inv1") ]}); vm_compute; reflexivity. }
  destruct (bpVerifyNotification_early_exits (sample_state true) (sample_config true)
              (VBool false) (VStr "not json") eq_refl) as [_ Hsome].
  destruct (Hsome (VStr "secret") eq_refl) as (_ & _ & Hraise).
  apply Hraise; vm_compute; reflexivity.
Defined.

(** ** From the invoice to its notification *)

Lemma posData_envelope_verified verify x k merged :
  truthy verify = true ->
  merged !! "apiKey" = Some (VStr k) ->
  posData_envelope verify (VStr x) merged = Ok (envelope_of (VStr x) (bpHash x k)).
Proof.
  intros Hon Hk. unfold posData_envelope. rewrite Hon.
  cbn [sanitize_dict rbind py_str getitem_value]. by rewrite Hk.
Qed.

(** The envelope built for an ASCII string with the key [k], sent back in
    a payload, verifies in any state where the call works with [k]. *)
Lemma built_envelope_verifies st cfg verify x k api_key post jd text :
  heap st !! bpOptions_loc = Some cfg ->
  cfg !! "verifyPos" = Some verify ->
  truthy verify = true ->
  ascii_only x = true ->
  effective_key api_key cfg = Some (VStr k) ->
  Json.dumps (VDict (envelope_of (VStr x) (bpHash x k))) = Ok text ->
  Json.loads post = Ok (VDict jd) ->
  jd !! "posData" = Some (VUni (uni_of_str text)) ->
  exists l st',
    bpVerifyNotification api_key post st = (Ok (Ref l), st')
    /\ heap st' !! l = Some (<["posData" := VUni (uni_of_str x)]> jd)
    /\ heap st !! l = None.
Proof.
  intros Hcfg Hverify Hon Hx Hk Hdumps Hpost Htext.
  destruct (envelope_round_trip x (bpHash x k) Hx (bpHash_ascii x k))
    as (text' & Hdumps' & Hloads).
  unfold envelope_of in Hdumps. rewrite Hdumps in Hdumps'. injection Hdumps' as <-.
  pose proof (bpVerifyNotification_checked st cfg verify api_key post k jd
                (VUni (uni_of_str text)) _ (VUni (uni_of_str (bpHash x k)))
                (VUni (uni_of_str x)) x Hcfg Hverify Hon Hk Hpost Htext Hloads) as Hrun.
  rewrite (py_eq_unicode_of _ (bpHash_ascii x k)) in Hrun.
  apply Hrun.
  - rewrite lookup_insert_ne by discriminate. apply lookup_insert_eq.
  - apply lookup_insert_eq.
  - by apply sanitize_ascii_unicode.
Qed.

(** X11.  An invoice and its notification.  With [verifyPos] enabled and
    a plain posData of at most 29 characters, [bpCreateInvoice] puts in
    the request body, under [posData], a text such that any payload
    carrying this text under [posData] is accepted by
    [bpVerifyNotification] afterwards, and comes back with the original
    posData; provided the call works with the key of the merged options
    the invoice was made with (the configured key, unless the caller's
    options had their own [apiKey]). *)
Theorem invoice_notification_round_trip
    (st : state) (cfg : gmap string value) (options : obj) (opts : gmap string value)
    (verify order_id price : value) (x k : string) :
  heap st !! bpOptions_loc = Some cfg ->
  options_given st options opts ->
  cfg !! "verifyPos" = Some verify ->
  truthy verify = true ->
  (opts ∪ cfg) !! "apiKey" = Some (VStr k) ->
  plain_text x = true ->
  (String.length x <= 29)%nat ->
  exists lo lp st' body text,
    bpCreateInvoice_prepare order_id price (VStr x) options st
    = (Ok (Prepared (Ref lo) (Ref lp)), st')
    /\ heap st' !! lp = Some body
    /\ body !! "posData" = Some (VStr text)
    /\ forall (api_key post : value) (jd : gmap string value),
         effective_key api_key cfg = Some (VStr k) ->
         Json.loads post = Ok (VDict jd) ->
         jd !! "posData" = Some (VUni (uni_of_str text)) ->
         exists l st'',
           bpVerifyNotification api_key post st' = (Ok (Ref l), st'')
           /\ heap st'' !! l = Some (<["posData" := VUni (uni_of_str x)]> jd)
           /\ py_eq (VUni (uni_of_str x)) (VStr x) = true.
Proof.
  intros Hcfg Hopts Hverify Hon Hk Hx Hfits.
  pose proof (plain_text_ascii _ Hx) as Ha.
  destruct (dumps_str_plain x Hx) as (qx & Hqx & Hq).
  destruct (envelope_text_length verify x k (opts ∪ cfg) _ Hqx (fun _ => Hk))
    as (envelope & text & Henv & Htext & Hlen).
  rewrite (posData_envelope_verified verify x k _ Hon Hk) in Henv.
  injection Henv as <-. rewrite Hon in Hlen.
  destruct (bpCreateInvoice_prepare_fits st cfg options opts verify order_id price
              (VStr x) (envelope_of (VStr x) (bpHash x k)) text Hcfg Hopts Hverify
              (posData_envelope_verified verify x k _ Hon Hk) Htext)
    as (lo & lp & st' & Hrun & Hlp & _ & _ & _ & _ & Hkeep & _); [lia|].
  exists lo, lp, st'. eexists. exists text.
  split; [exact Hrun|]. split; [exact Hlp|]. split.
  - rewrite copy_keys_lookup.
    rewrite (decide_True (P := "posData" ∈ post_options)) by (unfold post_options; in_list).
    do 2 (rewrite lookup_insert_ne by discriminate). rewrite lookup_insert_eq.
    reflexivity.
  - intros api_key post jd Hkey Hpost Hjd.
    destruct (built_envelope_verifies st' cfg verify x k api_key post jd text
                (Hkeep _ _ Hcfg) Hverify Hon Ha Hkey Htext Hpost Hjd)
      as (l & st'' & Hv & Hl & _).
    exists l, st''. split; [exact Hv|]. split; [exact Hl|].
    by apply py_eq_unicode_of.
Qed.

Lemma invoice_notification_round_trip_witness :
  exists lo lp st' body text,
    bpCreateInvoice_prepare (VStr "order123") (VStr "10.00") (VStr "cust-ref-42")
                            (Imm VNone) (sample_state true)
    = (Ok (Prepared (Ref lo) (Ref lp)), st')
    /\ heap st' !! lp = Some body
    /\ body !! "posData" = Some (VStr text)
    /\ forall (api_key post : value) (jd : gmap string value),
         effective_key api_key (sample_config true) = Some (VStr "secret") ->
         Json.loads post = Ok (VDict jd) ->
         jd !! "posData" = Some (VUni (uni_of_str text)) ->
         exists l st'',
           bpVerifyNotification api_key post st' = (Ok (Ref l), st'')
           /\ heap st'' !! l = Some (<["posData" := VUni (uni_of_str "cust-ref-42")]> jd)
           /\ py_eq (VUni (uni_of_str "cust-ref-42")) (VStr "cust-ref-42") = true.
Proof.
  apply (invoice_notification_round_trip (sample_state true) (sample_config true)
           (Imm VNone) ∅ (VBool true) (VStr "order123") (VStr "10.00")
           "cust-ref-42" "secret");
    first [reflexivity | (left; split; reflexivity) | (vm_compute; lia)].
Defined.

(** ** Keys that differ by trailing zero bytes *)

Lemma str_repeat_zero_after key n :
  (key +:+ NUL) +:+ str_repeat (chr 0) n = key +:+ str_repeat (chr 0) (S n).
Proof. rewrite append_assoc. reflexivity. Qed.

(** X12.  [bpHash] does not tell a key of fewer than 64 bytes from the
    same key followed by a zero byte: [hmac] pads a short key with zero
    bytes. *)
Theorem bpHash_trailing_zero (data key : string) :
  (String.length key < 64)%nat ->
  bpHash data (key +:+ NUL) = bpHash data key.
Proof.
  intros Hlen. unfold bpHash, HMAC.digest, SHA256.block_size. cbv zeta.
  assert (Hlen' : String.length (key +:+ NUL) = S (String.length key)).
  { rewrite length_append. change (String.length NUL) with 1%nat. lia. }
  rewrite Hlen'.
  destruct (Nat.ltb_spec 64 (S (String.length key))) as [?|_]; [lia|].
  destruct (Nat.ltb_spec 64 (String.length key)) as [?|_]; [lia|].
  rewrite Hlen', str_repeat_zero_after.
  replace (S (64 - S (String.length key))) with (64 - String.length key)%nat by lia.
  reflexivity.
Qed.

Lemma bpHash_trailing_zero_witness :
  bpHash "cust-ref-42" ("secret" +:+ NUL) = bpHash "cust-ref-42" "secret".
Proof. apply bpHash_trailing_zero. vm_compute. lia. Defined.

(** ** The request of bpCreateInvoice and its log *)

Lemma bpCreateInvoice_prepared
    w st cfg options opts verify order_id price pos_data envelope text body_text k :
  heap st !! bpOptions_loc = Some cfg ->
  options_given st options opts ->
  cfg !! "verifyPos" = Some verify ->
  posData_envelope verify pos_data (opts ∪ cfg) = Ok envelope ->
  Json.dumps (VDict envelope) = Ok text ->
  (String.length text <= 100)%nat ->
  Json.dumps (VDict (invoice_body order_id price text (opts ∪ cfg) envelope)) = Ok body_text ->
  (opts ∪ cfg) !! "apiKey" = Some (VStr k) ->
  exists st',
    bpCreateInvoice w order_id price pos_data options st
    = (let* response := bpCurl w (VStr invoice_url) (VStr k) (VStr body_text) in
       let* logging := getitem bpOptions "useLogging" in
       let* _ :=
         if truthy logging then
           let* _ := bpLog w (VStr "Create Invoice: ") in
           let* _ := bpLog w (VStr body_text) in
           let* _ := bpLog w (VStr "Response: ") in
           let* answer := contents response in
           bpLog w answer
         else ret tt in
       ret response) st'
    /\ (forall l d, heap st !! l = Some d -> heap st' !! l = Some d)
    /\ sent st' = sent st /\ files st' = files st.
Proof.
  intros Hcfg Hopts Hverify Henv Htext Hfits Hbody Hk.
  destruct (bpCreateInvoice_prepare_fits st cfg options opts verify order_id price
              pos_data envelope text Hcfg Hopts Hverify Henv Htext Hfits)
    as (lo & lp & st' & Hrun & Hlp & Hlo & _ & _ & _ & Hkeep & Hsent & Hfiles).
  exists st'. split; [|split; [exact Hkeep|split; [exact Hsent|exact Hfiles]]].
  unfold bpCreateInvoice. rewrite (bind_ok _ _ _ _ _ Hrun).
  unfold bpCreateInvoice_send.
  rewrite (bind_ok _ _ _ _ _ (contents_ref _ _ _ Hlp)).
  rewrite (bind_lift_ok _ _ _ _ Hbody).
  rewrite (bind_ok _ _ st' (VStr k) st'); [reflexivity|].
  apply (getitem_ref _ _ _ _ _ Hlo).
  do 3 (rewrite lookup_insert_ne by discriminate). exact Hk.
Qed.

(** X13.  The request of [bpCreateInvoice], logging disabled.  With a
    posData envelope that fits and a merged [apiKey] that is not blank,
    exactly one request goes out: to the invoice url, under that key, its
    data the form encoding of the decoded JSON text of the body; the
    answer, a JSON object, is returned as a new dictionary.  With a blank
    merged [apiKey] the body is built all the same, nothing is sent, and
    the error dictionary of [bpCurl] is returned. *)
Theorem bpCreateInvoice_request
    (w : world) (st : state) (cfg : gmap string value) (options : obj)
    (opts : gmap string value) (verify order_id price pos_data logging : value)
    (envelope : gmap string value) (text body_text k : string) :
  heap st !! bpOptions_loc = Some cfg ->
  options_given st options opts ->
  cfg !! "verifyPos" = Some verify ->
  posData_envelope verify pos_data (opts ∪ cfg) = Ok envelope ->
  Json.dumps (VDict envelope) = Ok text ->
  (String.length text <= 100)%nat ->
  Json.dumps (VDict (invoice_body order_id price text (opts ∪ cfg) envelope)) = Ok body_text ->
  (opts ∪ cfg) !! "apiKey" = Some (VStr k) ->
  cfg !! "useLogging" = Some logging ->
  truthy logging = false ->
  (forall data answer R,
     whitespace_only k = false ->
     request_data (VStr body_text) = Ok data ->
     http_read w (curl_request invoice_url k data) = Ok answer ->
     Json.loads (VStr answer) = Ok (VDict R) ->
     exists l st',
       bpCreateInvoice w order_id price pos_data options st = (Ok (Ref l), st')
       /\ heap st' !! l = Some R /\ heap st !! l = None
       /\ sent st' = (sent st ++ [curl_request invoice_url k data])%list
       /\ files st' = files st)
  /\ (whitespace_only k = true ->
      exists l st',
        bpCreateInvoice w order_id price pos_data options st = (Ok (Ref l), st')
        /\ heap st' !! l = Some blank_error /\ heap st !! l = None
        /\ sent st' = sent st /\ files st' = files st).
Proof.
  intros Hcfg Hopts Hverify Henv Htext Hfits Hbody Hk Hlogging Hoff.
  destruct (bpCreateInvoice_prepared w st cfg options opts verify order_id price pos_data
              envelope text body_text k Hcfg Hopts Hverify Henv Htext Hfits Hbody Hk)
    as (st1 & Hrun & Hkeep & Hsent & Hfiles).
  assert (Hnew : heap st !! fresh (dom (heap st1)) = None).
  { destruct (heap st !! fresh (dom (heap st1))) as [d|] eqn:E; [|reflexivity].
    apply Hkeep in E. by rewrite fresh_loc_unused in E. }
  assert (Hcfg2 : forall d,
            <[fresh (dom (heap st1)) := d]> (heap st1) !! bpOptions_loc = Some cfg).
  { intros d. rewrite lookup_insert_ne; [exact (Hkeep _ _ Hcfg)|].
    apply (fresh_loc_other _ _ _ (Hkeep _ _ Hcfg)). }
  rewrite Hrun. split.
  - intros data answer R Hkey Hdata Hanswer HR.
    pose (st2 := State (<[fresh (dom (heap st1)) := R]> (heap st1))
                       (sent st1 ++ [curl_request invoice_url k data]) (files st1)).
    rewrite (bind_ok _ _ st1 (Ref (fresh (dom (heap st1)))) st2)
      by exact (bpCurl_object w st1 invoice_url k (VStr body_text) data answer R
                  eq_refl Hkey Hdata Hanswer HR).
    rewrite (bind_ok _ _ st2 logging st2)
      by exact (getitem_ref st2 _ _ _ _ (Hcfg2 R) Hlogging).
    rewrite Hoff. unfold st2. eexists _, _. split; [reflexivity|]. cbn [heap sent files].
    split; [apply lookup_insert_eq|]. split; [exact Hnew|].
    split; [by rewrite Hsent|exact Hfiles].
  - intros Hblank.
    pose (st2 := State (<[fresh (dom (heap st1)) := blank_error]> (heap st1))
                       (sent st1) (files st1)).
    rewrite (bind_ok _ _ st1 (Ref (fresh (dom (heap st1)))) st2)
      by exact (bpCurl_blank w st1 invoice_url k _ (or_intror Hblank)).
    rewrite (bind_ok _ _ st2 logging st2)
      by exact (getitem_ref st2 _ _ _ _ (Hcfg2 blank_error) Hlogging).
    rewrite Hoff. unfold st2. eexists _, _. split; [reflexivity|]. cbn [heap sent files].
    split; [apply lookup_insert_eq|]. split; [exact Hnew|].
    split; [exact Hsent|exact Hfiles].
Qed.

Lemma bpCreateInvoice_request_witness :
  exists data l st',
    bpCreateInvoice (sample_world sample_answer) (VStr "order123") (VStr "10.00")
                    (VStr "cust-ref-42") (Imm VNone) (sample_state false)
    = (Ok (Ref l), st')
    /\ heap st' !! l = Some (sample_decoded {[ "posData" := VInt 5 ]})
    /\ heap (sample_state false) !! l = None
    /\ sent st' = (sent (sample_state false) ++ [curl_request invoice_url "secret" data])%list
    /\ files st' = files (sample_state false).
Proof.
  destruct (bpCreateInvoice_request (sample_world sample_answer) (sample_state false)
              (sample_config false) (Imm VNone) ∅ (VBool false) (VStr "order123")
              (VStr "10.00") (VStr "cust-ref-42") (VBool false)
              {[ "posData" := VStr "cust-ref-42" ]}
              (dq "{'posData': 'cust-ref-42'}")
              (text_of (Json.dumps (VDict (invoice_body (VStr "order123") (VStr "10.00")
                                             (dq "{'posData': 'cust-ref-42'}")
                                             (∅ ∪ sample_config false)
                                             {[ "posData" := VStr "cust-ref-42" ]}))))
              "secret") as [Hsend _];
    first [reflexivity | (left; split; reflexivity) | (vm_compute; lia)
          | (vm_compute; reflexivity) | idtac].
  eexists.
  apply (Hsend _ sample_answer (sample_decoded {[ "posData" := VInt 5 ]}));
    vm_compute; reflexivity.
Defined.





(** ** What bpDecodeResponse raises *)



(** ** The example of the documentation *)

Lemma bind_stable_after {X A B} (component : state -> X) (m : M A) (f : A -> M B) st :
  (forall a, stable component (f a)) ->
  component (snd (bind m f st)) = component (snd (m st)).
Proof.
  intros Hf. unfold bind. destruct (m st) as [[a|e|] st']; cbn [snd];
    [apply Hf|reflexivity..].
Qed.

Lemma bpCurl_sent w st url key post data :
  whitespace_only url = false ->
  whitespace_only key = false ->
  request_data post = Ok data ->
  sent (snd (bpCurl w (VStr url) (VStr key) post st))
  = (sent st ++ [curl_request url key data])%list.
Proof.
  intros Hurl Hkey Hdata. rewrite (bpCurl_proceeds w st url key post Hurl Hkey).
  rewrite (bind_lift_ok _ _ _ _ Hdata).
  unfold bind, opener_open. cbn [req_headers curl_request].
  fold (curl_request url key data).
  destruct (http_read w (curl_request url key data)) as [body|e|]; try reflexivity.
  cbn [snd]. by rewrite stable_decode_answer_sent.
Qed.

(** C7.  [bpCreateInvoice("order123", "10.00", "cust-ref-42")] with
    [verifyPos] disabled and a configured key that is not blank.  The
    request body it builds has [orderID] "order123" and [price] "10.00",
    its [posData] is the JSON serialization of the dictionary with the
    single key [posData], and it has no [hash] key.  This body is what
    line 161 serializes and line 163 sends: whatever the server answers,
    the call makes one request, to the invoice url under the configured
    key, whose data is the form encoding of the decoded JSON text of this
    body. *)
Theorem bpCreateInvoice_example
    (w : world) (st : state) (cfg : gmap string value) (verify : value)
    (k body_text : string) (data : option string) :
  heap st !! bpOptions_loc = Some cfg ->
  cfg !! "verifyPos" = Some verify ->
  truthy verify = false ->
  cfg !! "apiKey" = Some (VStr k) ->
  whitespace_only k = false ->
  Json.dumps (VDict (invoice_body (VStr "order123") (VStr "10.00")
                       (dq "{'posData': 'cust-ref-42'}") cfg
                       {[ "posData" := VStr "cust-ref-42" ]})) = Ok body_text ->
  request_data (VStr body_text) = Ok data ->
  exists lo lp st' body,
    bpCreateInvoice_prepare (VStr "order123") (VStr "10.00") (VStr "cust-ref-42")
                            (Imm VNone) st
    = (Ok (Prepared (Ref lo) (Ref lp)), st')
    /\ heap st' !! lp = Some body
    /\ body !! "orderID" = Some (VStr "order123")
    /\ body !! "price" = Some (VStr "10.00")
    /\ body !! "posData" = Some (VStr (dq "{'posData': 'cust-ref-42'}"))
    /\ Json.dumps (VDict {[ "posData" := VStr "cust-ref-42" ]})
       = Ok (dq "{'posData': 'cust-ref-42'}")
    /\ body !! "hash" = None
    /\ Json.dumps (VDict body) = Ok body_text
    /\ sent (snd (bpCreateInvoice w (VStr "order123") (VStr "10.00") (VStr "cust-ref-42")
                                  (Imm VNone) st))
       = (sent st ++ [curl_request invoice_url k data])%list.
Proof.
  intros Hcfg Hverify Hoff Hk Hkey Hbody Hdata.
  assert (Hdumps : Json.dumps (VDict {[ "posData" := VStr "cust-ref-42" ]})
                   = Ok (dq "{'posData': 'cust-ref-42'}")) by (vm_compute; reflexivity).
  assert (E : (∅ : gmap string value) ∪ cfg = cfg) by apply (left_id_L ∅ (∪)).
  assert (Hgiven : options_given st (Imm VNone) ∅) by (left; split; reflexivity).
  assert (Henv : posData_envelope verify (VStr "cust-ref-42") (∅ ∪ cfg)
                 = Ok {[ "posData" := VStr "cust-ref-42" ]}).
  { unfold posData_envelope. rewrite Hoff. reflexivity. }
  assert (Hfits : (String.length (dq "{'posData': 'cust-ref-42'}") <= 100)%nat)
    by (vm_compute; lia).
  destruct (bpCreateInvoice_prepare_fits st cfg (Imm VNone) ∅ verify
              (VStr "order123") (VStr "10.00") (VStr "cust-ref-42")
              {[ "posData" := VStr "cust-ref-42" ]} (dq "{'posData': 'cust-ref-42'}")
              Hcfg Hgiven Hverify Henv Hdumps Hfits)
    as (lo & lp & st' & Hrun & Hlp & _).
  destruct (bpCreateInvoice_prepared w st cfg (Imm VNone) ∅ verify
              (VStr "order123") (VStr "10.00") (VStr "cust-ref-42")
              {[ "posData" := VStr "cust-ref-42" ]} (dq "{'posData': 'cust-ref-42'}")
              body_text k Hcfg Hgiven Hverify Henv Hdumps Hfits)
    as (st1 & Hfull & _ & Hsent & _).
  { rewrite E. exact Hbody. }
  { rewrite E. exact Hk. }
  rewrite E in Hlp.
  exists lo, lp, st'. eexists. split; [exact Hrun|]. split; [exact Hlp|].
  rewrite !copy_keys_lookup.
  rewrite (decide_True (P := "orderID" ∈ post_options)) by (unfold post_options; in_list).
  rewrite (decide_True (P := "price" ∈ post_options)) by (unfold post_options; in_list).
  rewrite (decide_True (P := "posData" ∈ post_options)) by (unfold post_options; in_list).
  rewrite (decide_False (P := "hash" ∈ post_options)) by apply hash_not_allow_listed.
  split; [rewrite lookup_insert_ne by discriminate; rewrite lookup_insert_eq; reflexivity|].
  split; [rewrite lookup_insert_eq; reflexivity|].
  split; [do 2 (rewrite lookup_insert_ne by discriminate); rewrite lookup_insert_eq;
          reflexivity|].
  split; [exact Hdumps|].
  split; [apply lookup_singleton_ne; discriminate|].
  split; [exact Hbody|].
  rewrite Hfull, (bind_stable_after sent).
  - rewrite (bpCurl_sent w st1 invoice_url k (VStr body_text) data eq_refl Hkey Hdata).
    by rewrite Hsent.
  - intros response. stable_steps; apply stable_bpLog_sent.
Qed.

Lemma bpCreateInvoice_example_witness :
  exists lo lp st' body,
    bpCreateInvoice_prepare (VStr "order123") (VStr "10.00") (VStr "cust-ref-42")
                            (Imm VNone) logging_state
    = (Ok (Prepared (Ref lo) (Ref lp)), st')
    /\ heap st' !! lp = Some body
    /\ body !! "orderID" = Some (VStr "order123")
    /\ body !! "price" = Some (VStr "10.00")
    /\ body !! "posData" = Some (VStr (dq "{'posData': 'cust-ref-42'}"))
    /\ Json.dumps (VDict {[ "posData" := VStr "cust-ref-42" ]})
       = Ok (dq "{'posData': 'cust-ref-42'}")
    /\ body !! "hash" = None
    /\ Json.dumps (VDict body) = Ok sample_body_text
    /\ sent (snd (bpCreateInvoice (sample_world sample_answer) (VStr "order123")
                                  (VStr "10.00") (VStr "cust-ref-42") (Imm VNone)
                                  logging_state))
       = (sent logging_state
          ++ [curl_request invoice_url "secret" sample_request_data])%list.
Proof.
  apply (bpCreateInvoice_example (sample_world sample_answer) logging_state
           logging_config (VBool false) "secret" sample_body_text sample_request_data);
    first [reflexivity | (vm_compute; reflexivity)].
Defined.
